(** * Load-test harness: shared test state, virtual-user flows, summary table

    A shallow embedding of the Python sources under [load-test/],
    [load-test-client/] and [analysis/]:

    - [SharedState] (identical in [locustfile.py], [locustfile_aws.py] and
      [locustfile_localstack.py]) as a record with one function per method;
    - the virtual-user flows as programs in a small state monad over a
      [World] that holds the shared state, the log of HTTP exchanges and
      the outcomes reported to the metrics sink;
    - the setup protocol of [locustfile.py] as an interleaving machine whose
      atomic steps are the individual [SharedState] calls, and the life
      cycle of the users of [locustfile_comparison.py] as another;
    - [create_summary] of [compare_results.py] over binary64 floats, and
      the search for the result files over a directory listing;
    - the data generators of [locustfile.py] over the draws of [random].

    Python integers are unbounded, hence [Z]. *)

From stdpp Require Import base list strings gmap.
From Stdlib Require Import ZArith Lia Floats DecimalString Uint63.

Local Open Scope Z_scope.

(* ====================================================================== *)
(** * The shared state *)
(* ====================================================================== *)

(** [class SharedState] of [locustfile.py].  The fields drop the leading
    underscore of the Python attributes.  [_lock] has no field of its own:
    every method body runs entirely inside [with self._lock], so each method
    is one atomic transition and a concurrent history of the object is a
    sequence of method calls (see [run]). *)
Record SharedState : Type := mkSharedState {
  product_ids : list Z;
  setup_complete : bool;
  checkout_count : Z;
  declined_count : Z;
  customer_id_counter : Z
}.

(** [SharedState.__init__] *)
Definition init : SharedState :=
  {| product_ids := [];
     setup_complete := false;
     checkout_count := 0;
     declined_count := 0;
     customer_id_counter := 1 |}.

(** [self._product_ids.append(product_id)] *)
Definition add_product (product_id : Z) (s : SharedState) : SharedState :=
  {| product_ids := product_ids s ++ [product_id];
     setup_complete := setup_complete s;
     checkout_count := checkout_count s;
     declined_count := declined_count s;
     customer_id_counter := customer_id_counter s |}.

(** [random.choice(seq)] is [seq[self._randbelow(len(seq))]]; the draw [r]
    of the generator is reduced below the length.  On the empty sequence
    Python raises [IndexError], here [None]. *)
Definition random_choice {A : Type} (r : nat) (l : list A) : option A :=
  match l with
  | [] => None
  | _ :: _ => l !! (r `mod` length l)%nat
  end.

(** [return random.choice(self._product_ids) if self._product_ids else None];
    the Python [None] is the [None] of the option, an identifier [p] is
    [Some p]. *)
Definition get_random_product (r : nat) (s : SharedState) : option Z :=
  match product_ids s with
  | [] => None
  | _ :: _ => random_choice r (product_ids s)
  end.

Definition mark_setup_complete (s : SharedState) : SharedState :=
  {| product_ids := product_ids s;
     setup_complete := true;
     checkout_count := checkout_count s;
     declined_count := declined_count s;
     customer_id_counter := customer_id_counter s |}.

Definition is_setup_complete (s : SharedState) : bool := setup_complete s.

(** [self._checkout_count += 1; return self._checkout_count] *)
Definition increment_checkout (s : SharedState) : Z * SharedState :=
  let s' := {| product_ids := product_ids s;
               setup_complete := setup_complete s;
               checkout_count := checkout_count s + 1;
               declined_count := declined_count s;
               customer_id_counter := customer_id_counter s |} in
  (checkout_count s', s').

Definition increment_declined (s : SharedState) : Z * SharedState :=
  let s' := {| product_ids := product_ids s;
               setup_complete := setup_complete s;
               checkout_count := checkout_count s;
               declined_count := declined_count s + 1;
               customer_id_counter := customer_id_counter s |} in
  (declined_count s', s').

Definition get_checkout_count (s : SharedState) : Z := checkout_count s.

Definition get_declined_count (s : SharedState) : Z := declined_count s.

(** [customer_id = self._customer_id_counter; self._customer_id_counter += 1;
    return customer_id] *)
Definition get_next_customer_id (s : SharedState) : Z * SharedState :=
  let customer_id := customer_id_counter s in
  (customer_id,
   {| product_ids := product_ids s;
      setup_complete := setup_complete s;
      checkout_count := checkout_count s;
      declined_count := declined_count s;
      customer_id_counter := customer_id_counter s + 1 |}).

Definition get_product_count (s : SharedState) : Z :=
  Z.of_nat (length (product_ids s)).

(** ** Histories of calls *)

(** One constructor per public method; [GetRandomProduct] carries the draw
    of the random generator that the call consumes. *)
Inductive call : Type :=
  | AddProduct (product_id : Z)
  | GetRandomProduct (r : nat)
  | MarkSetupComplete
  | IsSetupComplete
  | IncrementCheckout
  | IncrementDeclined
  | GetCheckoutCount
  | GetDeclinedCount
  | GetNextCustomerId
  | GetProductCount.

(** What a call hands back to its caller. *)
Inductive result : Type :=
  | RNone
  | RInt (n : Z)
  | RBool (b : bool)
  | RProduct (p : option Z).

Definition exec (c : call) (s : SharedState) : result * SharedState :=
  match c with
  | AddProduct p => (RNone, add_product p s)
  | GetRandomProduct r => (RProduct (get_random_product r s), s)
  | MarkSetupComplete => (RNone, mark_setup_complete s)
  | IsSetupComplete => (RBool (is_setup_complete s), s)
  | IncrementCheckout => let '(n, s') := increment_checkout s in (RInt n, s')
  | IncrementDeclined => let '(n, s') := increment_declined s in (RInt n, s')
  | GetCheckoutCount => (RInt (get_checkout_count s), s)
  | GetDeclinedCount => (RInt (get_declined_count s), s)
  | GetNextCustomerId => let '(n, s') := get_next_customer_id s in (RInt n, s')
  | GetProductCount => (RInt (get_product_count s), s)
  end.

(** The lock serialises the method bodies: whatever the threads do, the
    object sees its calls one after the other.  [run h s] performs the
    history [h] from [s] and returns each call with its result, in order. *)
Fixpoint run (h : list call) (s : SharedState)
  : list (call * result) * SharedState :=
  match h with
  | [] => ([], s)
  | c :: h' =>
      let '(r, s1) := exec c s in
      let '(tr, s2) := run h' s1 in
      ((c, r) :: tr, s2)
  end.

Definition final (h : list call) (s : SharedState) : SharedState :=
  (run h s).2.

Definition trace (h : list call) (s : SharedState) : list (call * result) :=
  (run h s).1.

(** The values some kind of call returned along a trace. *)
Definition is_next_customer_id (c : call) : bool :=
  match c with GetNextCustomerId => true | _ => false end.

Definition is_add_product (c : call) : bool :=
  match c with AddProduct _ => true | _ => false end.

Definition is_increment_checkout (c : call) : bool :=
  match c with IncrementCheckout => true | _ => false end.

Definition is_increment_declined (c : call) : bool :=
  match c with IncrementDeclined => true | _ => false end.

Definition ints_returned (sel : call -> bool) (tr : list (call * result))
  : list Z :=
  omap (fun cr => match cr with
                  | (c, RInt n) => if sel c then Some n else None
                  | _ => None
                  end) tr.

Definition count_calls (sel : call -> bool) (h : list call) : nat :=
  length (filter (fun c => sel c = true) h).

(** The arguments of the [add_product] calls of a history, in order. *)
Definition added (h : list call) : list Z :=
  omap (fun c => match c with AddProduct p => Some p | _ => None end) h.

(** [N] calls of the same method in a row. *)
Definition customer_ids (n : nat) (s : SharedState) : list Z :=
  ints_returned is_next_customer_id (trace (replicate n GetNextCustomerId) s).

(** The integers [a, a+1, ..., a+n-1]. *)
Fixpoint zrange (a : Z) (n : nat) : list Z :=
  match n with
  | O => []
  | S n' => a :: zrange (a + 1) n'
  end.

(* ====================================================================== *)
(** * HTTP, the metrics sink and the world of a test run *)
(* ====================================================================== *)

(** The four POST requests of the flows.  The product payload
    ([generate_product_data()]) and the credit card number are random filler
    and are left out. *)
Inductive request : Type :=
  | PostProduct
  | PostShoppingCart (customer_id : Z)
  | PostAddItem (cart_id product_id quantity : Z)
  | PostCheckout (cart_id : Z).

(** A response as the flows look at it: the status and the decoded body.
    [json = None] stands for [resp.json().get(...)] raising (body that is not
    JSON, or not a JSON object).  A body maps field names to the integer they
    hold; a field that is absent or [null] is not in the map.  The identifier
    fields are integers: [add_product] is annotated [product_id: int]. *)
Record response : Type := mkResponse {
  status_code : Z;
  json : option (gmap string Z)
}.

(** What [requests.post] does: raise (connection error, timeout) or answer. *)
Inductive reply : Type :=
  | Raised
  | Answered (resp : response).

(** What is reported to the metrics sink for one request: [resp.success()] /
    [exception=None], or [resp.failure(msg)] / [exception=...]. *)
Inductive outcome : Type :=
  | Success
  | Failure (message : string).

Record World : Type := mkWorld {
  shared : SharedState;                 (* the module-level [shared_state] *)
  exchanges : list (request * reply);   (* requests sent, with what came back *)
  sink : list (string * outcome);       (* reports, by request name *)
  draws : nat                           (* draws taken from [random] so far *)
}.

Definition new_world : World :=
  {| shared := init; exchanges := []; sink := []; draws := 0 |}.

(** ** A state monad over the world *)

Definition M (A : Type) : Type := World -> A * World.

Definition ret {A : Type} (a : A) : M A := fun w => (a, w).

Definition bind {A B : Type} (m : M A) (k : A -> M B) : M B :=
  fun w => let '(a, w') := m w in k a w'.

Notation "x <- c1 ;; c2" := (bind c1 (fun x => c2))
  (at level 100, c1 at next level, right associativity).
Notation "c1 ;; c2" := (bind c1 (fun _ => c2))
  (at level 100, right associativity).

(** A method of [shared_state] that returns a value and a new state. *)
Definition call_shared {A : Type} (f : SharedState -> A * SharedState) : M A :=
  fun w =>
    let '(a, s) := f (shared w) in
    (a, {| shared := s; exchanges := exchanges w; sink := sink w;
           draws := draws w |}).

(** A method that only reads. *)
Definition read_shared {A : Type} (f : SharedState -> A) : M A :=
  call_shared (fun s => (f s, s)).

(** A method that only updates. *)
Definition update_shared (f : SharedState -> SharedState) : M unit :=
  call_shared (fun s => (tt, f s)).

Definition report (name : string) (o : outcome) : M unit :=
  fun w =>
    (tt, {| shared := shared w; exchanges := exchanges w;
            sink := sink w ++ [(name, o)]; draws := draws w |}).

(** Python truthiness of [d.get(key)] for an integer field: [None] (absent)
    and [0] are falsy. *)
Definition truthy (v : option Z) : bool :=
  match v with
  | Some n => negb (n =? 0)
  | None => false
  end.

Definition string_of_Z (n : Z) : string := NilZero.string_of_int (Z.to_int n).

(** [f"Status {resp.status_code}"] *)
Definition status_message (resp : response) : string :=
  "Status " +:+ string_of_Z (status_code resp).

Section Flows.

(** The system under test and the random generator are arbitrary: the
    [k]-th request of a run is answered by [server k], the [k]-th draw is
    [rng k]. *)
Variable server : nat -> request -> reply.
Variable rng : nat -> nat.

(** [requests.post(...)] *)
Definition requests_post (rq : request) : M reply :=
  fun w =>
    let rp := server (length (exchanges w)) rq in
    (rp, {| shared := shared w; exchanges := exchanges w ++ [(rq, rp)];
            sink := sink w; draws := draws w |}).

(** [self.client.post(..., catch_response=True)]: Locust's client does not
    raise; a request that could not be completed yields a response with
    status code 0 and no body. *)
Definition client_post (rq : request) : M response :=
  rp <- requests_post rq ;;
  ret match rp with
      | Answered resp => resp
      | Raised => {| status_code := 0; json := None |}
      end.

Definition draw : M nat :=
  fun w =>
    (rng (draws w),
     {| shared := shared w; exchanges := exchanges w; sink := sink w;
        draws := S (draws w) |}).

(** [random.randint(a, b)]: an integer of [a..b]; [ValueError] ([None]) when
    the range is empty. *)
Definition randint (a b : Z) : M (option Z) :=
  if b <? a then ret None
  else r <- draw ;; ret (Some (a + Z.of_nat r `mod` (b - a + 1))).

(** [shared_state.get_random_product()]; [random.choice] is reached, and a
    draw taken, only when the list is not empty. *)
Definition shared_get_random_product : M (option Z) :=
  ids <- read_shared product_ids ;;
  match ids with
  | [] => ret None
  | _ :: _ => r <- draw ;; read_shared (get_random_product r)
  end.

End Flows.

(* ====================================================================== *)
(** * [load-test/locustfile.py] *)
(* ====================================================================== *)

Module Locustfile.
Section Users.

Variable server : nat -> request -> reply.
Variable rng : nat -> nat.

(** Read from the process environment when the module is imported. *)
Variable NUM_INITIAL_PRODUCTS : Z.
Variable TARGET_CHECKOUTS : Z.
Variable MIN_ITEMS_PER_CART : Z.
Variable MAX_ITEMS_PER_CART : Z.

(** [ProductSetupUser.create_product].  Returns [true] when the user stops
    itself ([self.stop()]).  The progress [print]s are left out. *)
Definition create_product : M bool :=
  count <- read_shared get_product_count ;;
  if count >=? NUM_INITIAL_PRODUCTS then ret true
  else
    resp <- client_post server PostProduct ;;
    (if status_code resp =? 201 then
       match json resp with
       | Some body =>
           let product_id := body !! "product_id" in
           match product_id with
           | Some pid =>
               if truthy product_id then
                 update_shared (add_product pid) ;;
                 total <- read_shared get_product_count ;;
                 (if total >=? NUM_INITIAL_PRODUCTS
                  then update_shared mark_setup_complete
                  else ret tt) ;;
                 report "POST /product" Success
               else report "POST /product" (Failure "No product_id")
           | None => report "POST /product" (Failure "No product_id")
           end
       | None => report "POST /product" (Failure "Parse error")
       end
     else report "POST /product" (Failure (status_message resp))) ;;
    ret false.

(** [ShopperUser.__init__]: the user's customer id. *)
Definition ShopperUser_init : M Z := call_shared get_next_customer_id.

(** [ShopperUser.on_start], a [while] loop that sleeps between polls:
    [fuel] bounds the polls made before the engine stops the user.  Returns
    [true] when the loop was left. *)
Fixpoint on_start (fuel : nat) : M bool :=
  match fuel with
  | O => ret false
  | S fuel' =>
      done <- read_shared is_setup_complete ;;
      if done then ret true
      else
        count <- read_shared get_product_count ;;
        if count >? 0 then update_shared mark_setup_complete ;; ret true
        else on_start fuel'
  end.

(** [ShopperUser._create_cart]: the cart id, or [None]. *)
Definition _create_cart (customer_id : Z) : M (option Z) :=
  resp <- client_post server (PostShoppingCart customer_id) ;;
  if status_code resp =? 201 then
    match json resp with
    | Some body =>
        let cart_id := body !! "shopping_cart_id" in
        if truthy cart_id then
          report "POST /shopping-cart" Success ;; ret cart_id
        else
          report "POST /shopping-cart" (Failure "No shopping_cart_id") ;;
          ret None
    | None => report "POST /shopping-cart" (Failure "Parse error") ;; ret None
    end
  else report "POST /shopping-cart" (Failure (status_message resp)) ;; ret None.

(** [ShopperUser._add_item_to_cart] *)
Definition _add_item_to_cart (cart_id : Z) : M bool :=
  product_id <- shared_get_random_product rng ;;
  if negb (truthy product_id) then ret false
  else
    match product_id with
    | None => ret false
    | Some pid =>
        quantity <- randint rng 1 3 ;;
        resp <- client_post server (PostAddItem cart_id pid (default 0 quantity)) ;;
        if status_code resp =? 204 then
          report "POST /shopping-carts/{id}/addItem" Success ;; ret true
        else
          report "POST /shopping-carts/{id}/addItem"
                 (Failure (status_message resp)) ;;
          ret false
    end.

(** [ShopperUser._checkout_cart]; the progress [print]s (and the read of the
    declined count that feeds one of them) are left out. *)
Definition _checkout_cart (cart_id : Z) : M unit :=
  resp <- client_post server (PostCheckout cart_id) ;;
  if status_code resp =? 200 then
    match json resp with
    | Some body =>
        if truthy (body !! "order_id") then
          _ <- call_shared increment_checkout ;;
          report "POST /shopping-carts/{id}/checkout" Success
        else report "POST /shopping-carts/{id}/checkout" (Failure "No order_id")
    | None => report "POST /shopping-carts/{id}/checkout" (Failure "Parse error")
    end
  else if status_code resp =? 402 then
    _ <- call_shared increment_declined ;;
    report "POST /shopping-carts/{id}/checkout" Success
  else report "POST /shopping-carts/{id}/checkout" (Failure (status_message resp)).

(** [sum(1 for _ in range(num_items) if self._add_item_to_cart(cart_id))] *)
Fixpoint add_items (num_items : nat) (cart_id : Z) : M Z :=
  match num_items with
  | O => ret 0
  | S n =>
      added <- _add_item_to_cart cart_id ;;
      rest <- add_items n cart_id ;;
      ret ((if added then 1 else 0) + rest)
  end.

(** [ShopperUser.complete_shopping_cycle].  When [random.randint] raises
    (empty range) the exception leaves the task and the iteration ends. *)
Definition complete_shopping_cycle (customer_id : Z) : M unit :=
  count <- read_shared get_checkout_count ;;
  if count >=? TARGET_CHECKOUTS then ret tt
  else
    cart <- _create_cart customer_id ;;
    match cart with
    | None => ret tt
    | Some cart_id =>
        num_items <- randint rng MIN_ITEMS_PER_CART MAX_ITEMS_PER_CART ;;
        match num_items with
        | None => ret tt
        | Some n =>
            items_added <- add_items (Z.to_nat n) cart_id ;;
            if items_added >? 0 then _checkout_cart cart_id else ret tt
        end
    end.

(** What the engine has the users of a run do, one task at a time.  The
    counters change only inside the locked increments, and which increment a
    checkout attempt makes depends on nothing but the response to its own
    request, so for the counters at the end of a run the tasks may be taken
    one after the other. *)
Inductive task : Type :=
  | CreateProduct                          (* a ProductSetupUser's task *)
  | NewShopper                             (* ShopperUser.__init__ *)
  | OnStart (fuel : nat)                   (* ShopperUser.on_start *)
  | ShoppingCycle (customer_id : Z).       (* a ShopperUser's task *)

Definition perform (t : task) : M unit :=
  match t with
  | CreateProduct => create_product ;; ret tt
  | NewShopper => ShopperUser_init ;; ret tt
  | OnStart fuel => on_start fuel ;; ret tt
  | ShoppingCycle customer_id => complete_shopping_cycle customer_id
  end.

Fixpoint perform_all (ts : list task) : M unit :=
  match ts with
  | [] => ret tt
  | t :: ts' => perform t ;; perform_all ts'
  end.

End Users.
End Locustfile.

(** [resp.status_code in [...]] *)
Definition status_in (resp : response) (codes : list Z) : bool :=
  existsb (Z.eqb (status_code resp)) codes.

(** The text of a caught exception [e] is not modelled. *)
Definition exception_message : string := "exception".

(* ====================================================================== *)
(** * [load-test/locustfile_aws.py] *)
(* ====================================================================== *)

Module Aws.
Section Users.

Variable server : nat -> request -> reply.
Variable rng : nat -> nat.
Variable NUM_INITIAL_PRODUCTS : Z.
Variable TARGET_CHECKOUTS : Z.
Variable MIN_ITEMS_PER_CART : Z.
Variable MAX_ITEMS_PER_CART : Z.

(** The tail of [_create_product], reached when no product was added:
    "503 from bad service is expected". *)
Definition classify_product_status (resp : response) : M unit :=
  if status_code resp =? 503 then report "POST /product" Success
  else report "POST /product" (Failure (status_message resp)).

(** [AWSUser._create_product] *)
Definition _create_product : M bool :=
  resp <- client_post server PostProduct ;;
  if status_in resp [200; 201] then
    match json resp with
    | Some body =>
        let product_id := body !! "product_id" in
        match product_id with
        | Some pid =>
            if truthy product_id then
              update_shared (add_product pid) ;;
              report "POST /product" Success ;;
              ret true
            else classify_product_status resp ;; ret false
        | None => classify_product_status resp ;; ret false
        end
    | None => classify_product_status resp ;; ret false   (* except: pass *)
    end
  else classify_product_status resp ;; ret false.

(** [AWSUser.on_start]; [fuel] bounds the iterations of the [while]. *)
Fixpoint on_start (fuel : nat) : M unit :=
  match fuel with
  | O => ret tt
  | S fuel' =>
      count <- read_shared get_product_count ;;
      if count <? NUM_INITIAL_PRODUCTS then
        created <- _create_product ;;
        if created then
          count <- read_shared get_product_count ;;
          if count >=? NUM_INITIAL_PRODUCTS
          then update_shared mark_setup_complete
          else on_start fuel'
        else on_start fuel'
      else ret tt
  end.

(** [AWSUser._create_cart] *)
Definition _create_cart (customer_id : Z) : M (option Z) :=
  resp <- client_post server (PostShoppingCart customer_id) ;;
  if status_in resp [200; 201] then
    match json resp with
    | Some body =>
        let cart_id := body !! "shopping_cart_id" in
        if truthy cart_id then
          report "POST /shopping-cart" Success ;; ret cart_id
        else
          report "POST /shopping-cart" (Failure "No cart_id in response") ;;
          ret None
    | None =>
        report "POST /shopping-cart" (Failure "No cart_id in response") ;;
        ret None
    end
  else report "POST /shopping-cart" (Failure (status_message resp)) ;; ret None.

(** [AWSUser._add_item] *)
Definition _add_item (cart_id : Z) : M bool :=
  product_id <- shared_get_random_product rng ;;
  if negb (truthy product_id) then ret false
  else
    match product_id with
    | None => ret false
    | Some pid =>
        quantity <- randint rng 1 3 ;;
        resp <- client_post server (PostAddItem cart_id pid (default 0 quantity)) ;;
        if status_in resp [200; 201; 204] then
          report "POST /shopping-carts/{id}/addItem" Success ;; ret true
        else
          report "POST /shopping-carts/{id}/addItem"
                 (Failure (status_message resp)) ;;
          ret false
    end.

(** [AWSUser._checkout] *)
Definition _checkout (cart_id : Z) : M bool :=
  resp <- client_post server (PostCheckout cart_id) ;;
  if status_code resp =? 200 then
    match json resp with
    | Some body =>
        if truthy (body !! "order_id") then
          _ <- call_shared increment_checkout ;;
          report "POST /shopping-carts/{id}/checkout" Success ;;
          ret true
        else
          report "POST /shopping-carts/{id}/checkout" (Failure "No order_id") ;;
          ret false
    | None =>
        report "POST /shopping-carts/{id}/checkout" (Failure "No order_id") ;;
        ret false
    end
  else if status_code resp =? 402 then
    _ <- call_shared increment_declined ;;
    report "POST /shopping-carts/{id}/checkout" Success ;;
    ret true
  else
    report "POST /shopping-carts/{id}/checkout" (Failure (status_message resp)) ;;
    ret false.

Fixpoint add_items (num_items : nat) (cart_id : Z) : M Z :=
  match num_items with
  | O => ret 0
  | S n =>
      added <- _add_item cart_id ;;
      rest <- add_items n cart_id ;;
      ret ((if added then 1 else 0) + rest)
  end.

(** [AWSUser.shopping_flow] *)
Definition shopping_flow (customer_id : Z) : M unit :=
  count <- read_shared get_checkout_count ;;
  if count >=? TARGET_CHECKOUTS then ret tt
  else
    done <- read_shared is_setup_complete ;;
    if negb done then _create_product ;; ret tt
    else
      cart <- _create_cart customer_id ;;
      match cart with
      | None => ret tt
      | Some cart_id =>
          num_items <- randint rng MIN_ITEMS_PER_CART MAX_ITEMS_PER_CART ;;
          match num_items with
          | None => ret tt
          | Some n =>
              items_added <- add_items (Z.to_nat n) cart_id ;;
              if items_added >? 0 then _checkout cart_id ;; ret tt else ret tt
          end
      end.

(** [AWSUser.create_product_task] *)
Definition create_product_task : M unit := _create_product ;; ret tt.

(** What the engine has the users of a run do, one task at a time (see
    [Locustfile.task]). *)
Inductive task : Type :=
  | NewUser                                (* AWSUser.__init__ *)
  | OnStart (fuel : nat)                   (* AWSUser.on_start *)
  | ShoppingFlow (customer_id : Z)         (* @task(10) *)
  | CreateProductTask.                     (* @task(2) *)

Definition perform (t : task) : M unit :=
  match t with
  | NewUser => call_shared get_next_customer_id ;; ret tt
  | OnStart fuel => on_start fuel
  | ShoppingFlow customer_id => shopping_flow customer_id
  | CreateProductTask => create_product_task
  end.

Fixpoint perform_all (ts : list task) : M unit :=
  match ts with
  | [] => ret tt
  | t :: ts' => perform t ;; perform_all ts'
  end.

End Users.
End Aws.

(* ====================================================================== *)
(** * [load-test/locustfile_localstack.py] *)
(* ====================================================================== *)

Module Localstack.
Section Users.

Variable server : nat -> request -> reply.
Variable rng : nat -> nat.
Variable NUM_INITIAL_PRODUCTS : Z.
Variable TARGET_CHECKOUTS : Z.
Variable MIN_ITEMS_PER_CART : Z.
Variable MAX_ITEMS_PER_CART : Z.

(** [LocalStackUser._create_product]; the user's own [products_created]
    counter is left out. *)
Definition _create_product : M bool :=
  rp <- requests_post server PostProduct ;;
  match rp with
  | Raised => report "POST /product" (Failure exception_message) ;; ret false
  | Answered resp =>
      if status_in resp [200; 201] then
        match json resp with
        | None => report "POST /product" (Failure exception_message) ;; ret false
        | Some body =>
            let product_id := body !! "product_id" in
            match product_id with
            | Some pid =>
                if truthy product_id then
                  update_shared (add_product pid) ;;
                  report "POST /product" Success ;;
                  ret true
                else
                  report "POST /product" (Failure (status_message resp)) ;;
                  ret false
            | None =>
                report "POST /product" (Failure (status_message resp)) ;;
                ret false
            end
        end
      else report "POST /product" (Failure (status_message resp)) ;; ret false
  end.

(** [LocalStackUser.on_start]; [fuel] bounds the iterations of the [while]. *)
Fixpoint on_start (fuel : nat) : M unit :=
  match fuel with
  | O => ret tt
  | S fuel' =>
      count <- read_shared get_product_count ;;
      if count <? NUM_INITIAL_PRODUCTS then
        _create_product ;;
        count <- read_shared get_product_count ;;
        if count >=? NUM_INITIAL_PRODUCTS
        then update_shared mark_setup_complete
        else on_start fuel'
      else ret tt
  end.

(** [LocalStackUser._create_cart]: whatever [shopping_cart_id] holds. *)
Definition _create_cart (customer_id : Z) : M (option Z) :=
  rp <- requests_post server (PostShoppingCart customer_id) ;;
  match rp with
  | Raised => report "POST /shopping-cart" (Failure exception_message) ;; ret None
  | Answered resp =>
      if status_in resp [200; 201] then
        match json resp with
        | None =>
            report "POST /shopping-cart" (Failure exception_message) ;; ret None
        | Some body =>
            report "POST /shopping-cart" Success ;;
            ret (body !! "shopping_cart_id")
        end
      else
        report "POST /shopping-cart" (Failure (status_message resp)) ;; ret None
  end.

(** [LocalStackUser._add_item] *)
Definition _add_item (cart_id : Z) : M bool :=
  product_id <- shared_get_random_product rng ;;
  if negb (truthy product_id) then ret false
  else
    match product_id with
    | None => ret false
    | Some pid =>
        quantity <- randint rng 1 3 ;;
        rp <- requests_post server (PostAddItem cart_id pid (default 0 quantity)) ;;
        match rp with
        | Raised =>
            report "POST /shopping-carts/{id}/addItem" (Failure exception_message) ;;
            ret false
        | Answered resp =>
            let success := status_in resp [200; 201; 204] in
            report "POST /shopping-carts/{id}/addItem"
                   (if success then Success else Failure (status_message resp)) ;;
            ret success
        end
    end.

(** [LocalStackUser._checkout]; the progress [print] is left out. *)
Definition _checkout (cart_id : Z) : M bool :=
  rp <- requests_post server (PostCheckout cart_id) ;;
  match rp with
  | Raised =>
      report "POST /shopping-carts/{id}/checkout" (Failure exception_message) ;;
      ret false
  | Answered resp =>
      if status_code resp =? 200 then
        _ <- call_shared increment_checkout ;;
        report "POST /shopping-carts/{id}/checkout" Success ;;
        ret true
      else if status_code resp =? 402 then
        _ <- call_shared increment_declined ;;
        report "POST /shopping-carts/{id}/checkout" Success ;;
        ret true
      else
        report "POST /shopping-carts/{id}/checkout"
               (Failure (status_message resp)) ;;
        ret false
  end.

Fixpoint add_items (num_items : nat) (cart_id : Z) : M Z :=
  match num_items with
  | O => ret 0
  | S n =>
      added <- _add_item cart_id ;;
      rest <- add_items n cart_id ;;
      ret ((if added then 1 else 0) + rest)
  end.

(** [LocalStackUser.shopping_flow] *)
Definition shopping_flow (customer_id : Z) : M unit :=
  count <- read_shared get_checkout_count ;;
  if count >=? TARGET_CHECKOUTS then ret tt
  else
    cart <- _create_cart customer_id ;;
    if negb (truthy cart) then ret tt
    else
      match cart with
      | None => ret tt
      | Some cart_id =>
          num_items <- randint rng MIN_ITEMS_PER_CART MAX_ITEMS_PER_CART ;;
          match num_items with
          | None => ret tt
          | Some n =>
              items_added <- add_items (Z.to_nat n) cart_id ;;
              if items_added >? 0 then _checkout cart_id ;; ret tt else ret tt
          end
      end.

(** What the engine has the users of a run do, one task at a time (see
    [Locustfile.task]). *)
Inductive task : Type :=
  | NewUser                                (* LocalStackUser.__init__ *)
  | OnStart (fuel : nat)                   (* LocalStackUser.on_start *)
  | ShoppingFlow (customer_id : Z).        (* the user's task *)

Definition perform (t : task) : M unit :=
  match t with
  | NewUser => call_shared get_next_customer_id ;; ret tt
  | OnStart fuel => on_start fuel
  | ShoppingFlow customer_id => shopping_flow customer_id
  end.

Fixpoint perform_all (ts : list task) : M unit :=
  match ts with
  | [] => ret tt
  | t :: ts' => perform t ;; perform_all ts'
  end.

End Users.
End Localstack.

(* ====================================================================== *)
(** * [load-test/locustfile_comparison.py] *)
(* ====================================================================== *)

(** This file's [SharedState] keeps the product list, the setup flag and the
    checkout counter with the same methods as above, and has neither a
    declined counter nor a customer-id counter: those two fields of the
    record stay untouched here.  Its latency samples ([_metrics],
    [add_metric]) and the list [_cart_ids] that nothing uses are left out. *)
Module Comparison.
Section Users.

Variable server : nat -> request -> reply.
Variable rng : nat -> nat.
Variable NUM_PRODUCTS : Z.
Variable TARGET_CHECKOUTS : Z.

(** [on_start] of both user classes; [fuel] bounds the polls. *)
Fixpoint on_start (fuel : nat) : M unit :=
  match fuel with
  | O => ret tt
  | S fuel' =>
      done <- read_shared is_setup_complete ;;
      if done then ret tt
      else
        count <- read_shared get_product_count ;;
        if count >=? 10 then update_shared mark_setup_complete
        else on_start fuel'
  end.

(** [LocalStackUser.create_product].  The test is ["product_id" in data],
    not truthiness; a status of 200/201 without the field reports nothing.
    A field that is [null] reads as absent here (see [response]), where the
    code appends [None] to the pool and reports a success: one request and
    one report, and an entry of the pool that every reader takes for no
    product. *)
Definition LocalStackUser_create_product : M unit :=
  count <- read_shared get_product_count ;;
  if count >=? NUM_PRODUCTS then ret tt
  else
    rp <- requests_post server PostProduct ;;
    match rp with
    | Raised => report "/product" (Failure exception_message)
    | Answered resp =>
        if status_in resp [200; 201] then
          match json resp with
          | None => report "/product" (Failure exception_message)
          | Some data =>
              match data !! "product_id" with
              | Some pid =>
                  update_shared (add_product pid) ;;
                  report "/product" Success
              | None => ret tt
              end
          end
        else report "/product" (Failure (status_message resp))
    end.

(** The last request of [LocalStackUser.shopping_flow] (l.261-290), with the
    handler of the enclosing [try]: 402 "declined (still valid)". *)
Definition LocalStackUser_checkout (cart_id : Z) : M unit :=
  rp <- requests_post server (PostCheckout cart_id) ;;
  match rp with
  | Raised => report "/shopping-cart" (Failure exception_message)
  | Answered resp =>
      if status_in resp [200; 402] then
        _ <- call_shared increment_checkout ;;
        report "/shopping-carts/{id}/checkout" Success
      else
        report "/shopping-carts/{id}/checkout" (Failure (status_message resp))
  end.

(** [LocalStackUser.shopping_flow]: one [try] around the three requests,
    whose handler reports under the name of the first. *)
Definition LocalStackUser_shopping_flow (customer_id : Z) : M unit :=
  count <- read_shared get_checkout_count ;;
  if count >=? TARGET_CHECKOUTS then ret tt
  else
    product_id <- shared_get_random_product rng ;;
    if negb (truthy product_id) then ret tt
    else
      match product_id with
      | None => ret tt
      | Some pid =>
          rp <- requests_post server (PostShoppingCart customer_id) ;;
          match rp with
          | Raised => report "/shopping-cart" (Failure exception_message)
          | Answered resp =>
              if status_in resp [200; 201] then
                match json resp with
                | None => report "/shopping-cart" (Failure exception_message)
                | Some body =>
                    let cart_id := body !! "shopping_cart_id" in
                    report "/shopping-cart" Success ;;
                    match cart_id with
                    | None => ret tt
                    | Some cid =>
                        if truthy cart_id then
                          rp <- requests_post server (PostAddItem cid pid 1) ;;
                          match rp with
                          | Raised =>
                              report "/shopping-cart" (Failure exception_message)
                          | Answered resp =>
                              report "/shopping-carts/{id}/addItem"
                                (if status_in resp [200; 204] then Success
                                 else Failure (status_message resp)) ;;
                              LocalStackUser_checkout cid
                          end
                        else ret tt
                    end
                end
              else ret tt
          end
      end.

(** The requests of [AWSUser] pass no [name=]: Locust reports them under
    the path of the request. *)
Definition add_item_path (cart_id : Z) : string :=
  "/shopping-carts/" +:+ string_of_Z cart_id +:+ "/addItem".

Definition checkout_path (cart_id : Z) : string :=
  "/shopping-carts/" +:+ string_of_Z cart_id +:+ "/checkout".

(** [AWSUser.create_product] *)
Definition AWSUser_create_product : M unit :=
  count <- read_shared get_product_count ;;
  if count >=? NUM_PRODUCTS then ret tt
  else
    resp <- client_post server PostProduct ;;
    if status_in resp [200; 201] then
      match json resp with
      | None => report "/product" (Failure "Parse error")
      | Some body =>
          let product_id := body !! "product_id" in
          match product_id with
          | Some pid =>
              if truthy product_id then
                update_shared (add_product pid) ;;
                report "/product" Success
              else report "/product" (Failure "No product_id")
          | None => report "/product" (Failure "No product_id")
          end
      end
    else report "/product" (Failure (status_message resp)).

(** The last request of [AWSUser.shopping_flow] (l.397-410). *)
Definition AWSUser_checkout (cart_id : Z) : M unit :=
  resp <- client_post server (PostCheckout cart_id) ;;
  if status_in resp [200; 402] then
    _ <- call_shared increment_checkout ;;
    report (checkout_path cart_id) Success
  else report (checkout_path cart_id) (Failure (status_message resp)).

(** [AWSUser.shopping_flow] *)
Definition AWSUser_shopping_flow (customer_id : Z) : M unit :=
  count <- read_shared get_checkout_count ;;
  if count >=? TARGET_CHECKOUTS then ret tt
  else
    product_id <- shared_get_random_product rng ;;
    if negb (truthy product_id) then ret tt
    else
      match product_id with
      | None => ret tt
      | Some pid =>
          resp <- client_post server (PostShoppingCart customer_id) ;;
          if status_in resp [200; 201] then
            match json resp with
            | None => report "/shopping-cart" (Failure "Parse error")
            | Some body =>
                let cart_id := body !! "shopping_cart_id" in
                report "/shopping-cart" Success ;;
                match cart_id with
                | None => ret tt
                | Some cid =>
                    if truthy cart_id then
                      resp <- client_post server (PostAddItem cid pid 1) ;;
                      if status_in resp [200; 204] then
                        report (add_item_path cid) Success ;;
                        AWSUser_checkout cid
                      else
                        report (add_item_path cid) (Failure (status_message resp))
                    else ret tt
                end
            end
          else report "/shopping-cart" (Failure (status_message resp))
      end.

(** What the engine has the users of a run do, one task at a time.  Both
    user classes are defined in the file, so a run may hold users of both;
    the customer id of a user is the one it drew in [__init__]
    ([random.randint(1, 100000)]). *)
Inductive task : Type :=
  | OnStart (fuel : nat)
  | LocalStackCreateProduct
  | LocalStackShoppingFlow (customer_id : Z)
  | AWSCreateProduct
  | AWSShoppingFlow (customer_id : Z).

Definition perform (t : task) : M unit :=
  match t with
  | OnStart fuel => on_start fuel
  | LocalStackCreateProduct => LocalStackUser_create_product
  | LocalStackShoppingFlow customer_id => LocalStackUser_shopping_flow customer_id
  | AWSCreateProduct => AWSUser_create_product
  | AWSShoppingFlow customer_id => AWSUser_shopping_flow customer_id
  end.

Fixpoint perform_all (ts : list task) : M unit :=
  match ts with
  | [] => ret tt
  | t :: ts' => perform t ;; perform_all ts'
  end.

End Users.
End Comparison.

(* ====================================================================== *)
(** * [load-test-client/locustfile.py] *)
(* ====================================================================== *)

(** [ShoppingCartUser] posts with [self.client.post] and without
    [catch_response]: the tasks do not look at the response, and Locust's
    client reports the request by itself, under the path of the request.
    [on_start], which creates one cart for customer 1 and keeps
    [response.json()["shopping_cart_id"]] whatever it holds, is left out:
    the two tasks are given the identifier it kept. *)
Module Client.
Section Users.

Variable server : nat -> request -> reply.

(** [response.raise_for_status()], by which Locust's client decides what to
    report: it raises the exception of a request that could not be
    completed, and [HTTPError] on a status of 400 to 599. *)
Definition raises_for_status (rp : reply) : bool :=
  match rp with
  | Raised => true
  | Answered resp => (400 <=? status_code resp) && (status_code resp <? 600)
  end.

(** [self.client.post(path, ...)]: the request, and its report.  The text
    of the exception is not modelled. *)
Definition client_post (path : string) (rq : request) : M reply :=
  rp <- requests_post server rq ;;
  report path (if raises_for_status rp then Failure exception_message
               else Success) ;;
  ret rp.

Definition add_item_path (cart_id : Z) : string :=
  "/shopping-carts/" +:+ string_of_Z cart_id +:+ "/addItem".

Definition checkout_path (cart_id : Z) : string :=
  "/shopping-carts/" +:+ string_of_Z cart_id +:+ "/checkout".

(** [ShoppingCartUser.add_item_to_cart]; [cart_id] is [self.cart_id], the
    identifier that [on_start] took from the response to its cart request. *)
Definition add_item_to_cart (cart_id : Z) : M unit :=
  client_post (add_item_path cart_id) (PostAddItem cart_id 100 2) ;; ret tt.

(** [ShoppingCartUser.checkout] *)
Definition checkout (cart_id : Z) : M unit :=
  client_post (checkout_path cart_id) (PostCheckout cart_id) ;; ret tt.

End Users.
End Client.

(* ====================================================================== *)
(** * The setup protocol of [locustfile.py], call by call *)
(* ====================================================================== *)

(** Between two calls on [shared_state] a user holds no lock, so the users
    of a run interleave at the granularity of single calls (and of the HTTP
    requests between them).  Each user is a program counter over the points
    of its code where the next such step starts. *)
Module Protocol.

(** [ProductSetupUser]: the engine runs its task [create_product] again and
    again until the user stops itself. *)
Inductive setup_pc : Type :=
  | PGuard                     (* l.150: [get_product_count() >= NUM...] *)
  | PPost                      (* l.154: POST /product *)
  | PAdd (product_id : Z)      (* l.164: [add_product(product_id)] *)
  | PCount                     (* l.165: [total = get_product_count()] *)
  | PMark                      (* l.171: [mark_setup_complete()] *)
  | PStopped.                  (* l.151: [self.stop()] *)

(** [ShopperUser]: [__init__], the polling loop of [on_start], then its task
    [complete_shopping_cycle] again and again.  The customer id stays in the
    user and plays no part here. *)
Inductive shopper_pc : Type :=
  | SInit                      (* l.188: [get_next_customer_id()] *)
  | SPollFlag                  (* l.191: [is_setup_complete()] *)
  | SPollCount                 (* l.192: [get_product_count() > 0] *)
  | SMark                      (* l.193: [mark_setup_complete()] *)
  | SSleep                     (* l.195: [time.sleep(0.5)] *)
  | SShopping.                 (* l.197-279: shopping cycles *)

Inductive user : Type :=
  | ProductSetupUser (pc : setup_pc)
  | ShopperUser (pc : shopper_pc).

(** The calls that [complete_shopping_cycle] and its helpers make on the
    shared state (l.199, l.233, l.259, l.262, l.276). *)
Inductive shopping_call : Type :=
  | CycleGetCheckoutCount
  | CycleGetRandomProduct (r : nat)
  | CycleIncrementCheckout
  | CycleGetDeclinedCount
  | CycleIncrementDeclined.

Definition call_of (c : shopping_call) : call :=
  match c with
  | CycleGetCheckoutCount => GetCheckoutCount
  | CycleGetRandomProduct r => GetRandomProduct r
  | CycleIncrementCheckout => IncrementCheckout
  | CycleGetDeclinedCount => GetDeclinedCount
  | CycleIncrementDeclined => IncrementDeclined
  end.

(** One scheduling decision: which user moves, and what the outside world
    feeds the step if it needs it (the response to a POST /product, the next
    call of a shopping cycle). *)
Record event : Type := mkEvent {
  who : nat;
  answer : response;
  next_call : shopping_call
}.

Record system : Type := mkSystem {
  state : SharedState;
  users : list user
}.

Section Steps.

Variable NUM_INITIAL_PRODUCTS : Z.

Definition step_setup (resp : response) (pc : setup_pc) (s : SharedState)
  : setup_pc * SharedState :=
  match pc with
  | PGuard =>
      if get_product_count s >=? NUM_INITIAL_PRODUCTS then (PStopped, s)
      else (PPost, s)
  | PPost =>
      if status_code resp =? 201 then
        match json resp with
        | Some body =>
            match body !! "product_id" with
            | Some pid =>
                if truthy (Some pid) then (PAdd pid, s) else (PGuard, s)
            | None => (PGuard, s)
            end
        | None => (PGuard, s)
        end
      else (PGuard, s)
  | PAdd pid => (PCount, add_product pid s)
  | PCount =>
      if get_product_count s >=? NUM_INITIAL_PRODUCTS then (PMark, s)
      else (PGuard, s)
  | PMark => (PGuard, mark_setup_complete s)
  | PStopped => (PStopped, s)
  end.

Definition step_shopper (c : shopping_call) (pc : shopper_pc) (s : SharedState)
  : shopper_pc * SharedState :=
  match pc with
  | SInit => (SPollFlag, (get_next_customer_id s).2)
  | SPollFlag => if is_setup_complete s then (SShopping, s) else (SPollCount, s)
  | SPollCount => if get_product_count s >? 0 then (SMark, s) else (SSleep, s)
  | SMark => (SShopping, mark_setup_complete s)
  | SSleep => (SPollFlag, s)
  | SShopping => (SShopping, (exec (call_of c) s).2)
  end.

Definition step_user (e : event) (u : user) (s : SharedState)
  : user * SharedState :=
  match u with
  | ProductSetupUser pc =>
      let '(pc', s') := step_setup (answer e) pc s in (ProductSetupUser pc', s')
  | ShopperUser pc =>
      let '(pc', s') := step_shopper (next_call e) pc s in (ShopperUser pc', s')
  end.

(** The user [who e] takes its next step; an index that names no user
    leaves the system as it is. *)
Definition step (sys : system) (e : event) : system :=
  match users sys !! who e with
  | None => sys
  | Some u =>
      let '(u', s') := step_user e u (state sys) in
      {| state := s'; users := <[who e := u']> (users sys) |}
  end.

Definition execute (es : list event) (sys : system) : system :=
  foldl step sys es.

End Steps.

(** A run starts from a fresh [SharedState] with every user at its first
    program point. *)
Definition start (setup_users shoppers : nat) : system :=
  {| state := init;
     users := replicate setup_users (ProductSetupUser PGuard)
              ++ replicate shoppers (ShopperUser SInit) |}.

(** The users whose next or second next call is [mark_setup_complete], or
    who have just added a product. *)
Definition about_to_mark (u : user) : bool :=
  match u with
  | ProductSetupUser PCount | ProductSetupUser PMark | ShopperUser SMark => true
  | _ => false
  end.

(** The invariant of the protocol: the flag is set only with a product in
    the list, and so is every user that is on its way to set it. *)
Definition safe (sys : system) : Prop :=
  (setup_complete (state sys) = true -> product_ids (state sys) <> []) /\
  Forall (fun u => about_to_mark u = true -> product_ids (state sys) <> [])
         (users sys).

(** What one step of one user, from [u] in state [s] to [u'] in [s'], does
    to the facts [safe] speaks of. *)
Definition step_safe (u : user) (s : SharedState) (u' : user) (s' : SharedState)
  : Prop :=
  (product_ids s <> [] -> product_ids s' <> []) /\
  (about_to_mark u' = true -> product_ids s' <> []) /\
  (setup_complete s' = true -> product_ids s' <> []) /\
  (setup_complete s = false -> setup_complete s' = true -> product_ids s <> []).

(** A sample run: every POST /product is answered with product 7. *)
Definition product_7 : response :=
  {| status_code := 201; json := Some {["product_id" := 7]} |}.

Definition turn (i : nat) : event :=
  {| who := i; answer := product_7; next_call := CycleGetCheckoutCount |}.


(** ** The product count under concurrent setup users *)

Definition is_setup_user (u : user) : bool :=
  match u with ProductSetupUser _ => true | ShopperUser _ => false end.

(** Past the guard of [create_product], with the product not yet added:
    waiting for the response, or holding its product id. *)
Definition in_flight (u : user) : bool :=
  match u with
  | ProductSetupUser PPost | ProductSetupUser (PAdd _) => true
  | _ => false
  end.

Definition is_stopped (u : user) : bool :=
  match u with ProductSetupUser PStopped => true | _ => false end.

Definition count_users (sel : user -> bool) (us : list user) : Z :=
  Z.of_nat (length (List.filter sel us)).

(** The products added and those about to be added stay within the target
    plus the setup users but one; a user stops only on a full pool. *)
Definition bounded (NUM : Z) (sys : system) : Prop :=
  get_product_count (state sys) + count_users in_flight (users sys)
    <= Z.max 0 (NUM - 1 + count_users is_setup_user (users sys)) /\
  Forall (fun u => is_stopped u = true -> NUM <= get_product_count (state sys))
         (users sys).

(** What a step of a user, from [u] in [s] to [u'] in [s'], does to the
    count and to its own status. *)
Definition step_bound (NUM : Z) (u : user) (s : SharedState) (u' : user)
    (s' : SharedState) : Prop :=
  is_setup_user u' = is_setup_user u /\
  get_product_count s <= get_product_count s' /\
  (get_product_count s' + (if in_flight u' then 1 else 0)
     <= get_product_count s + (if in_flight u then 1 else 0) \/
   (is_setup_user u = true /\ in_flight u = false /\
    get_product_count s' < NUM)) /\
  (is_stopped u' = true -> is_stopped u = true \/ NUM <= get_product_count s').

End Protocol.

(* ====================================================================== *)
(** * [analysis/compare_results.py]: the summary table *)
(* ====================================================================== *)

Module CompareResults.

(** ** Numbers

    Python's [float] and numpy's [float64] are IEEE 754 binary64, the
    kernel's [float].  The exact value of a finite float is [m * 2^e] for the
    mantissa and exponent that [Prim2SF] returns. *)

(** [num / den] rounded to the nearest integer, ties to even
    ([0 <= num], [0 < den]). *)
Definition round_half_even (num den : Z) : Z :=
  let q := num / den in
  let r := num `mod` den in
  if 2 * r <? den then q
  else if den <? 2 * r then q + 1
  else if Z.even q then q else q + 1.

(** The float nearest to the integer [n]. *)
Definition float_of_Z (n : Z) : float :=
  SF2Prim (binary_normalize prec emax n 0 false).

(** The float nearest to [num / den] ([0 <= num], [0 < den]): the quotient
    is taken with more than 53 bits and one sticky bit, then rounded once. *)
Definition nearest_float (num den : Z) : float :=
  let k := Z.max 0 (64 + Z.log2 den - Z.log2 num) in
  let q := (num * 2 ^ k) / den in
  let r := (num * 2 ^ k) `mod` den in
  SF2Prim (binary_normalize prec emax
             (2 * q + (if r =? 0 then 0 else 1)) (- (k + 1)) false).

(** [m * 2^e * k] rounded to the nearest integer, ties to even. *)
Definition scaled (k : Z) (m : positive) (e : Z) : Z :=
  if 0 <=? e then Z.pos m * 2 ^ e * k
  else round_half_even (Z.pos m * k) (2 ^ (- e)).

(** [numpy.rint] *)
Definition rint (x : float) : float :=
  match Prim2SF x with
  | S754_finite s m e =>
      if 0 <=? e then x
      else
        let t := float_of_Z (round_half_even (Z.pos m) (2 ^ (- e))) in
        if s then (- t)%float else t
  | _ => x
  end.

(** [round(x, 2)] on a [numpy.float64]: numpy rounds to decimals by
    [rint(x * 100) / 100]. *)
Definition np_round2 (x : float) : float := (rint (x * 100) / 100)%float.

(** [round(x, 2)] on a Python [float]: the decimal rounding of the exact
    value, ties to even, read back as the nearest float. *)
Definition py_round2 (x : float) : float :=
  match Prim2SF x with
  | S754_finite s m e =>
      if 0 <=? e then x
      else
        let r := nearest_float (scaled 100 m e) 100 in
        if s then (- r)%float else r
  | _ => x
  end.

(** [int(x)] on a float: truncation; [ValueError] on nan, [OverflowError]
    on an infinity. *)
Definition trunc (x : float) : option Z :=
  match Prim2SF x with
  | S754_zero _ => Some 0
  | S754_finite s m e =>
      let mag := if 0 <=? e then Z.pos m * 2 ^ e else Z.pos m / 2 ^ (- e) in
      Some (if s then - mag else mag)
  | _ => None
  end.

(** [f"{x:+.1f}"]: sign always written, one digit after the point, the
    exact value rounded ties to even. *)
Definition format_signed_1f (x : float) : string :=
  match Prim2SF x with
  | S754_nan => "+nan"
  | S754_infinity s => if s then "-inf" else "+inf"
  | S754_zero s => if s then "-0.0" else "+0.0"
  | S754_finite s m e =>
      let t := scaled 10 m e in
      (if s then "-" else "+")
        +:+ string_of_Z (t / 10) +:+ "." +:+ string_of_Z (t `mod` 10)
  end.

(** ** Values and frames *)

(** What a cell of a frame, or a Python expression over cells, holds: a
    string, an integer or a float.  [numpy] tells a numpy scalar ([int64],
    [float64]: what a row of a frame read by [pd.read_csv] holds) from a
    plain Python number; the two differ on division by zero and on
    [round].  Integers are taken within the range of [int64]. *)
Inductive value : Type :=
  | VStr (s : string)
  | VInt (numpy : bool) (n : Z)
  | VFloat (numpy : bool) (x : float).

(** A frame: its column labels, pairwise distinct ([pd.read_csv] renames
    duplicates), and its rows, each row as long as the labels. *)
Record DataFrame : Type := mkDataFrame {
  columns : list string;
  records : list (list value)
}.

(** A row taken out of a frame, indexed by the column labels. *)
Abbreviation Series := (gmap string value).

Definition series_of (labels : list string) (cells : list value) : Series :=
  list_to_map (zip labels cells).

Definition is_aggregated (row : Series) : bool :=
  match row !! "Name" with
  | Some (VStr name) => String.eqb name "Aggregated"
  | _ => false
  end.

(** [get_aggregated_row]; [df.iloc[-1]] on a frame without rows raises
    [IndexError] ([None]). *)
Definition get_aggregated_row (df : DataFrame) : option Series :=
  let rows := series_of (columns df) <$> records df in
  if bool_decide ("Name" ∈ columns df) then
    match List.filter is_aggregated rows with
    | row :: _ => Some row
    | [] => last rows
    end
  else last rows.

(** [safe_get(row, key)] with its default of [0]. *)
Definition safe_get (row : Series) (key : string) : value :=
  default (VInt false 0) (row !! key).

(** [int(v)].  On a string the model raises at once; Python would parse it,
    and [create_summary] then raises where it divides or rounds the same
    string. *)
Definition int_ (v : value) : option Z :=
  match v with
  | VStr _ => None
  | VInt _ n => Some n
  | VFloat _ x => trunc x
  end.

(** [max(v, 1)]: the builtin keeps [v] unless [1 > v]; [TypeError] on a
    string. *)
Definition max_1 (v : value) : option value :=
  match v with
  | VStr _ => None
  | VInt _ n => Some (if n <? 1 then VInt false 1 else v)
  | VFloat _ x => Some (if (x <? 1)%float then VInt false 1 else v)
  end.

Definition is_numpy (v : value) : bool :=
  match v with
  | VStr _ => false
  | VInt numpy _ | VFloat numpy _ => numpy
  end.

Definition to_float (v : value) : option float :=
  match v with
  | VStr _ => None
  | VInt _ n => Some (float_of_Z n)
  | VFloat _ x => Some x
  end.

(** [a / b], a float tagged numpy or not.  Between Python numbers a zero
    divisor raises [ZeroDivisionError]; as soon as one side is a numpy
    scalar the division is numpy's and follows IEEE 754 (inf or nan). *)
Definition truediv (a b : value) : option (bool * float) :=
  match a, b with
  | VInt false n, VInt false d =>
      if d =? 0 then None
      else
        let q := nearest_float (Z.abs n) (Z.abs d) in
        Some (false, if Bool.eqb (n <? 0) (d <? 0) then q else (- q)%float)
  | _, _ =>
      x ← to_float a;
      y ← to_float b;
      if is_numpy a || is_numpy b then Some (true, (x / y)%float)
      else if (y =? 0)%float then None
      else Some (false, (x / y)%float)
  end.

(** [round(v, 2)]; [TypeError] on a string. *)
Definition round2 (v : value) : option value :=
  match v with
  | VStr _ => None
  | VInt numpy n => Some (VInt numpy n)
  | VFloat numpy x => Some (VFloat numpy (if numpy then np_round2 x else py_round2 x))
  end.

(** [round(failures / max(requests, 1) * 100, 2)] *)
Definition failure_rate (failures requests : value) : option value :=
  divisor ← max_1 requests;
  '(numpy, ratio) ← truediv failures divisor;
  round2 (VFloat numpy (ratio * 100)%float).

(** One of the lists ['LocalStack'] and ['AWS'] of [summary_data]. *)
Definition summary_values (row : Series) : option (list value) :=
  requests ← int_ (safe_get row "Request Count");
  failures ← int_ (safe_get row "Failure Count");
  rate ← failure_rate (safe_get row "Failure Count")
                      (safe_get row "Request Count");
  average ← round2 (safe_get row "Average Response Time");
  median ← round2 (safe_get row "Median Response Time");
  p95 ← round2 (safe_get row "95%");
  p99 ← round2 (safe_get row "99%");
  rps ← round2 (safe_get row "Requests/s");
  Some [VInt false requests; VInt false failures; rate;
        average; median; p95; p99; rps].

Definition metrics : list string :=
  ["Total Requests"; "Failed Requests"; "Failure Rate (%)";
   "Avg Response Time (ms)"; "Median Response Time (ms)";
   "P95 Response Time (ms)"; "P99 Response Time (ms)";
   "Requests/sec (RPS)"].

(** [calc_diff] *)
Definition calc_diff (ls_val aws_val : float) : string :=
  if (ls_val =? 0)%float then "N/A"
  else
    let diff := ((aws_val - ls_val) / ls_val * 100)%float in
    format_signed_1f diff +:+ "%".

(** A row of the summary frame. *)
Record summary_row : Type := mkRow {
  Metric : string;
  LocalStack : float;
  AWS : float;
  Difference : string
}.

(** [pd.DataFrame(summary_data)] stores each list, integers and floats
    mixed and the rate always a float, as a [float64] column; an element
    read back is a [numpy.float64], which is an instance of [float], so the
    [isinstance] test of the [Difference] comprehension holds on every row
    and [calc_diff] is always the branch taken.  This is how pandas stores
    the lists while the two integer counts fit [int64] (see [value] and
    [counts_in_int64]); a larger count makes it keep an object column, the
    cells keep their own types, and that case is left out. *)
Definition summary_frame (ls aws : list float) : list summary_row :=
  (fun '(name, (l, a)) => mkRow name l a (calc_diff l a))
    <$> zip metrics (zip ls aws).

(** [create_summary] *)
Definition create_summary (localstack_stats aws_stats : DataFrame)
  : option (list summary_row) :=
  ls ← get_aggregated_row localstack_stats;
  aws ← get_aggregated_row aws_stats;
  ls_values ← summary_values ls;
  aws_values ← summary_values aws;
  ls_column ← mapM to_float ls_values;
  aws_column ← mapM to_float aws_values;
  Some (summary_frame ls_column aws_column).

(** ** Rows the summary can be computed from *)

Definition is_count (v : value) : bool :=
  match v with VInt _ _ => true | _ => false end.

Definition is_number (v : value) : bool :=
  match v with VStr _ => false | _ => true end.

Definition is_zero_count (v : value) : bool :=
  match v with VInt _ 0 => true | _ => false end.

(** The two counts are integers or missing, the five other metrics are
    numbers or missing. *)
Definition readable (row : Series) : bool :=
  is_count (safe_get row "Request Count")
  && is_count (safe_get row "Failure Count")
  && forallb (fun key => is_number (safe_get row key))
       ["Average Response Time"; "Median Response Time"; "95%"; "99%";
        "Requests/s"].

(** ** Sample frames *)

Definition stats_columns : list string :=
  ["Type"; "Name"; "Request Count"; "Failure Count"; "Median Response Time";
   "Average Response Time"; "95%"; "99%"; "Requests/s"].

Definition localstack_example : DataFrame :=
  {| columns := stats_columns;
     records :=
       [[VStr "POST"; VStr "POST /product"; VInt true 40; VInt true 1;
         VInt true 3; VFloat true 3.5; VInt true 9; VInt true 12;
         VFloat true 2.5];
        [VStr ""; VStr "Aggregated"; VInt true 100; VInt true 5;
         VInt true 1; VFloat true 1; VInt true 9; VInt true 12;
         VFloat true 2.5]] |}.

Definition aws_example : DataFrame :=
  {| columns := stats_columns;
     records :=
       [[VStr ""; VStr "Aggregated"; VInt true 200; VInt true 40;
         VInt true 4; VFloat true 4; VInt true 9; VInt true 12;
         VFloat true 2.5]] |}.

(** A frame without the two count columns, and one with counts of zero. *)
Definition no_counts : DataFrame :=
  {| columns := ["Name"]; records := [[VStr "Aggregated"]] |}.

Definition zero_counts : DataFrame :=
  {| columns := ["Name"; "Request Count"; "Failure Count"];
     records := [[VStr "Aggregated"; VInt true 0; VInt true 0]] |}.

(** A frame whose request count is an empty cell, read as nan. *)
Definition nan_counts : DataFrame :=
  {| columns := ["Name"; "Request Count"; "Failure Count"];
     records := [[VStr "Aggregated"; VFloat true nan; VInt true 0]] |}.

Definition aggregated_of (df : DataFrame) : Series :=
  default ∅ (get_aggregated_row df).

(** ** Rows as the CSV reader yields them *)

(** The rows of a frame, as [df.iloc] hands them out. *)
Definition rows_of (df : DataFrame) : list Series :=
  series_of (columns df) <$> records df.

(** A cell read from a CSV file holds a string or a numpy number. *)
Definition csv_cell (v : value) : bool :=
  match v with
  | VStr _ => true
  | VInt numpy _ | VFloat numpy _ => numpy
  end.

Definition csv_row (row : Series) : Prop :=
  map_Forall (fun _ v => csv_cell v = true) row.

(** [int_ v] returns: [v] is an integer, or a float that is neither nan
    nor infinite. *)
Definition converts (v : value) : bool :=
  match int_ v with Some _ => true | None => false end.



(** The two counts of the row are integers or finite floats, and its five
    other columns hold numbers. *)
Definition summable (row : Series) : bool :=
  converts (safe_get row "Request Count")
  && converts (safe_get row "Failure Count")
  && forallb (fun key => is_number (safe_get row key))
       ["Average Response Time"; "Median Response Time"; "95%"; "99%";
        "Requests/s"].

End CompareResults.

(* ====================================================================== *)
(** * Reading the log of a run *)
(* ====================================================================== *)

(** The checkout attempts of the log whose response satisfies [ok]. *)
Definition checkout_with (ok : response -> bool) (x : request * reply) : bool :=
  match x with
  | (PostCheckout _, Answered resp) => ok resp
  | _ => false
  end.

Definition count_exchanges (sel : request * reply -> bool) (w : World) : Z :=
  Z.of_nat (length (List.filter sel (exchanges w))).

(** A terminal response: status 200 or 402. *)
Definition terminal (resp : response) : bool := status_in resp [200; 402].

Definition status_is (code : Z) (resp : response) : bool :=
  status_code resp =? code.

(** Status 200 with a body that decodes and holds a truthy [order_id]. *)
Definition order_placed (resp : response) : bool :=
  (status_code resp =? 200)
  && match json resp with
     | Some body => truthy (body !! "order_id")
     | None => false
     end.

(** The next request, if it is [rq], is answered with status [code]. *)
Definition answers (server : nat -> request -> reply) (w : World)
    (rq : request) (code : Z) : Prop :=
  exists resp,
    server (length (exchanges w)) rq = Answered resp /\ status_code resp = code.


(** C3 as the specification words it, for the product request of
    [ProductSetupUser.create_product]: a request that was sent and answered
    with 503 is reported as a success. *)
Definition product_503_is_success_in_setup_user : Prop :=
  forall server NUM_INITIAL_PRODUCTS w,
    get_product_count (shared w) < NUM_INITIAL_PRODUCTS ->
    answers server w PostProduct 503 ->
    sink (Locustfile.create_product server NUM_INITIAL_PRODUCTS w).2 =
    sink w ++ [("POST /product", Success)].

(** ** Invariants of flows *)

(** A property [J] of the shared state and the log holds of a world; a
    program preserves it when it holds after the program whenever it held
    before. *)
Definition holds (J : SharedState -> list (request * reply) -> Prop)
    (w : World) : Prop :=
  J (shared w) (exchanges w).

Definition preserves (J : SharedState -> list (request * reply) -> Prop)
    {A : Type} (m : M A) : Prop :=
  forall w, holds J w -> holds J (m w).2.

(** The counters agree with the log: the checkout counter is the number of
    checkout attempts whose response satisfies [placed], the declined
    counter the number of those answered with 402. *)
Definition accounting (placed : response -> bool)
    (s : SharedState) (l : list (request * reply)) : Prop :=
  checkout_count s = Z.of_nat (length (List.filter (checkout_with placed) l)) /\
  declined_count s =
    Z.of_nat (length (List.filter (checkout_with (status_is 402)) l)).

(** The pool holds no product id 0. *)
Definition no_zero_id (s : SharedState) (l : list (request * reply)) : Prop :=
  0 ∉ product_ids s.

(** ** Sample servers and worlds *)

(** A shop that accepts everything and answers the checkout with status 200
    and an empty JSON object. *)
Definition shop_without_order_id (k : nat) (rq : request) : reply :=
  match rq with
  | PostProduct =>
      Answered {| status_code := 201; json := Some {["product_id" := 1]} |}
  | PostShoppingCart _ =>
      Answered {| status_code := 201; json := Some {["shopping_cart_id" := 5]} |}
  | PostAddItem _ _ _ => Answered {| status_code := 204; json := None |}
  | PostCheckout _ => Answered {| status_code := 200; json := Some ∅ |}
  end.

(** A service that declines every checkout and answers 503 to the rest. *)
Definition bad_service (k : nat) (rq : request) : reply :=
  match rq with
  | PostCheckout _ => Answered {| status_code := 402; json := None |}
  | _ => Answered {| status_code := 503; json := None |}
  end.

(** A product service that hands out the id 0. *)
Definition shop_with_zero_id (k : nat) (rq : request) : reply :=
  Answered {| status_code := 201; json := Some {["product_id" := 0]} |}.

(** A world whose pool holds the id 0, put there by a direct call. *)
Definition pool_with_zero : World :=
  {| shared := add_product 0 init; exchanges := []; sink := []; draws := 0 |}.

(* ====================================================================== *)
(** * The life cycle of the users of [locustfile_comparison.py] *)
(* ====================================================================== *)

(** The life of a user of [locustfile_comparison.py] under the engine:
    [__init__], then [on_start], then its tasks again and again.  Both user
    classes have the same [on_start]. *)
Module ComparisonProtocol.

Inductive user_class : Type :=
  | LocalStackUser
  | AWSUser.

Inductive pc : Type :=
  | CInit          (* l.137, l.311: [random.randint(1, 100000)] *)
  | CPollFlag      (* l.143, l.315: [while not is_setup_complete()] *)
  | CPollCount     (* l.144, l.316: [get_product_count() >= 10] *)
  | CMark          (* l.145, l.317: [mark_setup_complete(); break] *)
  | CSleep         (* l.147, l.319: [time.sleep(0.5)] *)
  | CTasks.        (* the tasks, picked by the engine *)

Record user : Type := mkUser {
  class : user_class;
  customer_id : Z;
  at_pc : pc
}.

(** The task the engine picks for a user that runs its tasks. *)
Inductive picked : Type :=
  | PickCreateProduct
  | PickShoppingFlow.

Definition task_of (u : user) (p : picked) : Comparison.task :=
  match class u, p with
  | LocalStackUser, PickCreateProduct => Comparison.LocalStackCreateProduct
  | LocalStackUser, PickShoppingFlow =>
      Comparison.LocalStackShoppingFlow (customer_id u)
  | AWSUser, PickCreateProduct => Comparison.AWSCreateProduct
  | AWSUser, PickShoppingFlow => Comparison.AWSShoppingFlow (customer_id u)
  end.

(** One scheduling decision: which user moves, and the task the engine
    picks if the user is running its tasks. *)
Record event : Type := mkEvent {
  who : nat;
  pick : picked
}.

Record system : Type := mkSystem {
  world : World;
  users : list user
}.

Section Steps.

Variable server : nat -> request -> reply.
Variable rng : nat -> nat.
Variable NUM_PRODUCTS : Z.
Variable TARGET_CHECKOUTS : Z.

Definition goto (u : user) (p : pc) : user :=
  {| class := class u; customer_id := customer_id u; at_pc := p |}.

Definition step_user (e : event) (u : user) (w : World) : user * World :=
  match at_pc u with
  | CInit =>
      let '(n, w') := randint rng 1 100000 w in
      ({| class := class u; customer_id := default 0 n; at_pc := CPollFlag |},
       w')
  | CPollFlag =>
      let '(done, w') := read_shared is_setup_complete w in
      (goto u (if done then CTasks else CPollCount), w')
  | CPollCount =>
      let '(count, w') := read_shared get_product_count w in
      (goto u (if count >=? 10 then CMark else CSleep), w')
  | CMark => (goto u CTasks, (update_shared mark_setup_complete w).2)
  | CSleep => (goto u CPollFlag, w)
  | CTasks =>
      (u, (Comparison.perform server rng NUM_PRODUCTS TARGET_CHECKOUTS
             (task_of u (pick e)) w).2)
  end.

(** The user [who e] takes its next step; an index that names no user
    leaves the system as it is. *)
Definition step (sys : system) (e : event) : system :=
  match users sys !! who e with
  | None => sys
  | Some u =>
      let '(u', w') := step_user e u (world sys) in
      {| world := w'; users := <[who e := u']> (users sys) |}
  end.

Definition execute (es : list event) (sys : system) : system :=
  foldl step sys es.

End Steps.

(** A run starts in a fresh process: a fresh [SharedState], nothing sent, and
    every user before its [__init__]. *)
Definition start (local_users aws_users : nat) : system :=
  {| world := new_world;
     users := replicate local_users
                {| class := LocalStackUser; customer_id := 0; at_pc := CInit |}
              ++ replicate aws_users
                   {| class := AWSUser; customer_id := 0; at_pc := CInit |} |}.

(** Still in [__init__] or in the loop of [on_start]. *)
Definition waiting (u : user) : Prop :=
  at_pc u <> CMark /\ at_pc u <> CTasks.

(** Nothing has happened but draws of customer ids. *)
Definition idle (sys : system) : Prop :=
  shared (world sys) = init /\ exchanges (world sys) = [] /\
  sink (world sys) = [] /\ Forall waiting (users sys).

End ComparisonProtocol.


(* ====================================================================== *)
(** * [analysis/compare_results.py]: finding the result files *)
(* ====================================================================== *)

Module ResultFiles.

(** An entry of the directory that is passed in: a file, or a subdirectory
    with the names it holds. *)
Inductive entry : Type :=
  | File
  | Subdir (children : list string).

(** The directory, as [iterdir] lists it. *)
Definition listing : Type := list (string * entry).

(** A path below the directory, by its components. *)
Definition path : Type := list string.

Fixpoint lookup_entry (name : string) (entries : listing) : option entry :=
  match entries with
  | [] => None
  | (n, x) :: rest => if decide (n = name) then Some x else lookup_entry name rest
  end.

(** [p.exists()] for the paths the module builds: [directory / name] and
    [directory / subdir / name]. *)
Definition path_exists (entries : listing) (p : path) : bool :=
  match p with
  | [name] => bool_decide (is_Some (lookup_entry name entries))
  | [subdir; name] =>
      match lookup_entry subdir entries with
      | Some (Subdir children) => bool_decide (name ∈ children)
      | _ => false
      end
  | _ => false
  end.

(** The [for subdir in directory.iterdir()] loop of [find_latest_csv] *)
Fixpoint search_subdirs (pattern : string) (entries : listing) : option path :=
  match entries with
  | [] => None
  | (subdir, File) :: rest => search_subdirs pattern rest
  | (subdir, Subdir children) :: rest =>
      if bool_decide (pattern ∈ children) then Some [subdir; pattern]
      else search_subdirs pattern rest
  end.

(** [find_latest_csv(directory, pattern)].  [directory] is [None] when the
    path names no directory.  The outer [None] of the result is the
    exception of [iterdir] on such a path; the inner one is the [None] the
    function returns. *)
Definition find_latest_csv (directory : option listing) (pattern : string)
  : option (option path) :=
  match directory with
  | Some entries =>
      if path_exists entries [pattern] then Some (Some [pattern])
      else Some (search_subdirs pattern entries)
  | None => None
  end.

Definition history_name : string := "results_stats_history.csv".

(** The loop of [load_history], which assigns [history_file] for every
    subdirectory it visits and leaves at the first that holds the file. *)
Fixpoint visit_subdirs (entries : listing) (history_file : path) : path :=
  match entries with
  | [] => history_file
  | (subdir, File) :: rest => visit_subdirs rest history_file
  | (subdir, Subdir children) :: rest =>
      if bool_decide (history_name ∈ children) then [subdir; history_name]
      else visit_subdirs rest [subdir; history_name]
  end.

(** The file [load_history(directory)] reads, or the inner [None] where it
    returns [None] without reading; the outer [None] is the exception of
    [iterdir]. *)
Definition load_history_file (directory : option listing)
  : option (option path) :=
  match directory with
  | Some entries =>
      let history_file :=
        if path_exists entries [history_name] then [history_name]
        else visit_subdirs entries [history_name] in
      if path_exists entries history_file then Some (Some history_file)
      else Some None
  | None => None
  end.

(** A results directory with one folder per run. *)
Definition sample_results : listing :=
  [("notes.txt", File);
   ("run-1", Subdir ["results_stats.csv"]);
   ("run-2", Subdir ["results_stats.csv"; "results_stats_history.csv"])].

(** No subdirectory among [entries] holds [pattern]. *)
Definition none_holds (pattern : string) (entries : listing) : Prop :=
  Forall (fun e => match e.2 with
                   | Subdir children => pattern ∉ children
                   | File => True
                   end) entries.

End ResultFiles.

(* ====================================================================== *)
(** * The data generators of [load-test/locustfile.py] *)
(* ====================================================================== *)

Module Generators.
Section Generators.

Variable rng : nat -> nat.

(** [[m for _ in range(n)]] *)
Fixpoint repeatM {A : Type} (n : nat) (m : M A) : M (list A) :=
  match n with
  | O => ret []
  | S n' => x <- m ;; xs <- repeatM n' m ;; ret (x :: xs)
  end.

(** ["".join(l)] and [sep.join(l)] *)
Definition join (sep : string) (l : list string) : string :=
  String.concat sep l.

(** [str(random.randint(0, 9))] *)
Definition random_digit : M string :=
  d <- randint rng 0 9 ;; ret (string_of_Z (default 0 d)).

(** [generate_credit_card] *)
Definition generate_credit_card : M string :=
  parts <- repeatM 4 (digits <- repeatM 4 random_digit ;; ret (join "" digits)) ;;
  ret (join "-" parts).

(** [string.ascii_uppercase + string.digits] *)
Definition sku_alphabet : list string :=
  ["A"; "B"; "C"; "D"; "E"; "F"; "G"; "H"; "I"; "J"; "K"; "L"; "M";
   "N"; "O"; "P"; "Q"; "R"; "S"; "T"; "U"; "V"; "W"; "X"; "Y"; "Z";
   "0"; "1"; "2"; "3"; "4"; "5"; "6"; "7"; "8"; "9"].

(** One pick of [random.choices(population, k=...)]: an element of the
    population at an index below its length. *)
Definition pick {A : Type} (population : list A) (d : A) : M A :=
  r <- draw rng ;; ret (default d (random_choice r population)).

(** [generate_sku] *)
Definition generate_sku : M string :=
  chars <- repeatM 10 (pick sku_alphabet "") ;;
  ret (join "" chars).

Record product_data : Type := mkProductData {
  sku : string;
  manufacturer : string;
  category_id : Z;
  weight : Z;
  some_other_id : Z
}.

Definition manufacturers : list string :=
  ["Acme Corp"; "TechGiant Inc"; "Global Mfg"; "Premium Products";
   "Budget Brands"; "Innovation Ltd"].

(** [generate_product_data]; the entries of the dict are evaluated in the
    order they are written. *)
Definition generate_product_data : M product_data :=
  sku <- generate_sku ;;
  manufacturer <- pick manufacturers "" ;;
  category_id <- randint rng 1 50 ;;
  weight <- randint rng 10 5000 ;;
  some_other_id <- randint rng 1 10000 ;;
  ret {| sku := sku; manufacturer := manufacturer;
         category_id := default 0 category_id;
         weight := default 0 weight;
         some_other_id := default 0 some_other_id |}.

End Generators.

Definition decimal_digits : list string :=
  ["0"; "1"; "2"; "3"; "4"; "5"; "6"; "7"; "8"; "9"].

(** Four decimal digits. *)
Definition digit_group (s : string) : Prop :=
  exists a b c d,
    s = a +:+ b +:+ c +:+ d /\ Forall (.∈ decimal_digits) [a; b; c; d].

End Generators.

(* ====================================================================== *)
(** * What the flows send and report *)
(* ====================================================================== *)

(** The response [rp] created the cart [cart]: status 201 and a body whose
    [shopping_cart_id] is the non-zero [cart]. *)
Definition cart_created (rp : reply) (cart : Z) : Prop :=
  exists resp body,
    rp = Answered resp /\ status_code resp = 201 /\ json resp = Some body /\
    body !! "shopping_cart_id" = Some cart /\ cart <> 0.

(** An addItem request for [cart] that names a non-zero product of the pool
    and a quantity of 1 to 3. *)
Definition item_for (cart : Z) (s : SharedState) (x : request * reply) : Prop :=
  exists pid quantity,
    x.1 = PostAddItem cart pid quantity /\
    pid ∈ product_ids s /\ pid <> 0 /\ 1 <= quantity <= 3.

(** Answered with status 204. *)
Definition accepted (x : request * reply) : bool :=
  match x.2 with
  | Answered resp => status_code resp =? 204
  | Raised => false
  end.

(** The requests [l] of one shopping cycle of [locustfile.py]: none, or the
    cart request, then, only if it created a cart, the addItem requests and
    a checkout exactly when one of them was accepted. *)
Definition cycle_requests (customer_id MAX_ITEMS_PER_CART : Z)
    (s : SharedState) (l : list (request * reply)) : Prop :=
  l = [] \/
  exists rp items tail,
    l = (PostShoppingCart customer_id, rp) :: items ++ tail /\
    Z.of_nat (length items) <= Z.max 0 MAX_ITEMS_PER_CART /\
    (items ++ tail <> [] ->
     exists cart,
       cart_created rp cart /\
       Forall (item_for cart s) items /\
       ((tail = [] /\ Forall (fun x => accepted x = false) items) \/
        (exists rp', tail = [(PostCheckout cart, rp')] /\
                     Exists (fun x => accepted x = true) items))).

(** The response [rp] of [locustfile_comparison.py]'s cart request yields
    the cart [cart]: status 200 or 201 and a body whose [shopping_cart_id]
    is the non-zero [cart]. *)
Definition cart_opened (rp : reply) (cart : Z) : Prop :=
  exists resp body,
    rp = Answered resp /\ status_in resp [200; 201] = true /\
    json resp = Some body /\ body !! "shopping_cart_id" = Some cart /\
    cart <> 0.

(** The requests [l] of one [shopping_flow] of [locustfile_comparison.py]:
    none; or the cart request alone; or the cart request, one addItem of
    quantity 1 for a non-zero product of the pool and, exactly when
    [checkout_after] holds of the response to the addItem, the checkout. *)
Definition flow_requests (checkout_after : reply -> bool) (customer_id : Z)
    (s : SharedState) (l : list (request * reply)) : Prop :=
  l = [] \/
  (exists rp, l = [(PostShoppingCart customer_id, rp)]) \/
  exists rp cart pid rp_add,
    cart_opened rp cart /\ pid ∈ product_ids s /\ pid <> 0 /\
    ((checkout_after rp_add = false /\
      l = [(PostShoppingCart customer_id, rp); (PostAddItem cart pid 1, rp_add)]) \/
     (checkout_after rp_add = true /\
      exists rp_out,
        l = [(PostShoppingCart customer_id, rp); (PostAddItem cart pid 1, rp_add);
             (PostCheckout cart, rp_out)])).

(** [LocalStackUser] goes on to the checkout whatever the status of the
    addItem response; only an exception of the request stops it. *)
Definition was_answered (rp : reply) : bool :=
  match rp with Answered _ => true | Raised => false end.

(** [AWSUser] goes on only after a 200 or 204. *)
Definition was_added (rp : reply) : bool :=
  match rp with
  | Answered resp => status_in resp [200; 204]
  | Raised => false
  end.

(** Requests sent minus outcomes reported, from [w] to [w']. *)
Definition report_gap (w w' : World) : Z :=
  (Z.of_nat (length (exchanges w')) - Z.of_nat (length (exchanges w)))
  - (Z.of_nat (length (sink w')) - Z.of_nat (length (sink w))).

(** [m] leaves [k] more requests than reports, whatever the world. *)
Definition sends {A : Type} (m : M A) (k : Z) : Prop :=
  forall w, report_gap w (m w).2 = k.

(** [m] leaves at least [k] more requests than reports. *)
Definition at_least {A : Type} (m : M A) (k : Z) : Prop :=
  forall w, k <= report_gap w (m w).2.

(** The one counter of [locustfile_comparison.py]: every checkout answered
    200 or 402. *)
Definition single_counter (s : SharedState) (l : list (request * reply)) : Prop :=
  checkout_count s = Z.of_nat (length (List.filter (checkout_with terminal) l)) /\
  declined_count s = 0.

(** The setup flag is set only on a pool of [threshold] products. *)
Definition complete_on (threshold : Z) (s : SharedState)
    (l : list (request * reply)) : Prop :=
  setup_complete s = true -> threshold <= get_product_count s.

(** The checkout target was reached at the log [l0] with the counters [c]
    and [d]: since then the counters have not moved and only products were
    requested. *)
Definition target_reached (TARGET c d : Z) (l0 : list (request * reply))
    (s : SharedState) (l : list (request * reply)) : Prop :=
  TARGET <= c /\ checkout_count s = c /\ declined_count s = d /\
  exists l', l = l0 ++ l' /\ Forall (fun x => x.1 = PostProduct) l'.

(** [m] only consumes random draws, [k] of them. *)
Definition only_draws {A : Type} (m : M A) (k : nat) : Prop :=
  forall w, shared (m w).2 = shared w /\ exchanges (m w).2 = exchanges w /\
            sink (m w).2 = sink w /\ draws (m w).2 = (draws w + k)%nat.


(* ====================================================================== *)
(** * Properties of the shared state *)
(* ====================================================================== *)

Section SharedStateFacts.

Implicit Types (s : SharedState) (h : list call) (c : call).

Lemma run_cons c h s :
  run (c :: h) s =
  ((c, (exec c s).1) :: (run h (exec c s).2).1, (run h (exec c s).2).2).
Proof.
  simpl. destruct (exec c s) as [r s1]; simpl.
  destruct (run h s1) as [tr s2]; reflexivity.
Qed.

Lemma final_cons c h s : final (c :: h) s = final h (exec c s).2.
Proof. unfold final. rewrite run_cons. reflexivity. Qed.

Lemma trace_cons c h s :
  trace (c :: h) s = (c, (exec c s).1) :: trace h (exec c s).2.
Proof. unfold trace. rewrite run_cons. reflexivity. Qed.

Lemma final_app h1 h2 s : final (h1 ++ h2) s = final h2 (final h1 s).
Proof.
  revert s. induction h1 as [|c h1 IH]; intros s; [reflexivity|].
  rewrite <- app_comm_cons, !final_cons. apply IH.
Qed.

Lemma count_calls_nil sel : count_calls sel [] = 0%nat.
Proof. reflexivity. Qed.

Lemma count_calls_cons sel c h :
  count_calls sel (c :: h) =
  ((if sel c then 1 else 0) + count_calls sel h)%nat.
Proof.
  unfold count_calls. rewrite filter_cons.
  destruct (sel c); case_decide; simpl; congruence.
Qed.

Lemma zrange_length a n : length (zrange a n) = n.
Proof. revert a. induction n; intros a; simpl; auto. Qed.

Lemma elem_of_zrange x a n : x ∈ zrange a n ↔ a <= x < a + Z.of_nat n.
Proof.
  revert a. induction n as [|n IH]; intros a; simpl.
  - rewrite elem_of_nil. lia.
  - rewrite elem_of_cons, IH. lia.
Qed.

Lemma NoDup_zrange a n : NoDup (zrange a n).
Proof.
  revert a. induction n as [|n IH]; intros a; simpl.
  - constructor.
  - constructor; [|apply IH]. rewrite elem_of_zrange. lia.
Qed.

(** The ids handed out along a history are the consecutive integers from
    the counter's value on. *)
Lemma customer_ids_of_history h s :
  ints_returned is_next_customer_id (trace h s) =
  zrange (customer_id_counter s) (count_calls is_next_customer_id h).
Proof.
  revert s. induction h as [|c h IH]; intros s; [reflexivity|].
  rewrite trace_cons, count_calls_cons. unfold ints_returned in *.
  destruct c; simpl; rewrite IH; reflexivity.
Qed.

Lemma replicate_count n :
  count_calls is_next_customer_id (replicate n GetNextCustomerId) = n.
Proof.
  induction n as [|n IH]; [reflexivity|].
  simpl replicate. rewrite count_calls_cons, IH. reflexivity.
Qed.

(** The state after a history, field by field. *)
Lemma product_ids_final h s :
  product_ids (final h s) = product_ids s ++ added h.
Proof.
  revert s. induction h as [|c h IH]; intros s.
  - unfold final. simpl. rewrite app_nil_r. reflexivity.
  - rewrite final_cons, IH.
    destruct c; simpl; try reflexivity.
    rewrite <- app_assoc. reflexivity.
Qed.

Lemma added_length h : length (added h) = count_calls is_add_product h.
Proof.
  induction h as [|c h IH]; [reflexivity|].
  rewrite count_calls_cons. destruct c; simpl; rewrite ?IH; reflexivity.
Qed.

Lemma checkout_count_final h s :
  checkout_count (final h s) =
  checkout_count s + Z.of_nat (count_calls is_increment_checkout h).
Proof.
  revert s. induction h as [|c h IH]; intros s.
  - rewrite count_calls_nil. unfold final. simpl. lia.
  - rewrite final_cons, IH, count_calls_cons, Nat2Z.inj_add.
    destruct c; simpl; lia.
Qed.

Lemma declined_count_final h s :
  declined_count (final h s) =
  declined_count s + Z.of_nat (count_calls is_increment_declined h).
Proof.
  revert s. induction h as [|c h IH]; intros s.
  - rewrite count_calls_nil. unfold final. simpl. lia.
  - rewrite final_cons, IH, count_calls_cons, Nat2Z.inj_add.
    destruct c; simpl; lia.
Qed.

Lemma setup_complete_final h s :
  setup_complete s = true -> setup_complete (final h s) = true.
Proof.
  revert s. induction h as [|c h IH]; intros s Hs; [exact Hs|].
  rewrite final_cons. apply IH. destruct c; simpl; auto.
Qed.

Lemma random_choice_elem {A : Type} (r : nat) (l : list A) (x : A) :
  random_choice r l = Some x -> x ∈ l.
Proof.
  destruct l as [|a l]; [discriminate|].
  unfold random_choice. intros H. eapply list_elem_of_lookup_2, H.
Qed.

Lemma random_choice_nonempty {A : Type} (r : nat) (l : list A) :
  l <> [] -> is_Some (random_choice r l).
Proof.
  destruct l as [|a l]; [congruence|]. intros _.
  unfold random_choice. apply lookup_lt_is_Some.
  apply Nat.mod_upper_bound. simpl. lia.
Qed.

End SharedStateFacts.

(** C1.  [get_next_customer_id] returns the counter's value before the
    increment, and the first call on a fresh state returns 1.  [N] calls in
    a row on a fresh state return 1, 2, ..., N.  More generally, in every
    history of calls on a fresh state (the other methods interleaved at
    will), the ids returned by the [N] calls of [get_next_customer_id] are,
    in order, 1, 2, ..., N: no duplicate, no gap, exactly the set {1..N}. *)
Theorem customer_ids_unique_and_consecutive :
  (forall s,
     (get_next_customer_id s).1 = customer_id_counter s /\
     customer_id_counter (get_next_customer_id s).2 = customer_id_counter s + 1) /\
  (get_next_customer_id init).1 = 1 /\
  (forall n, customer_ids n init = zrange 1 n) /\
  (forall h,
     let ids := ints_returned is_next_customer_id (trace h init) in
     let N := count_calls is_next_customer_id h in
     ids = zrange 1 N /\
     length ids = N /\
     NoDup ids /\
     (forall x, x ∈ ids <-> 1 <= x <= Z.of_nat N)).
Proof.
  split; [|split; [|split]].
  - intros s. split; reflexivity.
  - reflexivity.
  - intros n. unfold customer_ids.
    rewrite customer_ids_of_history, replicate_count. reflexivity.
  - intros h ids N. subst ids N.
    rewrite customer_ids_of_history. change (customer_id_counter init) with 1.
    split; [reflexivity|]. split; [apply zrange_length|].
    split; [apply NoDup_zrange|].
    intros x. rewrite elem_of_zrange. lia.
Qed.

(** C5.  [mark_setup_complete] is idempotent: from every state, calling it
    [n + 1] times gives the same state as calling it once, hence the same
    results for every later history of calls.  The flag is monotone: once
    [is_setup_complete] answers true, it answers true after every further
    history of calls. *)
Theorem mark_setup_complete_idempotent_and_monotone :
  (forall s n,
     Nat.iter (S n) mark_setup_complete s = mark_setup_complete s) /\
  (forall s n h,
     run h (Nat.iter (S n) mark_setup_complete s) =
     run h (mark_setup_complete s)) /\
  (forall s h,
     is_setup_complete s = true -> is_setup_complete (final h s) = true).
Proof.
  assert (Hiter : forall s n,
            Nat.iter (S n) mark_setup_complete s = mark_setup_complete s).
  { intros s n. induction n as [|n IH]; [reflexivity|].
    change (Nat.iter (S (S n)) mark_setup_complete s)
      with (mark_setup_complete (Nat.iter (S n) mark_setup_complete s)).
    rewrite IH. reflexivity. }
  split; [exact Hiter|]. split.
  - intros s n h. rewrite Hiter. reflexivity.
  - intros s h. apply setup_complete_final.
Qed.

Lemma mark_setup_complete_idempotent_and_monotone_witness :
  is_setup_complete (mark_setup_complete init) = true /\
  is_setup_complete
    (final [AddProduct 7; IncrementCheckout; MarkSetupComplete; GetNextCustomerId]
           (mark_setup_complete init)) = true.
Proof.
  split; [reflexivity|].
  apply (proj2 (proj2 mark_setup_complete_idempotent_and_monotone)).
  reflexivity.
Defined.

(** C6.  In every state and for every draw of the random generator,
    [get_random_product] returns an element of the current product list or
    the sentinel [None], and it returns [None] if and only if the list is
    empty.  After a history of calls on a fresh state, what it returns is one
    of the arguments passed to [add_product] in that history. *)
Theorem get_random_product_member_or_none :
  (forall s r,
     match get_random_product r s with
     | Some p => p ∈ product_ids s
     | None => product_ids s = []
     end /\
     (get_random_product r s = None <-> product_ids s = [])) /\
  (forall h r,
     match get_random_product r (final h init) with
     | Some p => p ∈ added h
     | None => added h = []
     end).
Proof.
  assert (Hstate : forall s r,
            match get_random_product r s with
            | Some p => p ∈ product_ids s
            | None => product_ids s = []
            end).
  { intros s r. unfold get_random_product.
    destruct (product_ids s) as [|a l] eqn:Hids; [reflexivity|].
    destruct (random_choice_nonempty r (a :: l)) as [p Hp]; [congruence|].
    rewrite Hp. eapply random_choice_elem, Hp. }
  split.
  - intros s r. split; [apply Hstate|]. split.
    + intros Hnone. specialize (Hstate s r). rewrite Hnone in Hstate.
      exact Hstate.
    + intros Hnil. unfold get_random_product. rewrite Hnil. reflexivity.
  - intros h r. specialize (Hstate (final h init) r).
    rewrite product_ids_final in Hstate. exact Hstate.
Qed.

(** C7.  After every history of calls on a fresh state, [get_product_count]
    is the number of [add_product] calls of the history, and the checkout
    and declined counters are the numbers of [increment_checkout] and
    [increment_declined] calls; each increment returns the new value of its
    counter, one more than before.  The three quantities are never negative
    and, from any state, no history of calls makes any of them smaller. *)
Theorem counters_equal_completed_calls :
  (forall h,
     let s := final h init in
     get_product_count s = Z.of_nat (count_calls is_add_product h) /\
     get_checkout_count s = Z.of_nat (count_calls is_increment_checkout h) /\
     get_declined_count s = Z.of_nat (count_calls is_increment_declined h) /\
     0 <= get_product_count s /\
     0 <= get_checkout_count s /\
     0 <= get_declined_count s) /\
  (forall s,
     (increment_checkout s).1 = get_checkout_count (increment_checkout s).2 /\
     (increment_checkout s).1 = get_checkout_count s + 1 /\
     (increment_declined s).1 = get_declined_count (increment_declined s).2 /\
     (increment_declined s).1 = get_declined_count s + 1) /\
  (forall s h,
     get_product_count s <= get_product_count (final h s) /\
     get_checkout_count s <= get_checkout_count (final h s) /\
     get_declined_count s <= get_declined_count (final h s)).
Proof.
  split; [|split].
  - intros h s. subst s.
    unfold get_product_count, get_checkout_count, get_declined_count.
    rewrite product_ids_final, checkout_count_final, declined_count_final.
    simpl. rewrite added_length. lia.
  - intros s. repeat split; reflexivity.
  - intros s h.
    unfold get_product_count, get_checkout_count, get_declined_count.
    rewrite product_ids_final, checkout_count_final, declined_count_final.
    rewrite length_app. lia.
Qed.

(* ====================================================================== *)
(** * Properties of the flows *)
(* ====================================================================== *)

Section Preservation.

Variable J : SharedState -> list (request * reply) -> Prop.

Lemma preserves_ret {A : Type} (a : A) : preserves J (ret a).
Proof. intros w Hw. exact Hw. Qed.

Lemma preserves_bind {A B : Type} (m : M A) (k : A -> M B) :
  preserves J m -> (forall a, preserves J (k a)) -> preserves J (bind m k).
Proof.
  intros Hm Hk w Hw. unfold bind. specialize (Hm w Hw).
  destruct (m w) as [a w1]. apply Hk, Hm.
Qed.

Lemma preserves_read {A : Type} (f : SharedState -> A) :
  preserves J (read_shared f).
Proof. intros w Hw. exact Hw. Qed.

Lemma preserves_report name o : preserves J (report name o).
Proof. intros w Hw. exact Hw. Qed.

Lemma preserves_draw rng : preserves J (draw rng).
Proof. intros w Hw. exact Hw. Qed.

Lemma preserves_update (f : SharedState -> SharedState) :
  (forall s l, J s l -> J (f s) l) -> preserves J (update_shared f).
Proof. intros Hf w Hw. apply Hf, Hw. Qed.

Lemma preserves_call {A : Type} (f : SharedState -> A * SharedState) :
  (forall s l, J s l -> J (f s).2 l) -> preserves J (call_shared f).
Proof.
  intros Hf w Hw. unfold call_shared.
  specialize (Hf _ _ Hw). destruct (f (shared w)) as [a s]. exact Hf.
Qed.

Lemma preserves_post server rq :
  (forall s l rp, J s l -> J s (l ++ [(rq, rp)])) ->
  preserves J (requests_post server rq).
Proof. intros Hrq w Hw. apply Hrq, Hw. Qed.

End Preservation.

(** One step through the structure of a program. *)
Ltac preserve_step :=
  lazymatch goal with
  | |- preserves _ (bind _ _) => apply preserves_bind; [|intros ?]
  | |- preserves _ (ret _) => apply preserves_ret
  | |- preserves _ (read_shared _) => apply preserves_read
  | |- preserves _ (report _ _) => apply preserves_report
  | |- preserves _ (draw _) => apply preserves_draw
  | |- preserves _ (if ?c then _ else _) => destruct c eqn:?
  | |- preserves _ (match ?x with _ => _ end) => destruct x eqn:?
  end.

Lemma filter_snoc_length {A : Type} (f : A -> bool) (l : list A) (x : A) :
  Z.of_nat (length (List.filter f (l ++ [x]))) =
  Z.of_nat (length (List.filter f l)) + (if f x then 1 else 0).
Proof.
  rewrite List.filter_app, length_app. simpl. destruct (f x); simpl; lia.
Qed.


(** A request that is not a checkout leaves the accounting alone. *)
Lemma accounting_other placed s l rq rp :
  (forall c, rq <> PostCheckout c) ->
  accounting placed s l -> accounting placed s (l ++ [(rq, rp)]).
Proof.
  intros Hrq [Hc Hd]. unfold accounting. rewrite !filter_snoc_length.
  destruct rq; try (simpl; split; lia). exfalso. eapply Hrq. reflexivity.
Qed.

Lemma accounting_new_world placed : holds (accounting placed) new_world.
Proof. split; reflexivity. Qed.


Ltac preserve_accounting :=
  repeat preserve_step;
  try (apply preserves_post; intros; apply accounting_other;
       [intros; discriminate | assumption]);
  try (apply preserves_update; intros ? ? Hacc; exact Hacc);
  try (apply preserves_call; intros ? ? Hacc; exact Hacc).

Section LocustfileAccounting.

Variable server : nat -> request -> reply.
Variable rng : nat -> nat.
Variables NUM TARGET MIN MAX : Z.









End LocustfileAccounting.

Section LocalstackAccounting.

Variable server : nat -> request -> reply.
Variable rng : nat -> nat.
Variables NUM TARGET MIN MAX : Z.







End LocalstackAccounting.



(** C3 (as amended).  A checkout answered with 402 is reported to the
    metrics sink as a success by the five checkout flows under [load-test/]:
    [_checkout_cart] of [load-test/locustfile.py], [_checkout] of
    [locustfile_aws.py] and of [locustfile_localstack.py], and the checkout
    step of both [shopping_flow]s of [locustfile_comparison.py].  A POST
    /product answered with 503 is reported as a success by
    [AWSUser._create_product] of [locustfile_aws.py] only;
    [LocalStackUser._create_product], [ProductSetupUser.create_product] and
    both [create_product]s of [locustfile_comparison.py] report it as the
    failure "Status 503".  [ShoppingCartUser.checkout] of
    [load-test-client/locustfile.py] posts without [catch_response], and a
    checkout answered with 402 is reported there as a failure. *)
Theorem expected_statuses_by_flow :
  (forall server w cart_id,
     answers server w (PostCheckout cart_id) 402 ->
     sink (Locustfile._checkout_cart server cart_id w).2 =
       sink w ++ [("POST /shopping-carts/{id}/checkout", Success)] /\
     sink (Aws._checkout server cart_id w).2 =
       sink w ++ [("POST /shopping-carts/{id}/checkout", Success)] /\
     sink (Localstack._checkout server cart_id w).2 =
       sink w ++ [("POST /shopping-carts/{id}/checkout", Success)] /\
     sink (Comparison.LocalStackUser_checkout server cart_id w).2 =
       sink w ++ [("/shopping-carts/{id}/checkout", Success)] /\
     sink (Comparison.AWSUser_checkout server cart_id w).2 =
       sink w ++ [(Comparison.checkout_path cart_id, Success)]) /\
  (forall server w,
     answers server w PostProduct 503 ->
     sink (Aws._create_product server w).2 =
       sink w ++ [("POST /product", Success)] /\
     sink (Localstack._create_product server w).2 =
       sink w ++ [("POST /product", Failure "Status 503")] /\
     forall NUM,
       get_product_count (shared w) < NUM ->
       sink (Locustfile.create_product server NUM w).2 =
         sink w ++ [("POST /product", Failure "Status 503")] /\
       sink (Comparison.LocalStackUser_create_product server NUM w).2 =
         sink w ++ [("/product", Failure "Status 503")] /\
       sink (Comparison.AWSUser_create_product server NUM w).2 =
         sink w ++ [("/product", Failure "Status 503")]) /\
  (forall server w cart_id,
     answers server w (PostCheckout cart_id) 402 ->
     sink (Client.checkout server cart_id w).2 =
       sink w ++ [(Client.checkout_path cart_id, Failure exception_message)]).
Proof.
  split; [|split].
  - intros server w cart_id (resp & Hserver & Hcode).
    unfold Locustfile._checkout_cart, Aws._checkout, Localstack._checkout,
      Comparison.LocalStackUser_checkout, Comparison.AWSUser_checkout,
      client_post, requests_post, bind, ret, call_shared, report, status_in.
    rewrite Hserver. cbn. rewrite Hcode. cbn. repeat split; reflexivity.
  - intros server w (resp & Hserver & Hcode).
    unfold Aws._create_product, Aws.classify_product_status,
      Localstack._create_product, client_post, requests_post, bind, ret,
      report, status_in, status_message.
    rewrite Hserver. cbn. rewrite Hcode. cbn.
    split; [reflexivity|]. split; [reflexivity|].
    intros NUM Hguard.
    unfold Locustfile.create_product, Comparison.LocalStackUser_create_product,
      Comparison.AWSUser_create_product, client_post, requests_post, bind, ret,
      read_shared, call_shared, report, status_in, status_message.
    assert (Hlt : (get_product_count (shared w) >=? NUM) = false) by lia.
    cbv beta iota zeta. cbn [fst snd shared]. rewrite !Hlt. cbn.
    rewrite Hserver. cbn. rewrite Hcode. cbn. repeat split; reflexivity.
  - intros server w cart_id (resp & Hserver & Hcode).
    unfold Client.checkout, Client.client_post, Client.raises_for_status,
      requests_post, bind, ret, report.
    cbn [fst snd shared exchanges sink draws].
    rewrite Hserver, Hcode. reflexivity.
Qed.

Lemma expected_statuses_by_flow_witness :
  sink (Locustfile._checkout_cart bad_service 5 new_world).2 =
    [("POST /shopping-carts/{id}/checkout", Success)] /\
  sink (Aws._create_product bad_service new_world).2 =
    [("POST /product", Success)] /\
  sink (Locustfile.create_product bad_service 1 new_world).2 =
    [("POST /product", Failure "Status 503")] /\
  sink (Client.checkout bad_service 5 new_world).2 =
    [(Client.checkout_path 5, Failure exception_message)].
Proof.
  split; [|split; [|split]].
  - apply (proj1 expected_statuses_by_flow bad_service new_world 5).
    eexists; split; reflexivity.
  - apply (proj1 (proj2 expected_statuses_by_flow) bad_service new_world).
    eexists; split; reflexivity.
  - apply (proj1 (proj2 expected_statuses_by_flow) bad_service new_world);
      [eexists; split; reflexivity | reflexivity].
  - apply (proj2 (proj2 expected_statuses_by_flow) bad_service new_world 5).
    eexists; split; reflexivity.
Defined.

(** C3 as worded fails on [ProductSetupUser.create_product]: a POST
    /product answered with 503 is reported as the failure "Status 503". *)
Lemma setup_user_reports_503_as_failure :
  ~ product_503_is_success_in_setup_user.
Proof.
  intros H. specialize (H bad_service 1 new_world).
  assert (Hsink : sink (Locustfile.create_product bad_service 1 new_world).2 =
                  [("POST /product", Failure "Status 503")]) by reflexivity.
  rewrite Hsink in H.
  assert (Habs : [("POST /product", Failure "Status 503")] =
                 sink new_world ++ [("POST /product", Success)]).
  { apply H; [reflexivity | eexists; split; reflexivity]. }
  discriminate Habs.
Qed.

Lemma truthy_nonzero (n : Z) : truthy (Some n) = true -> n <> 0.
Proof. unfold truthy. intros H. lia. Qed.

Lemma add_product_no_zero pid s l :
  pid <> 0 -> no_zero_id s l -> no_zero_id (add_product pid s) l.
Proof.
  unfold no_zero_id. simpl. intros Hpid Hs.
  rewrite not_elem_of_app, not_elem_of_cons. split; [exact Hs|].
  split; [congruence|apply not_elem_of_nil].
Qed.

Ltac preserve_no_zero :=
  repeat preserve_step;
  try (apply preserves_post; intros ? ? ? Hnz; exact Hnz);
  try (apply preserves_call; intros ? ? Hnz; exact Hnz);
  try (apply preserves_update; intros ? ? Hnz; exact Hnz).

Section LocustfilePool.

Variable server : nat -> request -> reply.
Variable rng : nat -> nat.
Variables NUM TARGET MIN MAX : Z.

Lemma create_product_no_zero :
  preserves no_zero_id (Locustfile.create_product server NUM).
Proof.
  unfold Locustfile.create_product, client_post. preserve_no_zero.
  apply preserves_update. intros s l Hs. apply add_product_no_zero; [|exact Hs].
  apply truthy_nonzero. congruence.
Qed.

Lemma on_start_no_zero fuel :
  preserves no_zero_id (Locustfile.on_start fuel).
Proof.
  induction fuel as [|fuel IH]; simpl; [apply preserves_ret|].
  preserve_no_zero. exact IH.
Qed.

Lemma add_items_no_zero n cart_id :
  preserves no_zero_id (Locustfile.add_items server rng n cart_id).
Proof.
  induction n as [|n IH]; simpl; [apply preserves_ret|].
  apply preserves_bind; [|intros added].
  - unfold Locustfile._add_item_to_cart, shared_get_random_product, randint,
      client_post.
    preserve_no_zero.
  - apply preserves_bind; [apply IH|intros rest]. apply preserves_ret.
Qed.

Lemma shopping_cycle_no_zero customer_id :
  preserves no_zero_id
    (Locustfile.complete_shopping_cycle server rng TARGET MIN MAX customer_id).
Proof.
  unfold Locustfile.complete_shopping_cycle, Locustfile._create_cart,
    Locustfile._checkout_cart, randint, client_post.
  preserve_no_zero. apply add_items_no_zero.
Qed.

Lemma perform_all_no_zero ts :
  preserves no_zero_id
    (Locustfile.perform_all server rng NUM TARGET MIN MAX ts).
Proof.
  induction ts as [|t ts IH]; simpl; [apply preserves_ret|].
  apply preserves_bind; [|intros _; exact IH].
  destruct t; simpl; unfold Locustfile.ShopperUser_init.
  - preserve_no_zero. apply create_product_no_zero.
  - preserve_no_zero.
  - preserve_no_zero. apply on_start_no_zero.
  - apply shopping_cycle_no_zero.
Qed.

End LocustfilePool.

(** C10.  [ShopperUser._add_item_to_cart] tests the product it drew for
    truthiness: when [get_random_product] returns the id 0 it returns False
    and sends no request and reports nothing, the same as when the pool is
    empty and [get_random_product] returns [None].
    [ProductSetupUser.create_product], on a 201 response whose [product_id]
    is 0 or missing, reports the failure "No product_id" and leaves the
    shared state as it was, so that after every run of the users of
    [locustfile.py] the pool holds no id 0. *)
Theorem zero_product_id_reads_as_none_available :
  (forall server rng cart_id w,
     get_random_product (rng (draws w)) (shared w) = Some 0 ->
     let r := Locustfile._add_item_to_cart server rng cart_id w in
     r.1 = false /\ exchanges r.2 = exchanges w /\
     sink r.2 = sink w /\ shared r.2 = shared w) /\
  (forall server rng cart_id w,
     product_ids (shared w) = [] ->
     let r := Locustfile._add_item_to_cart server rng cart_id w in
     r.1 = false /\ exchanges r.2 = exchanges w /\
     sink r.2 = sink w /\ shared r.2 = shared w) /\
  (forall server NUM_INITIAL_PRODUCTS w resp body,
     get_product_count (shared w) < NUM_INITIAL_PRODUCTS ->
     server (length (exchanges w)) PostProduct = Answered resp ->
     status_code resp = 201 ->
     json resp = Some body ->
     body !! "product_id" = Some 0 \/ body !! "product_id" = None ->
     let w' := (Locustfile.create_product server NUM_INITIAL_PRODUCTS w).2 in
     shared w' = shared w /\
     sink w' = sink w ++ [("POST /product", Failure "No product_id")]) /\
  (forall server rng NUM_INITIAL_PRODUCTS TARGET_CHECKOUTS
          MIN_ITEMS_PER_CART MAX_ITEMS_PER_CART ts,
     0 ∉ product_ids
           (shared (Locustfile.perform_all server rng NUM_INITIAL_PRODUCTS
                      TARGET_CHECKOUTS MIN_ITEMS_PER_CART MAX_ITEMS_PER_CART
                      ts new_world).2)).
Proof.
  split; [|split; [|split]].
  - intros server rng cart_id w Hzero r. subst r.
    unfold Locustfile._add_item_to_cart, shared_get_random_product, bind,
      read_shared, call_shared, draw, ret.
    cbn [fst snd shared].
    destruct (product_ids (shared w)) as [|p ids] eqn:Hids.
    { unfold get_random_product in Hzero. rewrite Hids in Hzero. discriminate. }
    cbn. rewrite Hzero. cbn. destruct w; repeat split; reflexivity.
  - intros server rng cart_id w Hnil r. subst r.
    unfold Locustfile._add_item_to_cart, shared_get_random_product, bind,
      read_shared, call_shared, draw, ret.
    cbn [fst snd shared]. rewrite Hnil. cbn.
    destruct w; repeat split; reflexivity.
  - intros server NUM w resp body Hguard Hserver Hcode Hjson Hid w'. subst w'.
    assert (Hlt : (get_product_count (shared w) >=? NUM) = false) by lia.
    unfold Locustfile.create_product, client_post, requests_post, bind, ret,
      read_shared, call_shared, report.
    cbv beta iota zeta. cbn [fst snd shared]. rewrite Hlt. cbn.
    rewrite Hserver. cbn. rewrite Hcode, Hjson. cbn.
    destruct Hid as [-> | ->]; cbn; destruct w; split; reflexivity.
  - intros server rng NUM TARGET MIN MAX ts.
    apply (perform_all_no_zero server rng NUM TARGET MIN MAX ts new_world).
    unfold holds, no_zero_id. simpl. apply not_elem_of_nil.
Qed.

Lemma zero_product_id_reads_as_none_available_witness :
  ((Locustfile._add_item_to_cart shop_with_zero_id (fun _ => 0%nat) 5
      pool_with_zero).1 = false /\
   exchanges (Locustfile._add_item_to_cart shop_with_zero_id (fun _ => 0%nat) 5
                pool_with_zero).2 = [] /\
   sink (Locustfile._add_item_to_cart shop_with_zero_id (fun _ => 0%nat) 5
           pool_with_zero).2 = [] /\
   shared (Locustfile._add_item_to_cart shop_with_zero_id (fun _ => 0%nat) 5
             pool_with_zero).2 = add_product 0 init) /\
  (Locustfile._add_item_to_cart shop_with_zero_id (fun _ => 0%nat) 5 new_world).1
    = false /\
  shared (Locustfile.create_product shop_with_zero_id 1 new_world).2 = init.
Proof.
  split; [|split].
  - apply (proj1 zero_product_id_reads_as_none_available
             shop_with_zero_id (fun _ => 0%nat) 5 pool_with_zero).
    reflexivity.
  - apply (proj1 (proj2 zero_product_id_reads_as_none_available)
             shop_with_zero_id (fun _ => 0%nat) 5 new_world).
    reflexivity.
  - apply (proj1 (proj2 (proj2 zero_product_id_reads_as_none_available))
             shop_with_zero_id 1 new_world
             {| status_code := 201; json := Some {["product_id" := 0]} |}
             {["product_id" := 0]});
      [reflexivity | reflexivity | reflexivity | reflexivity
      | left; reflexivity].
Defined.

(* ====================================================================== *)
(** * Properties of the setup protocol *)
(* ====================================================================== *)

Section ProtocolFacts.

Import Protocol.

Variable NUM : Z.

Lemma count_positive s : get_product_count s > 0 -> product_ids s <> [].
Proof.
  unfold get_product_count. destruct (product_ids s); simpl; [lia|congruence].
Qed.

Ltac split_cases :=
  repeat match goal with
         | |- context [if ?c then _ else _] => destruct c eqn:?
         | |- context [match ?x with _ => _ end] => destruct x eqn:?
         end.

Lemma step_setup_safe resp pc s :
  (about_to_mark (ProductSetupUser pc) = true -> product_ids s <> []) ->
  (setup_complete s = true -> product_ids s <> []) ->
  step_safe (ProductSetupUser pc) s
    (ProductSetupUser (step_setup NUM resp pc s).1) (step_setup NUM resp pc s).2.
Proof.
  intros Hu Hflag. unfold step_safe.
  destruct pc; simpl in *; split_cases; simpl;
    repeat split; intros; try congruence; auto.
  all: destruct (product_ids s); simpl; congruence.
Qed.

Lemma step_shopper_safe c pc s :
  (about_to_mark (ShopperUser pc) = true -> product_ids s <> []) ->
  (setup_complete s = true -> product_ids s <> []) ->
  step_safe (ShopperUser pc) s
    (ShopperUser (step_shopper c pc s).1) (step_shopper c pc s).2.
Proof.
  intros Hu Hflag. unfold step_safe.
  destruct pc; simpl in *; split_cases; simpl;
    repeat split; intros; try congruence; auto;
    try (apply count_positive; lia).
  all: destruct c; simpl in *; auto; congruence.
Qed.

Lemma step_user_safe e u s :
  (about_to_mark u = true -> product_ids s <> []) ->
  (setup_complete s = true -> product_ids s <> []) ->
  step_safe u s (step_user NUM e u s).1 (step_user NUM e u s).2.
Proof.
  intros Hu Hflag. destruct u as [pc|pc]; simpl.
  - pose proof (step_setup_safe (answer e) pc s Hu Hflag) as H.
    destruct (step_setup NUM (answer e) pc s). exact H.
  - pose proof (step_shopper_safe (next_call e) pc s Hu Hflag) as H.
    destruct (step_shopper (next_call e) pc s). exact H.
Qed.

Lemma step_preserves_safe sys e : safe sys -> safe (step NUM sys e).
Proof.
  intros [Hflag Husers]. unfold step.
  destruct (users sys !! who e) as [u|] eqn:Hu; [|split; assumption].
  assert (Harmed : about_to_mark u = true -> product_ids (state sys) <> []).
  { eapply Forall_lookup_1 in Husers; [exact Husers|exact Hu]. }
  destruct (step_user_safe e u (state sys) Harmed Hflag)
    as (Hmono & Hnew & Hflag' & _).
  destruct (step_user NUM e u (state sys)) as [u' s']. simpl in *.
  split; [exact Hflag'|].
  apply Forall_insert; [|exact Hnew].
  eapply Forall_impl; [exact Husers|]. intros v Hv Hav. apply Hmono, Hv, Hav.
Qed.

Lemma start_safe n m : safe (start n m).
Proof.
  split; [discriminate|].
  apply Forall_app. split; apply Forall_replicate; discriminate.
Qed.

Lemma execute_snoc es e sys :
  execute NUM (es ++ [e]) sys = step NUM (execute NUM es sys) e.
Proof. unfold execute. rewrite foldl_app. reflexivity. Qed.

Lemma execute_safe es sys : safe sys -> safe (execute NUM es sys).
Proof.
  intros Hsys. induction es as [|e es IH] using rev_ind; [exact Hsys|].
  rewrite execute_snoc. apply step_preserves_safe, IH.
Qed.

Lemma step_marks_after_product sys e :
  safe sys ->
  setup_complete (state sys) = false ->
  setup_complete (state (step NUM sys e)) = true ->
  product_ids (state sys) <> [].
Proof.
  intros [Hflag Husers] Hbefore. unfold step.
  destruct (users sys !! who e) as [u|] eqn:Hu; [|congruence].
  assert (Harmed : about_to_mark u = true -> product_ids (state sys) <> []).
  { eapply Forall_lookup_1 in Husers; [exact Husers|exact Hu]. }
  destruct (step_user_safe e u (state sys) Harmed Hflag) as (_ & _ & _ & Hset).
  destruct (step_user NUM e u (state sys)) as [u' s']. simpl in *.
  intros Hafter. apply Hset; assumption.
Qed.

End ProtocolFacts.

(** C4.  In every state that the users of [locustfile.py] can reach from a
    fresh shared state, whatever the number of [ProductSetupUser]s and
    [ShopperUser]s, the target count, the responses of the product service
    and the interleaving of their calls: if [setup_complete] is true the
    product list is not empty.  Moreover a step that turns the flag from
    false to true is taken in a state whose product list is already
    non-empty. *)
Theorem setup_complete_implies_products :
  forall NUM_INITIAL_PRODUCTS setup_users shoppers es,
    let sys := Protocol.execute NUM_INITIAL_PRODUCTS es
                 (Protocol.start setup_users shoppers) in
    (is_setup_complete (Protocol.state sys) = true ->
     product_ids (Protocol.state sys) <> []) /\
    (forall e,
       is_setup_complete (Protocol.state sys) = false ->
       is_setup_complete
         (Protocol.state (Protocol.step NUM_INITIAL_PRODUCTS sys e)) = true ->
       product_ids (Protocol.state sys) <> []).
Proof.
  intros NUM n m es sys.
  assert (Hsafe : Protocol.safe sys) by apply execute_safe, start_safe.
  split; [apply Hsafe|].
  intros e. apply step_marks_after_product, Hsafe.
Qed.

Lemma setup_complete_implies_products_witness :
  is_setup_complete
    (Protocol.state
       (Protocol.execute 1 (Protocol.turn <$> [0; 0; 0; 0; 0; 1; 1; 1]%nat)
          (Protocol.start 1 1))) = true /\
  product_ids
    (Protocol.state
       (Protocol.execute 1 (Protocol.turn <$> [0; 0; 0; 0; 0; 1; 1; 1]%nat)
          (Protocol.start 1 1))) <> [].
Proof.
  split; [reflexivity|].
  apply (setup_complete_implies_products 1 1 1
           (Protocol.turn <$> [0; 0; 0; 0; 0; 1; 1; 1]%nat)).
  reflexivity.
Defined.

(* ====================================================================== *)
(** * Properties of the summary table *)
(* ====================================================================== *)

Section SummaryFacts.

Import CompareResults.

Lemma int_count v : is_count v = true -> exists n, int_ v = Some n.
Proof. destruct v; try discriminate. eauto. Qed.

Lemma round2_number v :
  is_number v = true -> exists v', round2 v = Some v' /\ is_number v' = true.
Proof. destruct v; try discriminate; simpl; eauto. Qed.

Lemma to_float_number v : is_number v = true -> exists x, to_float v = Some x.
Proof. destruct v; try discriminate; simpl; eauto. Qed.

Lemma failure_rate_count failures requests :
  is_count failures = true -> is_count requests = true ->
  exists numpy x, failure_rate failures requests = Some (VFloat numpy x).
Proof.
  destruct failures as [|nf f|]; try discriminate.
  destruct requests as [|nr r|]; try discriminate. intros _ _.
  unfold failure_rate, max_1.
  destruct (r <? 1) eqn:Hr.
  - destruct nf; simpl; eauto.
  - destruct nf, nr; simpl; eauto.
    assert ((r =? 0) = false) as -> by lia. simpl. eauto.
Qed.

Lemma failure_rate_zero failures requests :
  is_zero_count failures = true -> is_zero_count requests = true ->
  exists numpy, failure_rate failures requests = Some (VFloat numpy 0).
Proof.
  destruct failures as [|nf [| |]|]; try discriminate.
  destruct requests as [|nr [| |]|]; try discriminate. intros _ _.
  destruct nf, nr; eexists; vm_compute; reflexivity.
Qed.


Lemma readable_fields row :
  readable row = true ->
  is_count (safe_get row "Request Count") = true /\
  is_count (safe_get row "Failure Count") = true /\
  is_number (safe_get row "Average Response Time") = true /\
  is_number (safe_get row "Median Response Time") = true /\
  is_number (safe_get row "95%") = true /\
  is_number (safe_get row "99%") = true /\
  is_number (safe_get row "Requests/s") = true.
Proof.
  unfold readable. cbn [forallb]. rewrite !andb_true_iff. tauto.
Qed.

(** The list built for one side of the table, for a readable row. *)
Lemma summary_values_readable row :
  readable row = true ->
  exists requests failures numpy rate average median p95 p99 rps,
    summary_values row =
      Some [VInt false requests; VInt false failures; VFloat numpy rate;
            average; median; p95; p99; rps] /\
    failure_rate (safe_get row "Failure Count") (safe_get row "Request Count")
      = Some (VFloat numpy rate) /\
    Forall (fun v => is_number v = true) [average; median; p95; p99; rps].
Proof.
  intros Hrow.
  destruct (readable_fields row Hrow) as (Hr & Hf & Ha & Hm & H95 & H99 & Hs).
  destruct (int_count _ Hr) as [requests Hrequests].
  destruct (int_count _ Hf) as [failures Hfailures].
  destruct (failure_rate_count _ _ Hf Hr) as (numpy & rate & Hrate).
  destruct (round2_number _ Ha) as (average & Haverage & ?).
  destruct (round2_number _ Hm) as (median & Hmedian & ?).
  destruct (round2_number _ H95) as (p95 & Hp95 & ?).
  destruct (round2_number _ H99) as (p99 & Hp99 & ?).
  destruct (round2_number _ Hs) as (rps & Hrps & ?).
  exists requests, failures, numpy, rate, average, median, p95, p99, rps.
  split; [|split; [exact Hrate|repeat constructor; assumption]].
  unfold summary_values.
  rewrite Hrequests, Hfailures, Hrate, Haverage, Hmedian, Hp95, Hp99, Hrps.
  reflexivity.
Qed.

(** The column stored for one side of the table, for a readable row. *)
Lemma summary_column_readable row :
  readable row = true ->
  exists values requests failures numpy rate average median p95 p99 rps,
    summary_values row = Some values /\
    mapM to_float values =
      Some [requests; failures; rate; average; median; p95; p99; rps] /\
    failure_rate (safe_get row "Failure Count") (safe_get row "Request Count")
      = Some (VFloat numpy rate).
Proof.
  intros Hrow.
  destruct (summary_values_readable row Hrow)
    as (requests & failures & numpy & rate & average & median & p95 & p99
        & rps & Hvalues & Hrate & Hnumbers).
  repeat match goal with
         | H : Forall _ (_ :: _) |- _ => apply Forall_cons in H; destruct H
         end.
  repeat match goal with
         | H : is_number ?v = true |- _ =>
             apply to_float_number in H; destruct H
         end.
  eexists _, _, _, numpy, rate, _, _, _, _, _.
  split; [exact Hvalues|]. split; [|exact Hrate].
  cbn. repeat match goal with H : to_float _ = Some _ |- _ => rewrite H; clear H end.
  reflexivity.
Qed.

Lemma create_summary_readable localstack_stats aws_stats ls aws :
  get_aggregated_row localstack_stats = Some ls ->
  get_aggregated_row aws_stats = Some aws ->
  readable ls = true ->
  readable aws = true ->
  exists ls_column aws_column ls_numpy aws_numpy ls_rate aws_rate,
    create_summary localstack_stats aws_stats =
      Some (summary_frame ls_column aws_column) /\
    length ls_column = 8%nat /\ length aws_column = 8%nat /\
    ls_column !! 2%nat = Some ls_rate /\ aws_column !! 2%nat = Some aws_rate /\
    failure_rate (safe_get ls "Failure Count") (safe_get ls "Request Count")
      = Some (VFloat ls_numpy ls_rate) /\
    failure_rate (safe_get aws "Failure Count") (safe_get aws "Request Count")
      = Some (VFloat aws_numpy aws_rate).
Proof.
  intros Hls Haws Rls Raws.
  destruct (summary_column_readable ls Rls)
    as (lv & l0 & l1 & ls_numpy & ls_rate & l3 & l4 & l5 & l6 & l7
        & Hlv & Hlc & Hlr).
  destruct (summary_column_readable aws Raws)
    as (av & a0 & a1 & aws_numpy & aws_rate & a3 & a4 & a5 & a6 & a7
        & Hav & Hac & Har).
  eexists _, _, ls_numpy, aws_numpy, ls_rate, aws_rate.
  unfold create_summary. rewrite Hls, Haws. cbn [mbind option_bind].
  rewrite Hlv, Hav. cbn [mbind option_bind]. rewrite Hlc, Hac.
  cbn [mbind option_bind].
  split; [reflexivity|]. repeat split; try reflexivity; assumption.
Qed.

Lemma summary_frame_rate ls_column aws_column l a :
  ls_column !! 2%nat = Some l -> aws_column !! 2%nat = Some a ->
  summary_frame ls_column aws_column !! 2%nat =
    Some (mkRow "Failure Rate (%)" l a (calc_diff l a)).
Proof.
  destruct ls_column as [|? [|? [|? ?]]]; try discriminate.
  destruct aws_column as [|? [|? [|? ?]]]; try discriminate.
  intros [= ->] [= ->]. reflexivity.
Qed.

Lemma summary_frame_difference ls_column aws_column row :
  row ∈ summary_frame ls_column aws_column ->
  Difference row = calc_diff (LocalStack row) (AWS row).
Proof.
  unfold summary_frame. intros Hrow.
  apply list_elem_of_fmap in Hrow. destruct Hrow as ([name [l a]] & -> & _).
  reflexivity.
Qed.

Lemma create_summary_frame localstack_stats aws_stats summary :
  create_summary localstack_stats aws_stats = Some summary ->
  exists ls_column aws_column, summary = summary_frame ls_column aws_column.
Proof.
  unfold create_summary. intros H.
  repeat match type of H with
         | (mbind _ ?m) = Some _ => destruct m; [|discriminate]; cbn in H
         | (?m ≫= _) = Some _ => destruct m; [|discriminate]; cbn in H
         end.
  injection H as <-. eauto.
Qed.

End SummaryFacts.

Import CompareResults.

(** An absent column is what [safe_get] covers; an empty cell is not:
    [int(nan)] raises [ValueError]. *)
Lemma create_summary_raises_on_nan_count :
  readable (aggregated_of nan_counts) = false /\
  create_summary nan_counts aws_example = None.
Proof. split; vm_compute; reflexivity. Qed.

(** C8.  For two frames whose aggregated rows are readable and hold
    [Request Count = 100], [Failure Count = 5] and [Request Count = 200],
    [Failure Count = 40], [create_summary] returns a table whose
    "Failure Rate (%)" row holds the rates 5.0 and 20.0 and the difference
    "+300.0%".  The rates are what [failure_rate] computes from the counts,
    and [calc_diff] renders a metric that went from 1 to 4 as "+300.0%":
    explicit sign, one decimal. *)
Theorem summary_failure_rates_and_difference :
  (forall localstack_stats aws_stats ls aws,
     get_aggregated_row localstack_stats = Some ls ->
     get_aggregated_row aws_stats = Some aws ->
     readable ls = true ->
     readable aws = true ->
     ls !! "Request Count" = Some (VInt true 100) ->
     ls !! "Failure Count" = Some (VInt true 5) ->
     aws !! "Request Count" = Some (VInt true 200) ->
     aws !! "Failure Count" = Some (VInt true 40) ->
     exists summary,
       create_summary localstack_stats aws_stats = Some summary /\
       summary !! 2%nat =
         Some {| Metric := "Failure Rate (%)"; LocalStack := 5; AWS := 20;
                 Difference := "+300.0%" |}) /\
  failure_rate (VInt true 5) (VInt true 100) = Some (VFloat true 5) /\
  failure_rate (VInt true 40) (VInt true 200) = Some (VFloat true 20) /\
  calc_diff 1 4 = "+300.0%".
Proof.
  split; [|repeat split; vm_compute; reflexivity].
  intros localstack_stats aws_stats ls aws Hls Haws Rls Raws Hlr Hlf Har Haf.
  destruct (create_summary_readable _ _ _ _ Hls Haws Rls Raws)
    as (ls_column & aws_column & ls_numpy & aws_numpy & ls_rate & aws_rate
        & Hsummary & _ & _ & Hl & Ha & Hlrate & Harate).
  exists (summary_frame ls_column aws_column). split; [exact Hsummary|].
  rewrite (summary_frame_rate _ _ _ _ Hl Ha).
  unfold safe_get in Hlrate, Harate.
  rewrite Hlr, Hlf in Hlrate. rewrite Har, Haf in Harate.
  vm_compute in Hlrate. vm_compute in Harate.
  injection Hlrate as _ <-. injection Harate as _ <-.
  vm_compute. reflexivity.
Qed.

Lemma summary_failure_rates_and_difference_witness :
  exists summary,
    create_summary localstack_example aws_example = Some summary /\
    summary !! 2%nat =
      Some {| Metric := "Failure Rate (%)"; LocalStack := 5; AWS := 20;
              Difference := "+300.0%" |}.
Proof.
  apply (proj1 summary_failure_rates_and_difference
           localstack_example aws_example
           (aggregated_of localstack_example) (aggregated_of aws_example));
    vm_compute; reflexivity.
Defined.

(** C9.  [create_summary] returns a table of eight rows for every pair of
    frames whose aggregated rows are readable: counts that are integers,
    zero included, or missing, the other metrics numbers or missing.  With
    [Request Count] and [Failure Count] zero or missing the failure rate is
    0: the divisor is [max(Request Count, 1)], where the plain quotient of
    two missing counts would raise [ZeroDivisionError].  In every table
    that [create_summary] returns, a row whose LocalStack value is 0 has
    the difference "N/A". *)
Theorem create_summary_total_on_zero_counts :
  (forall localstack_stats aws_stats ls aws,
     get_aggregated_row localstack_stats = Some ls ->
     get_aggregated_row aws_stats = Some aws ->
     readable ls = true ->
     readable aws = true ->
     exists summary,
       create_summary localstack_stats aws_stats = Some summary /\
       length summary = 8%nat) /\
  (forall row,
     is_zero_count (safe_get row "Request Count") = true ->
     is_zero_count (safe_get row "Failure Count") = true ->
     exists numpy,
       failure_rate (safe_get row "Failure Count")
                    (safe_get row "Request Count") = Some (VFloat numpy 0)) /\
  (forall row : Series,
     row !! "Request Count" = None ->
     row !! "Failure Count" = None ->
     truediv (safe_get row "Failure Count") (safe_get row "Request Count")
       = None /\
     failure_rate (safe_get row "Failure Count") (safe_get row "Request Count")
       = Some (VFloat false 0)) /\
  (forall localstack_stats aws_stats summary row,
     create_summary localstack_stats aws_stats = Some summary ->
     row ∈ summary ->
     (LocalStack row =? 0)%float = true ->
     Difference row = "N/A").
Proof.
  split; [|split; [|split]].
  - intros localstack_stats aws_stats ls aws Hls Haws Rls Raws.
    destruct (create_summary_readable _ _ _ _ Hls Haws Rls Raws)
      as (ls_column & aws_column & _ & _ & _ & _ & Hsummary & Hl & Ha & _).
    exists (summary_frame ls_column aws_column). split; [exact Hsummary|].
    unfold summary_frame.
    rewrite length_fmap, !length_zip, Hl, Ha. reflexivity.
  - intros row Hr Hf. apply failure_rate_zero; assumption.
  - intros row Hr Hf. unfold safe_get. rewrite Hr, Hf.
    split; vm_compute; reflexivity.
  - intros localstack_stats aws_stats summary row Hsummary Hrow Hzero.
    destruct (create_summary_frame _ _ _ Hsummary) as (l & a & ->).
    rewrite (summary_frame_difference _ _ _ Hrow).
    unfold calc_diff. rewrite Hzero. reflexivity.
Qed.

Lemma create_summary_total_on_zero_counts_witness :
  (exists summary,
     create_summary no_counts zero_counts = Some summary /\
     length summary = 8%nat) /\
  (exists numpy,
     failure_rate (safe_get (aggregated_of zero_counts) "Failure Count")
                  (safe_get (aggregated_of zero_counts) "Request Count")
       = Some (VFloat numpy 0)) /\
  failure_rate (safe_get (aggregated_of no_counts) "Failure Count")
               (safe_get (aggregated_of no_counts) "Request Count")
    = Some (VFloat false 0) /\
  Difference (mkRow "Total Requests" 0 200 "N/A") = "N/A".
Proof.
  pose proof create_summary_total_on_zero_counts as (Htotal & Hzero & Hmissing & Hna).
  split; [|split; [|split]].
  - apply (Htotal no_counts zero_counts
             (aggregated_of no_counts) (aggregated_of zero_counts));
      vm_compute; reflexivity.
  - apply Hzero; vm_compute; reflexivity.
  - apply Hmissing; vm_compute; reflexivity.
  - apply (Hna no_counts aws_example
             (default [] (create_summary no_counts aws_example)));
      [vm_compute; reflexivity | | vm_compute; reflexivity].
    vm_compute. apply list_elem_of_here.
Defined.

(* ====================================================================== *)
(** * Properties of a shopping cycle *)
(* ====================================================================== *)

Section CycleShape.
Variable server : nat -> request -> reply.
Variable rng : nat -> nat.
Variables TARGET MIN MAX : Z.

Lemma create_cart_spec customer_id w :
  let r := Locustfile._create_cart server customer_id w in
  shared r.2 = shared w /\
  exchanges r.2 =
    exchanges w ++ [(PostShoppingCart customer_id,
                     server (length (exchanges w)) (PostShoppingCart customer_id))] /\
  (forall cart, r.1 = Some cart ->
     cart_created (server (length (exchanges w)) (PostShoppingCart customer_id)) cart).
Proof.
  unfold Locustfile._create_cart, client_post, requests_post, bind, ret, report.
  destruct (server (length (exchanges w)) (PostShoppingCart customer_id))
    as [|resp] eqn:Hserver; cbn.
  { repeat split; intros; discriminate. }
  destruct (status_code resp =? 201) eqn:E201; cbn;
    [|repeat split; intros; discriminate].
  destruct (json resp) as [body|] eqn:Ejson; cbn;
    [|repeat split; intros; discriminate].
  destruct (body !! "shopping_cart_id") as [c|] eqn:Ecart; cbn;
    [|repeat split; intros; discriminate].
  destruct (c =? 0) eqn:Ec; cbn; [repeat split; intros; discriminate|].
  repeat split. intros cart [= <-].
  exists resp, body. repeat split; auto; lia.
Qed.

Lemma randint_spec a b w :
  let r := randint rng a b w in
  shared r.2 = shared w /\ exchanges r.2 = exchanges w /\
  (forall n, r.1 = Some n -> a <= n <= b).
Proof.
  unfold randint, ret, bind, draw. destruct (b <? a) eqn:E; cbn.
  - repeat split; discriminate.
  - repeat split; match goal with H : Some _ = Some _ |- _ => injection H as <- end;
      pose proof (Z.mod_pos_bound (Z.of_nat (rng (draws w))) (b - a + 1)); lia.
Qed.

Lemma add_item_spec cart w :
  let r := Locustfile._add_item_to_cart server rng cart w in
  shared r.2 = shared w /\
  exists items,
    exchanges r.2 = exchanges w ++ items /\
    Forall (item_for cart (shared w)) items /\
    (length items <= 1)%nat /\
    (r.1 = true <-> Exists (fun x => accepted x = true) items).
Proof.
  unfold Locustfile._add_item_to_cart, shared_get_random_product, bind,
    read_shared, call_shared, draw, ret.
  cbn [fst snd shared].
  destruct (product_ids (shared w)) as [|p ids] eqn:Hids.
  { cbn. split; [reflexivity|]. exists []. rewrite app_nil_r.
    repeat split; auto; try discriminate. intros H. inversion H. }
  cbn [fst snd shared exchanges sink draws].
  destruct (get_random_product (rng (draws w)) (shared w)) as [pid|] eqn:Hpid.
  2:{ cbn. split; [reflexivity|]. exists []. rewrite app_nil_r.
      repeat split; auto; try discriminate. intros H. inversion H. }
  assert (Hin : pid ∈ product_ids (shared w)).
  { unfold get_random_product in Hpid. rewrite Hids in Hpid.
    rewrite <- Hids in Hpid. eapply random_choice_elem, Hpid. }
  cbn. destruct (pid =? 0) eqn:Ez; cbn.
  { split; [reflexivity|]. exists []. rewrite app_nil_r.
    repeat split; auto; try discriminate. intros H. inversion H. }
  unfold randint, client_post, requests_post, bind, draw, ret, report. cbn.
  match goal with
  | |- context [server ?k ?rq] => destruct (server k rq) as [|resp] eqn:Hserver
  end; cbn.
  - split; [reflexivity|]. eexists [_]. split; [reflexivity|].
    split; [|split; [simpl; lia|]].
    + constructor; [|constructor]. eexists _, _. split; [reflexivity|].
      split; [exact Hin|]. split; [lia|].
      change (3 - 1 + 1) with 3.
      pose proof (Z.mod_pos_bound (Z.of_nat (rng (S (draws w)))) 3). lia.
    + split; [discriminate|]. intros H. apply Exists_cons in H.
      destruct H as [H|H]; [discriminate|inversion H].
  - destruct (status_code resp =? 204) eqn:E204; cbn.
    + split; [reflexivity|]. eexists [_]. split; [reflexivity|].
      split; [|split; [simpl; lia|]].
      * constructor; [|constructor]. eexists _, _. split; [reflexivity|].
        split; [exact Hin|]. split; [lia|].
        change (3 - 1 + 1) with 3.
      pose proof (Z.mod_pos_bound (Z.of_nat (rng (S (draws w)))) 3). lia.
      * split; [|reflexivity]. intros _. apply Exists_cons_hd. exact E204.
    + split; [reflexivity|]. eexists [_]. split; [reflexivity|].
      split; [|split; [simpl; lia|]].
      * constructor; [|constructor]. eexists _, _. split; [reflexivity|].
        split; [exact Hin|]. split; [lia|].
        change (3 - 1 + 1) with 3.
      pose proof (Z.mod_pos_bound (Z.of_nat (rng (S (draws w)))) 3). lia.
      * split; [discriminate|]. intros H. apply Exists_cons in H.
        destruct H as [H|H]; [unfold accepted in H; simpl in H; congruence|inversion H].
Qed.

Lemma add_items_spec n cart w :
  let r := Locustfile.add_items server rng n cart w in
  shared r.2 = shared w /\
  exists items,
    exchanges r.2 = exchanges w ++ items /\
    Forall (item_for cart (shared w)) items /\
    (length items <= n)%nat /\
    0 <= r.1 /\
    (0 < r.1 <-> Exists (fun x => accepted x = true) items).
Proof.
  revert w. induction n as [|n IH]; intros w; simpl.
  - split; [reflexivity|]. exists []. rewrite app_nil_r.
    repeat split; auto; try lia. intros H. inversion H.
  - unfold bind.
    pose proof (add_item_spec cart w) as Hitem.
    destruct (Locustfile._add_item_to_cart server rng cart w) as [added w1].
    simpl in Hitem. destruct Hitem as (Hs1 & items1 & He1 & Hf1 & Hl1 & Ha1).
    pose proof (IH w1) as Hrest.
    destruct (Locustfile.add_items server rng n cart w1) as [rest w2].
    simpl in Hrest.
    destruct Hrest as (Hs2 & items2 & He2 & Hf2 & Hl2 & Hn2 & Ha2).
    cbn. split; [congruence|].
    exists (items1 ++ items2). rewrite He2, He1, app_assoc.
    split; [reflexivity|]. rewrite Hs1 in Hf2.
    split; [apply Forall_app; split; assumption|].
    split; [rewrite length_app; lia|].
    split; [destruct added; lia|].
    rewrite Exists_app. destruct added.
    + split; [intros _; left; apply Ha1; reflexivity|lia].
    + split.
      * intros H. right. apply Ha2. lia.
      * intros [H|H]; [apply Ha1 in H; discriminate|apply Ha2 in H; lia].
Qed.

Lemma checkout_cart_spec cart w :
  exchanges (Locustfile._checkout_cart server cart w).2 =
  exchanges w ++ [(PostCheckout cart,
                   server (length (exchanges w)) (PostCheckout cart))].
Proof.
  unfold Locustfile._checkout_cart, client_post, requests_post, bind, ret,
    call_shared, report.
  destruct (server (length (exchanges w)) (PostCheckout cart)) as [|resp];
    cbn; [reflexivity|].
  destruct (status_code resp =? 200); [destruct (json resp) as [body|];
    [destruct (truthy (body !! "order_id"))|]|destruct (status_code resp =? 402)];
    reflexivity.
Qed.

Lemma not_accepted (items : list (request * reply)) :
  ~ Exists (fun x => accepted x = true) items ->
  Forall (fun x => accepted x = false) items.
Proof.
  intros H. apply Forall_forall. intros x Hx.
  destruct (accepted x) eqn:E; [|reflexivity].
  exfalso. apply H. apply Exists_exists. eauto.
Qed.

Lemma shopping_cycle_spec customer_id w :
  let w' := (Locustfile.complete_shopping_cycle server rng TARGET MIN MAX
               customer_id w).2 in
  exists l,
    exchanges w' = exchanges w ++ l /\
    cycle_requests customer_id MAX (shared w) l /\
    (shared w' = shared w \/
     exists cart rp, last l = Some (PostCheckout cart, rp)) /\
    (l = [] <-> TARGET <= get_checkout_count (shared w)).
Proof.
  cbv zeta. unfold Locustfile.complete_shopping_cycle.
  unfold bind. unfold read_shared, call_shared. cbn [fst snd].
  destruct w as [s ex sk d]. cbn [shared exchanges sink draws].
  destruct (get_checkout_count s >=? TARGET) eqn:Etarget.
  { exists []. cbn. rewrite app_nil_r.
    split; [reflexivity|]. split; [left; reflexivity|].
    split; [left; reflexivity|]. split; [lia|reflexivity]. }
  assert (Hbelow : forall l : list (request * reply),
            l <> [] -> l = [] <-> TARGET <= get_checkout_count s).
  { intros l Hl. split; [contradiction|lia]. }
  set (w := {| shared := s; exchanges := ex; sink := sk; draws := d |}).
  pose proof (create_cart_spec customer_id w) as Hcart.
  destruct (Locustfile._create_cart server customer_id w) as [cart w1].
  simpl in Hcart. destruct Hcart as (Hs1 & He1 & Hc1).
  destruct cart as [cart|].
  2:{ eexists [_]. split; [exact He1|]. split; [|split; [left; exact Hs1|apply Hbelow; discriminate]]. right.
      exists (server (length ex) (PostShoppingCart customer_id)), [], [].
      split; [reflexivity|]. split; [simpl; lia|].
      intros H. exfalso. apply H. reflexivity. }
  specialize (Hc1 cart eq_refl).
  pose proof (randint_spec MIN MAX w1) as Hrand.
  destruct (randint rng MIN MAX w1) as [num w2].
  simpl in Hrand. destruct Hrand as (Hs2 & He2 & Hn2).
  destruct num as [num|].
  2:{ eexists [_]. cbn. rewrite He2. split; [exact He1|].
      split; [|split; [left; congruence|apply Hbelow; discriminate]]. right.
      exists (server (length ex) (PostShoppingCart customer_id)), [], [].
      split; [reflexivity|]. split; [simpl; lia|].
      intros H. exfalso. apply H. reflexivity. }
  specialize (Hn2 num eq_refl).
  pose proof (add_items_spec (Z.to_nat num) cart w2) as Hitems.
  destruct (Locustfile.add_items server rng (Z.to_nat num) cart w2)
    as [items_added w3].
  simpl in Hitems.
  destruct Hitems as (Hs3 & items & He3 & Hf3 & Hl3 & Hn3 & Ha3).
  assert (Hshared : shared w2 = s) by congruence.
  rewrite Hshared in Hf3.
  assert (Hlen : Z.of_nat (length items) <= Z.max 0 MAX) by lia.
  destruct (items_added >? 0) eqn:Hpos.
  - rewrite checkout_cart_spec, He3, He2, He1. cbn [exchanges].
    eexists (_ :: items ++ [_]).
    split; [rewrite <- !app_assoc; reflexivity|]. split.
    + right. eexists _, items, [_]. split; [reflexivity|]. split; [exact Hlen|].
      intros _. exists cart. split; [exact Hc1|]. split; [exact Hf3|].
      right. eexists. split; [reflexivity|]. apply Ha3. lia.
    + split; [|apply Hbelow; discriminate].
      right. eexists _, _. rewrite app_comm_cons. apply last_snoc.
  - cbn. rewrite He3, He2, He1. cbn [exchanges].
    eexists (_ :: items). split; [rewrite <- !app_assoc; reflexivity|]. split.
    + right. eexists _, items, []. rewrite app_nil_r. split; [reflexivity|].
      split; [exact Hlen|].
      intros _. exists cart. split; [exact Hc1|]. split; [exact Hf3|].
      left. split; [reflexivity|]. apply not_accepted. intros H.
      apply Ha3 in H. lia.
    + split; [left; congruence|apply Hbelow; discriminate].
Qed.

End CycleShape.

(** X1.  The requests of one [complete_shopping_cycle], for every server,
    generator, configuration and world: none, or one POST /shopping-cart for
    the user's customer id followed, only if it was answered 201 with a
    non-zero [shopping_cart_id], by at most [MAX_ITEMS_PER_CART] addItem
    requests for that cart, each naming a non-zero product of the pool and a
    quantity of 1 to 3, and then by one checkout of that cart exactly when
    some addItem was answered 204.  It sends none exactly when the checkout
    count has reached [TARGET_CHECKOUTS]. *)
Theorem shopping_cycle_requests :
  forall server rng TARGET MIN MAX customer_id w,
    exists l,
      exchanges (Locustfile.complete_shopping_cycle server rng TARGET MIN MAX
                   customer_id w).2 = exchanges w ++ l /\
      cycle_requests customer_id MAX (shared w) l /\
      (l = [] <-> TARGET <= get_checkout_count (shared w)).
Proof.
  intros server rng TARGET MIN MAX customer_id w.
  destruct (shopping_cycle_spec server rng TARGET MIN MAX customer_id w)
    as (l & He & Hl & _ & Ht).
  exists l. repeat split; try assumption; apply Ht.
Qed.

(** X2.  With no product in the pool a shopping cycle sends at most the
    POST /shopping-cart: no addItem, no checkout, and the shared state is
    left as it was. *)
Theorem shopping_cycle_on_empty_pool :
  forall server rng TARGET MIN MAX customer_id w,
    product_ids (shared w) = [] ->
    let w' := (Locustfile.complete_shopping_cycle server rng TARGET MIN MAX
                 customer_id w).2 in
    shared w' = shared w /\
    (exchanges w' = exchanges w \/
     exists rp, exchanges w' = exchanges w ++ [(PostShoppingCart customer_id, rp)]).
Proof.
  intros server rng TARGET MIN MAX customer_id w Hempty.
  destruct (shopping_cycle_spec server rng TARGET MIN MAX customer_id w)
    as (l & He & Hl & Hs & _).
  cbv zeta in *.
  assert (Hshape : l = [] \/ exists rp, l = [(PostShoppingCart customer_id, rp)]).
  { destruct Hl as [->|(rp & items & tail & -> & _ & Hrest)]; [left; reflexivity|].
    right. exists rp.
    destruct (decide (items ++ tail = [])) as [->|Hne]; [reflexivity|].
    destruct (Hrest Hne) as (cart & _ & Hitems & Htail).
    assert (items = []) as ->.
    { destruct items as [|x items]; [reflexivity|].
      apply Forall_cons in Hitems. destruct Hitems as [(pid & q & _ & Hin & _) _].
      rewrite Hempty in Hin. inversion Hin. }
    destruct Htail as [[-> _]|(rp' & _ & Hex)]; [reflexivity|inversion Hex]. }
  split.
  - destruct Hs as [Hs|(cart & rp & Hlast)]; [exact Hs|].
    destruct Hshape as [->|[rp0 ->]]; discriminate.
  - rewrite He. destruct Hshape as [->|[rp ->]];
      [left; apply app_nil_r|right; eauto].
Qed.

Lemma shopping_cycle_on_empty_pool_witness :
  let w' := (Locustfile.complete_shopping_cycle shop_without_order_id
               (fun _ => 0%nat) 5 1 3 1 new_world).2 in
  shared w' = shared new_world /\
  (exchanges w' = exchanges new_world \/
   exists rp, exchanges w' = exchanges new_world ++ [(PostShoppingCart 1, rp)]).
Proof.
  apply (shopping_cycle_on_empty_pool shop_without_order_id (fun _ => 0%nat)
           5 1 3 1 new_world).
  reflexivity.
Defined.

Section ComparisonFlows.
Variable server : nat -> request -> reply.
Variable rng : nat -> nat.
Variable TARGET : Z.

Lemma comparison_localstack_checkout_sends cart w :
  exchanges (Comparison.LocalStackUser_checkout server cart w).2 =
  exchanges w ++ [(PostCheckout cart,
                   server (length (exchanges w)) (PostCheckout cart))].
Proof.
  unfold Comparison.LocalStackUser_checkout, requests_post, bind, call_shared,
    report.
  cbn [fst snd shared exchanges sink draws].
  destruct (server (length (exchanges w)) (PostCheckout cart)) as [|resp];
    [reflexivity|].
  destruct (status_in resp [200; 402]); reflexivity.
Qed.

Lemma comparison_aws_checkout_sends cart w :
  exchanges (Comparison.AWSUser_checkout server cart w).2 =
  exchanges w ++ [(PostCheckout cart,
                   server (length (exchanges w)) (PostCheckout cart))].
Proof.
  unfold Comparison.AWSUser_checkout, client_post, requests_post, bind, ret,
    call_shared, report.
  cbn [fst snd shared exchanges sink draws].
  destruct (status_in _ [200; 402]); reflexivity.
Qed.

Lemma pool_member r s pid :
  get_random_product r s = Some pid -> pid ∈ product_ids s.
Proof.
  unfold get_random_product. destruct (product_ids s) eqn:E; [discriminate|].
  rewrite <- E. apply random_choice_elem.
Qed.

Ltac close_flow :=
  eexists; split; [rewrite <- ?app_assoc; reflexivity|].

Lemma comparison_localstack_flow_spec customer_id w :
  exists l,
    exchanges (Comparison.LocalStackUser_shopping_flow server rng TARGET
                 customer_id w).2 = exchanges w ++ l /\
    flow_requests was_answered customer_id (shared w) l.
Proof.
  unfold Comparison.LocalStackUser_shopping_flow, shared_get_random_product.
  unfold bind at 1. unfold read_shared at 1, call_shared at 1.
  destruct w as [s ex sk d]. cbn [fst snd shared exchanges sink draws].
  destruct (get_checkout_count s >=? TARGET).
  { exists []. cbn. rewrite app_nil_r. split; [reflexivity|left; reflexivity]. }
  unfold bind, read_shared, call_shared, draw, ret.
  cbn [fst snd shared exchanges sink draws].
  destruct (product_ids s) as [|p0 ids] eqn:Hids.
  { exists []. cbn. rewrite app_nil_r. split; [reflexivity|left; reflexivity]. }
  cbn [fst snd shared exchanges sink draws].
  destruct (get_random_product (rng d) s) as [pid|] eqn:Hpid;
    [|exists []; cbn; rewrite app_nil_r; split; [reflexivity|left; reflexivity]].
  pose proof (pool_member _ _ _ Hpid) as Hin.
  unfold truthy at 1. destruct (pid =? 0) eqn:Hz; cbn [negb].
  { exists []. cbn. rewrite app_nil_r. split; [reflexivity|left; reflexivity]. }
  unfold requests_post at 1. cbn [fst snd shared exchanges sink draws].
  destruct (server (length ex) (PostShoppingCart customer_id)) as [|resp] eqn:Hcart.
  { cbn. close_flow. right. left. eauto. }
  destruct (status_in resp [200; 201]) eqn:Hstatus;
    [|cbn; close_flow; right; left; eauto].
  destruct (json resp) as [body|] eqn:Hjson;
    [|cbn; close_flow; right; left; eauto].
  unfold report at 1. cbn [fst snd shared exchanges sink draws].
  destruct (body !! "shopping_cart_id") as [cart|] eqn:Hcid;
    [|cbn; close_flow; right; left; eauto].
  unfold truthy. destruct (cart =? 0) eqn:Hcz; cbn [negb];
    [cbn; close_flow; right; left; eauto|].
  assert (Hopened : cart_opened (Answered resp) cart).
  { exists resp, body. repeat split; auto. lia. }
  unfold requests_post at 1. cbn [fst snd shared exchanges sink draws].
  rewrite length_app. cbn [length].
  destruct (server (length ex + 1)%nat (PostAddItem cart pid 1)) as [|radd] eqn:Hadd.
  { cbn. close_flow. right. right.
    exists (Answered resp), cart, pid, Raised.
    split; [exact Hopened|]. split; [exact Hin|]. split; [lia|]. left. split; reflexivity. }
  unfold report at 1. cbn [fst snd shared exchanges sink draws].
  rewrite comparison_localstack_checkout_sends.
  cbn [fst snd shared exchanges sink draws].
  close_flow. right. right.
  exists (Answered resp), cart, pid, (Answered radd).
  split; [exact Hopened|]. split; [exact Hin|]. split; [lia|]. right. split; [reflexivity|]. eauto.
Qed.

Lemma comparison_aws_flow_spec customer_id w :
  exists l,
    exchanges (Comparison.AWSUser_shopping_flow server rng TARGET
                 customer_id w).2 = exchanges w ++ l /\
    flow_requests was_added customer_id (shared w) l.
Proof.
  unfold Comparison.AWSUser_shopping_flow, shared_get_random_product.
  unfold bind at 1. unfold read_shared at 1, call_shared at 1.
  destruct w as [s ex sk d]. cbn [fst snd shared exchanges sink draws].
  destruct (get_checkout_count s >=? TARGET).
  { exists []. cbn. rewrite app_nil_r. split; [reflexivity|left; reflexivity]. }
  unfold bind, read_shared, call_shared, draw, ret.
  cbn [fst snd shared exchanges sink draws].
  destruct (product_ids s) as [|p0 ids] eqn:Hids.
  { exists []. cbn. rewrite app_nil_r. split; [reflexivity|left; reflexivity]. }
  cbn [fst snd shared exchanges sink draws].
  destruct (get_random_product (rng d) s) as [pid|] eqn:Hpid;
    [|exists []; cbn; rewrite app_nil_r; split; [reflexivity|left; reflexivity]].
  pose proof (pool_member _ _ _ Hpid) as Hin.
  unfold truthy at 1. destruct (pid =? 0) eqn:Hz; cbn [negb].
  { exists []. cbn. rewrite app_nil_r. split; [reflexivity|left; reflexivity]. }
  unfold client_post at 1, requests_post at 1, bind, ret.
  cbn [fst snd shared exchanges sink draws].
  destruct (server (length ex) (PostShoppingCart customer_id)) as [|resp] eqn:Hcart.
  { cbn. close_flow. right. left. eauto. }
  destruct (status_in resp [200; 201]) eqn:Hstatus;
    [|cbn; close_flow; right; left; eauto].
  destruct (json resp) as [body|] eqn:Hjson;
    [|cbn; close_flow; right; left; eauto].
  unfold report at 1. cbn [fst snd shared exchanges sink draws].
  destruct (body !! "shopping_cart_id") as [cart|] eqn:Hcid;
    [|cbn; close_flow; right; left; eauto].
  unfold truthy. destruct (cart =? 0) eqn:Hcz; cbn [negb];
    [cbn; close_flow; right; left; eauto|].
  assert (Hopened : cart_opened (Answered resp) cart).
  { exists resp, body. repeat split; auto. lia. }
  unfold client_post at 1, requests_post at 1, bind, ret.
  cbn [fst snd shared exchanges sink draws].
  rewrite length_app. cbn [length].
  destruct (server (length ex + 1)%nat (PostAddItem cart pid 1)) as [|radd] eqn:Hadd.
  { cbn. close_flow. right. right.
    exists (Answered resp), cart, pid, Raised.
    split; [exact Hopened|]. split; [exact Hin|]. split; [lia|]. left. split; reflexivity. }
  destruct (status_in radd [200; 204]) eqn:Hok.
  - unfold report at 1. cbn [fst snd shared exchanges sink draws].
    rewrite comparison_aws_checkout_sends.
    cbn [fst snd shared exchanges sink draws].
    close_flow. right. right.
    exists (Answered resp), cart, pid, (Answered radd).
    split; [exact Hopened|]. split; [exact Hin|]. split; [lia|]. right. split; [exact Hok|]. eauto.
  - cbn. close_flow. right. right.
    exists (Answered resp), cart, pid, (Answered radd).
    split; [exact Hopened|]. split; [exact Hin|]. split; [lia|]. left. split; [exact Hok|reflexivity].
Qed.

End ComparisonFlows.

(** X19.  One [shopping_flow] of [locustfile_comparison.py] sends nothing,
    or the cart request alone, or the cart request, one addItem of quantity
    1 for a non-zero product of the pool and possibly the checkout of the
    same cart.  The two classes differ on when the checkout follows:
    [LocalStackUser] sends it whenever the addItem request was answered,
    whatever its status; [AWSUser] only after a 200 or 204. *)
Theorem comparison_flows_differ_on_checkout :
  forall server rng TARGET_CHECKOUTS customer_id w,
    (exists l,
       exchanges (Comparison.LocalStackUser_shopping_flow server rng
                    TARGET_CHECKOUTS customer_id w).2 = exchanges w ++ l /\
       flow_requests was_answered customer_id (shared w) l) /\
    (exists l,
       exchanges (Comparison.AWSUser_shopping_flow server rng
                    TARGET_CHECKOUTS customer_id w).2 = exchanges w ++ l /\
       flow_requests was_added customer_id (shared w) l).
Proof.
  intros server rng TARGET customer_id w. split.
  - apply comparison_localstack_flow_spec.
  - apply comparison_aws_flow_spec.
Qed.

(* ====================================================================== *)
(** * Properties of the reports *)
(* ====================================================================== *)

Lemma report_gap_trans w w1 w2 :
  report_gap w w2 = report_gap w w1 + report_gap w1 w2.
Proof. unfold report_gap. lia. Qed.

Lemma sends_at_least {A : Type} (m : M A) a k :
  sends m a -> k <= a -> at_least m k.
Proof. intros H Hk w. rewrite H. lia. Qed.

Lemma sends_ret {A : Type} (a : A) k : k = 0 -> sends (ret a) k.
Proof. intros -> w. unfold report_gap. simpl. lia. Qed.

Lemma sends_bind {A B : Type} (m : M A) (k : A -> M B) a c :
  sends m a -> (forall x, sends (k x) (c - a)) -> sends (bind m k) c.
Proof.
  intros Hm Hk w. unfold bind. specialize (Hm w).
  destruct (m w) as [x w1]. specialize (Hk x w1). simpl in *.
  rewrite (report_gap_trans w w1). lia.
Qed.

Lemma at_least_bind {A B : Type} (m : M A) (k : A -> M B) a c :
  sends m a -> (forall x, at_least (k x) (c - a)) -> at_least (bind m k) c.
Proof.
  intros Hm Hk w. unfold bind. specialize (Hm w).
  destruct (m w) as [x w1]. specialize (Hk x w1). simpl in *.
  rewrite (report_gap_trans w w1). lia.
Qed.

Lemma at_least_all {A B : Type} (m : M A) (k : A -> M B) c :
  at_least m 0 -> (forall x, at_least (k x) c) -> at_least (bind m k) c.
Proof.
  intros Hm Hk w. unfold bind. specialize (Hm w).
  destruct (m w) as [x w1]. specialize (Hk x w1). simpl in *.
  rewrite (report_gap_trans w w1). lia.
Qed.

Lemma sends_call {A : Type} (f : SharedState -> A * SharedState) k :
  k = 0 -> sends (call_shared f) k.
Proof.
  intros -> w. unfold call_shared, report_gap.
  destruct (f (shared w)). simpl. lia.
Qed.

Lemma sends_draw rng k : k = 0 -> sends (draw rng) k.
Proof. intros -> w. unfold report_gap. simpl. lia. Qed.

Lemma sends_report name o k : k = -1 -> sends (report name o) k.
Proof.
  intros -> w. unfold report_gap, report. simpl. rewrite length_app. simpl. lia.
Qed.

Lemma sends_requests_post server rq k : k = 1 -> sends (requests_post server rq) k.
Proof.
  intros -> w. unfold report_gap, requests_post. simpl. rewrite length_app.
  simpl. lia.
Qed.

Lemma sends_client_post server rq k : k = 1 -> sends (client_post server rq) k.
Proof.
  intros ->. unfold client_post.
  apply (sends_bind _ _ 1); [apply sends_requests_post; lia|].
  intros x. apply sends_ret. lia.
Qed.

Lemma sends_randint rng a b k : k = 0 -> sends (randint rng a b) k.
Proof.
  intros ->. unfold randint. destruct (b <? a); [apply sends_ret; lia|].
  apply (sends_bind _ _ 0); [apply sends_draw; lia|].
  intros r; apply sends_ret; lia.
Qed.

Lemma sends_get_random_product rng k :
  k = 0 -> sends (shared_get_random_product rng) k.
Proof.
  intros ->. unfold shared_get_random_product, read_shared.
  apply (sends_bind _ _ 0); [apply sends_call; lia|intros ids].
  destruct ids; [apply sends_ret; lia|].
  apply (sends_bind _ _ 0); [apply sends_draw; lia|].
  intros r; apply sends_call; lia.
Qed.

(** The gap of a flow, from the gaps of its calls. *)
Ltac count_gap_pass :=
  repeat lazymatch goal with
    | |- sends (bind _ _) _ => eapply sends_bind; [|intros ?]
    | |- sends (ret _) _ => apply sends_ret; first [reflexivity | lia]
    | |- sends (read_shared _) _ => apply sends_call; first [reflexivity | lia]
    | |- sends (update_shared _) _ => apply sends_call; first [reflexivity | lia]
    | |- sends (call_shared _) _ => apply sends_call; first [reflexivity | lia]
    | |- sends (report _ _) _ => apply sends_report; first [reflexivity | lia]
    | |- sends (client_post _ _) _ =>
        apply sends_client_post; first [reflexivity | lia]
    | |- sends (requests_post _ _) _ =>
        apply sends_requests_post; first [reflexivity | lia]
    | |- sends (randint _ _ _) _ => apply sends_randint; first [reflexivity | lia]
    | |- sends (shared_get_random_product _) _ =>
        apply sends_get_random_product; first [reflexivity | lia]
    | |- sends (let _ := _ in _) _ => cbv zeta
    | |- sends (if ?c then _ else _) _ => destruct c
    | |- sends (match ?x with _ => _ end) _ => destruct x
    end.

Ltac count_gap := count_gap_pass; count_gap_pass.

Ltac bound_gap :=
  repeat lazymatch goal with
    | |- at_least (bind _ _) _ =>
        eapply at_least_bind; [solve [count_gap]|intros ?]
    | |- at_least (let _ := _ in _) _ => cbv zeta
    | |- at_least (if ?c then _ else _) _ => destruct c
    | |- at_least (match ?x with _ => _ end) _ => destruct x
    | |- at_least (ret _) _ => eapply sends_at_least; [solve [count_gap]|lia]
    | |- at_least (report _ _) _ => eapply sends_at_least; [solve [count_gap]|lia]
    end.

Section Balanced.
Variable server : nat -> request -> reply.
Variable rng : nat -> nat.
Variables NUM TARGET MIN MAX : Z.

Lemma locust_create_product_balanced :
  sends (Locustfile.create_product server NUM) 0.
Proof. unfold Locustfile.create_product. count_gap. Qed.

Lemma locust_on_start_balanced fuel : sends (Locustfile.on_start fuel) 0.
Proof. induction fuel; simpl; count_gap. exact IHfuel. Qed.

Lemma locust_create_cart_balanced customer_id :
  sends (Locustfile._create_cart server customer_id) 0.
Proof. unfold Locustfile._create_cart. count_gap. Qed.

Lemma locust_add_item_balanced cart_id :
  sends (Locustfile._add_item_to_cart server rng cart_id) 0.
Proof. unfold Locustfile._add_item_to_cart. count_gap. Qed.

Lemma locust_add_items_balanced n cart_id :
  sends (Locustfile.add_items server rng n cart_id) 0.
Proof.
  induction n; simpl; count_gap;
    try apply locust_add_item_balanced; try exact IHn; count_gap.
Qed.

Lemma locust_checkout_balanced cart_id :
  sends (Locustfile._checkout_cart server cart_id) 0.
Proof. unfold Locustfile._checkout_cart. count_gap. Qed.

Lemma locust_cycle_balanced customer_id :
  sends (Locustfile.complete_shopping_cycle server rng TARGET MIN MAX customer_id) 0.
Proof.
  unfold Locustfile.complete_shopping_cycle. count_gap;
    try apply locust_create_cart_balanced; count_gap;
    try apply locust_add_items_balanced; count_gap;
    try apply locust_checkout_balanced.
Qed.

Lemma locust_perform_all_balanced ts :
  sends (Locustfile.perform_all server rng NUM TARGET MIN MAX ts) 0.
Proof.
  induction ts as [|t ts IH]; simpl; count_gap.
  destruct t; simpl; unfold Locustfile.ShopperUser_init; count_gap;
    try apply locust_create_product_balanced;
    try apply locust_on_start_balanced;
    try apply locust_cycle_balanced; count_gap; try exact IH.
  all: try exact IH.
Qed.

Lemma aws_create_product_balanced : sends (Aws._create_product server) 0.
Proof. unfold Aws._create_product, Aws.classify_product_status. count_gap. Qed.

Lemma aws_on_start_balanced fuel : sends (Aws.on_start server NUM fuel) 0.
Proof.
  induction fuel; simpl; count_gap;
    try apply aws_create_product_balanced; count_gap; try exact IHfuel.
Qed.

Lemma aws_create_cart_balanced customer_id :
  sends (Aws._create_cart server customer_id) 0.
Proof. unfold Aws._create_cart. count_gap. Qed.

Lemma aws_add_item_balanced cart_id : sends (Aws._add_item server rng cart_id) 0.
Proof. unfold Aws._add_item. count_gap. Qed.

Lemma aws_add_items_balanced n cart_id :
  sends (Aws.add_items server rng n cart_id) 0.
Proof.
  induction n; simpl; count_gap;
    try apply aws_add_item_balanced; try exact IHn; count_gap.
Qed.

Lemma aws_checkout_balanced cart_id : sends (Aws._checkout server cart_id) 0.
Proof. unfold Aws._checkout. count_gap. Qed.

Lemma aws_shopping_flow_balanced customer_id :
  sends (Aws.shopping_flow server rng TARGET MIN MAX customer_id) 0.
Proof.
  unfold Aws.shopping_flow. count_gap;
    try apply aws_create_product_balanced;
    try apply aws_create_cart_balanced; count_gap;
    try apply aws_add_items_balanced; count_gap;
    try apply aws_checkout_balanced; count_gap.
Qed.

Lemma aws_perform_all_balanced ts :
  sends (Aws.perform_all server rng NUM TARGET MIN MAX ts) 0.
Proof.
  induction ts as [|t ts IH]; simpl; count_gap.
  destruct t; simpl; unfold Aws.create_product_task; count_gap;
    try apply aws_on_start_balanced;
    try apply aws_shopping_flow_balanced;
    try apply aws_create_product_balanced; count_gap.
  all: try exact IH.
Qed.

Lemma localstack_create_product_balanced :
  sends (Localstack._create_product server) 0.
Proof. unfold Localstack._create_product. count_gap. Qed.

Lemma localstack_on_start_balanced fuel :
  sends (Localstack.on_start server NUM fuel) 0.
Proof.
  induction fuel; simpl; count_gap;
    try apply localstack_create_product_balanced; count_gap; try exact IHfuel.
Qed.

Lemma localstack_create_cart_balanced customer_id :
  sends (Localstack._create_cart server customer_id) 0.
Proof. unfold Localstack._create_cart. count_gap. Qed.

Lemma localstack_add_item_balanced cart_id :
  sends (Localstack._add_item server rng cart_id) 0.
Proof. unfold Localstack._add_item. count_gap. Qed.

Lemma localstack_add_items_balanced n cart_id :
  sends (Localstack.add_items server rng n cart_id) 0.
Proof.
  induction n; simpl; count_gap;
    try apply localstack_add_item_balanced; try exact IHn; count_gap.
Qed.

Lemma localstack_checkout_balanced cart_id :
  sends (Localstack._checkout server cart_id) 0.
Proof. unfold Localstack._checkout. count_gap. Qed.

Lemma localstack_shopping_flow_balanced customer_id :
  sends (Localstack.shopping_flow server rng TARGET MIN MAX customer_id) 0.
Proof.
  unfold Localstack.shopping_flow. count_gap;
    try apply localstack_create_cart_balanced; count_gap;
    try apply localstack_add_items_balanced; count_gap;
    try apply localstack_checkout_balanced; count_gap.
Qed.

Lemma localstack_perform_all_balanced ts :
  sends (Localstack.perform_all server rng NUM TARGET MIN MAX ts) 0.
Proof.
  induction ts as [|t ts IH]; simpl; count_gap.
  destruct t; simpl; count_gap;
    try apply localstack_on_start_balanced;
    try apply localstack_shopping_flow_balanced; count_gap.
  all: try exact IH.
Qed.

Lemma comparison_on_start_balanced fuel : sends (Comparison.on_start fuel) 0.
Proof. induction fuel; simpl; count_gap; try exact IHfuel. Qed.

Lemma comparison_aws_create_product_balanced :
  sends (Comparison.AWSUser_create_product server NUM) 0.
Proof. unfold Comparison.AWSUser_create_product. count_gap. Qed.

Lemma comparison_aws_checkout_balanced cart_id :
  sends (Comparison.AWSUser_checkout server cart_id) 0.
Proof. unfold Comparison.AWSUser_checkout. count_gap. Qed.

Lemma comparison_aws_shopping_flow_balanced customer_id :
  sends (Comparison.AWSUser_shopping_flow server rng TARGET customer_id) 0.
Proof.
  unfold Comparison.AWSUser_shopping_flow. count_gap;
    try apply comparison_aws_checkout_balanced; count_gap.
Qed.

Lemma comparison_localstack_create_product_lossy :
  at_least (Comparison.LocalStackUser_create_product server NUM) 0.
Proof. unfold Comparison.LocalStackUser_create_product. bound_gap. Qed.

Lemma comparison_localstack_checkout_balanced cart_id :
  sends (Comparison.LocalStackUser_checkout server cart_id) 0.
Proof. unfold Comparison.LocalStackUser_checkout. count_gap. Qed.

Lemma comparison_localstack_shopping_flow_lossy customer_id :
  at_least (Comparison.LocalStackUser_shopping_flow server rng TARGET customer_id) 0.
Proof.
  unfold Comparison.LocalStackUser_shopping_flow. bound_gap.
  eapply sends_at_least; [apply comparison_localstack_checkout_balanced|lia].
Qed.

Lemma comparison_perform_all_lossy ts :
  at_least (Comparison.perform_all server rng NUM TARGET ts) 0.
Proof.
  induction ts as [|t ts IH]; simpl.
  - eapply sends_at_least; [apply sends_ret; reflexivity|lia].
  - apply at_least_all; [|intros _; exact IH].
    destruct t; simpl.
    + eapply sends_at_least; [apply comparison_on_start_balanced|lia].
    + apply comparison_localstack_create_product_lossy.
    + apply comparison_localstack_shopping_flow_lossy.
    + eapply sends_at_least; [apply comparison_aws_create_product_balanced|lia].
    + eapply sends_at_least; [apply comparison_aws_shopping_flow_balanced|lia].
Qed.
End Balanced.

Lemma report_gap_zero w w' :
  report_gap w w' = 0 ->
  (length (sink w') + length (exchanges w) =
   length (sink w) + length (exchanges w'))%nat.
Proof. unfold report_gap. lia. Qed.

Lemma report_gap_nonneg w w' :
  0 <= report_gap w w' ->
  (length (sink w') + length (exchanges w) <=
   length (sink w) + length (exchanges w'))%nat.
Proof. unfold report_gap. lia. Qed.

(** X3.  In [locustfile.py], [locustfile_aws.py] and
    [locustfile_localstack.py] every request is reported to the metrics
    sink exactly once, on every path of every task and whatever the server
    answers: over any sequence of tasks the sink grows by as many reports
    as requests were sent. *)
Theorem every_request_reported_once :
  forall server rng NUM TARGET MIN MAX w,
    (forall ts,
       let w' := (Locustfile.perform_all server rng NUM TARGET MIN MAX ts w).2 in
       (length (sink w') + length (exchanges w) =
        length (sink w) + length (exchanges w'))%nat) /\
    (forall ts,
       let w' := (Aws.perform_all server rng NUM TARGET MIN MAX ts w).2 in
       (length (sink w') + length (exchanges w) =
        length (sink w) + length (exchanges w'))%nat) /\
    (forall ts,
       let w' := (Localstack.perform_all server rng NUM TARGET MIN MAX ts w).2 in
       (length (sink w') + length (exchanges w) =
        length (sink w) + length (exchanges w'))%nat).
Proof.
  intros server rng NUM TARGET MIN MAX w.
  split; [|split]; intros ts; apply report_gap_zero.
  - apply locust_perform_all_balanced.
  - apply aws_perform_all_balanced.
  - apply localstack_perform_all_balanced.
Qed.

(** X4.  In [locustfile_comparison.py] the tasks of [AWSUser] report every
    request once, and over any sequence of tasks of both user classes the
    sink never holds more reports than requests were sent; [LocalStackUser]
    reports nothing for a POST /shopping-cart answered with another status
    than 200 or 201: the request is sent and the flow ends without a
    report. *)
Theorem comparison_local_user_drops_reports :
  forall server rng NUM TARGET w,
    (forall ts,
       let w' := (Comparison.perform_all server rng NUM TARGET ts w).2 in
       (length (sink w') + length (exchanges w) <=
        length (sink w) + length (exchanges w'))%nat) /\
    (forall t,
       match t with
       | Comparison.LocalStackCreateProduct
       | Comparison.LocalStackShoppingFlow _ => False
       | _ => True
       end ->
       let w' := (Comparison.perform server rng NUM TARGET t w).2 in
       (length (sink w') + length (exchanges w) =
        length (sink w) + length (exchanges w'))%nat) /\
    (forall customer_id pid resp,
       get_checkout_count (shared w) < TARGET ->
       product_ids (shared w) <> [] ->
       get_random_product (rng (draws w)) (shared w) = Some pid -> pid <> 0 ->
       server (length (exchanges w)) (PostShoppingCart customer_id)
         = Answered resp ->
       status_in resp [200; 201] = false ->
       let w' := (Comparison.LocalStackUser_shopping_flow server rng TARGET
                    customer_id w).2 in
       sink w' = sink w /\
       exchanges w' =
         exchanges w ++ [(PostShoppingCart customer_id, Answered resp)]).
Proof.
  intros server rng NUM TARGET w. split; [|split].
  - intros ts. apply report_gap_nonneg. apply comparison_perform_all_lossy.
  - intros t Ht. apply report_gap_zero. destruct t; try contradiction; simpl.
    + apply comparison_on_start_balanced.
    + apply comparison_aws_create_product_balanced.
    + apply comparison_aws_shopping_flow_balanced.
  - intros customer_id pid resp Hcount Hpool Hpid Hnz Hserver Hstatus.
    unfold Comparison.LocalStackUser_shopping_flow, shared_get_random_product,
      bind, read_shared, call_shared, requests_post, draw, ret.
    cbv beta iota zeta. cbn [fst snd shared exchanges sink draws].
    assert ((get_checkout_count (shared w) >=? TARGET) = false) as -> by lia.
    cbn [fst snd shared exchanges sink draws].
    destruct (product_ids (shared w)) as [|p ids] eqn:Hids; [contradiction|].
    cbn [fst snd shared exchanges sink draws].
    rewrite Hpid. unfold truthy.
    assert ((pid =? 0) = false) as -> by lia.
    cbn [negb fst snd shared exchanges sink draws].
    rewrite Hserver, Hstatus. cbn. auto.
Qed.

Lemma comparison_local_user_drops_reports_witness :
  let w := {| shared := add_product 7 init; exchanges := []; sink := [];
              draws := 0 |} in
  let w' := (Comparison.LocalStackUser_shopping_flow bad_service
               (fun _ => 0%nat) 5 1 w).2 in
  sink w' = sink w /\
  exchanges w' =
    exchanges w
    ++ [(PostShoppingCart 1,
         Answered {| status_code := 503; json := None |})].
Proof.
  apply (proj2 (proj2
           (comparison_local_user_drops_reports bad_service (fun _ => 0%nat)
              5 5
              {| shared := add_product 7 init; exchanges := []; sink := [];
                 draws := 0 |}))
           1 7 {| status_code := 503; json := None |});
    first [reflexivity | discriminate].
Defined.

(* ====================================================================== *)
(** * Properties of the other load-test files *)
(* ====================================================================== *)

Section AwsAccounting.
Variable server : nat -> request -> reply.
Variable rng : nat -> nat.
Variables NUM TARGET MIN MAX : Z.

Lemma aws_checkout_accounting cart_id :
  preserves (accounting order_placed) (Aws._checkout server cart_id).
Proof.
  intros w [Hc Hd].
  unfold holds, accounting, Aws._checkout, client_post,
    requests_post, bind, ret, call_shared, report.
  destruct (server (length (exchanges w)) (PostCheckout cart_id))
    as [|resp] eqn:Hserver; cbn.
  - rewrite !filter_snoc_length. cbn. lia.
  - destruct (status_code resp =? 200) eqn:E200;
      [destruct (json resp) as [body|] eqn:Ejson;
         [destruct (truthy (body !! "order_id")) eqn:Eorder|]
      |destruct (status_code resp =? 402) eqn:E402];
      cbn; rewrite !filter_snoc_length; cbn;
      unfold order_placed, status_is in *;
      rewrite ?E200, ?Ejson, ?Eorder, ?E402; cbn;
      try (destruct (status_code resp =? 402) eqn:E402'); lia.
Qed.

Lemma aws_create_product_accounting placed :
  preserves (accounting placed) (Aws._create_product server).
Proof.
  unfold Aws._create_product, Aws.classify_product_status, client_post.
  preserve_accounting.
Qed.

Lemma aws_add_items_accounting placed n cart_id :
  preserves (accounting placed) (Aws.add_items server rng n cart_id).
Proof.
  induction n as [|n IH]; simpl; [apply preserves_ret|].
  apply preserves_bind; [|intros added].
  - unfold Aws._add_item, shared_get_random_product, randint, client_post.
    preserve_accounting.
  - apply preserves_bind; [apply IH|intros rest]. apply preserves_ret.
Qed.

Lemma aws_on_start_accounting placed fuel :
  preserves (accounting placed) (Aws.on_start server NUM fuel).
Proof.
  induction fuel as [|fuel IH]; simpl; [apply preserves_ret|].
  preserve_accounting;
    first [apply aws_create_product_accounting | exact IH].
Qed.

Lemma aws_shopping_flow_accounting customer_id :
  preserves (accounting order_placed)
    (Aws.shopping_flow server rng TARGET MIN MAX customer_id).
Proof.
  unfold Aws.shopping_flow, Aws._create_cart, randint, client_post.
  preserve_accounting;
    first [apply aws_add_items_accounting | apply aws_checkout_accounting
          | apply aws_create_product_accounting].
Qed.

Lemma aws_perform_all_accounting ts :
  preserves (accounting order_placed)
    (Aws.perform_all server rng NUM TARGET MIN MAX ts).
Proof.
  induction ts as [|t ts IH]; simpl; [apply preserves_ret|].
  apply preserves_bind; [|intros _; exact IH].
  destruct t; simpl; unfold Aws.create_product_task.
  - preserve_accounting.
  - apply aws_on_start_accounting.
  - apply aws_shopping_flow_accounting.
  - preserve_accounting. apply aws_create_product_accounting.
Qed.
End AwsAccounting.

Lemma single_counter_other s l rq rp :
  (forall c, rq <> PostCheckout c) ->
  single_counter s l -> single_counter s (l ++ [(rq, rp)]).
Proof.
  intros Hrq [Hc Hd]. unfold single_counter. rewrite !filter_snoc_length.
  destruct rq; try (simpl; split; lia). exfalso. eapply Hrq. reflexivity.
Qed.

Ltac preserve_single_counter :=
  repeat preserve_step;
  try (apply preserves_post; intros; apply single_counter_other;
       [intros; discriminate | assumption]);
  try (apply preserves_update; intros ? ? Hacc; exact Hacc);
  try (apply preserves_call; intros ? ? Hacc; exact Hacc).

Section ComparisonAccounting.
Variable server : nat -> request -> reply.
Variable rng : nat -> nat.
Variables NUM TARGET : Z.

Lemma comparison_localstack_checkout cart_id :
  preserves single_counter (Comparison.LocalStackUser_checkout server cart_id).
Proof.
  intros w [Hc Hd].
  unfold holds, single_counter, Comparison.LocalStackUser_checkout,
    requests_post, bind, ret, call_shared, report.
  destruct (server (length (exchanges w)) (PostCheckout cart_id))
    as [|resp] eqn:Hserver; [cbn | cbn -[status_in]].
  - rewrite !filter_snoc_length. cbn. lia.
  - unfold terminal in *.
    destruct (status_in resp [200; 402]) eqn:E;
      cbn -[status_in]; rewrite !filter_snoc_length; cbn -[status_in];
      rewrite E; lia.
Qed.

Lemma comparison_aws_checkout cart_id :
  preserves single_counter (Comparison.AWSUser_checkout server cart_id).
Proof.
  intros w [Hc Hd].
  unfold holds, single_counter, Comparison.AWSUser_checkout, client_post,
    requests_post, bind, ret, call_shared, report.
  destruct (server (length (exchanges w)) (PostCheckout cart_id))
    as [|resp] eqn:Hserver; [cbn | cbn -[status_in]].
  - rewrite !filter_snoc_length. cbn. lia.
  - unfold terminal in *.
    destruct (status_in resp [200; 402]) eqn:E;
      cbn -[status_in]; rewrite !filter_snoc_length; cbn -[status_in];
      rewrite E; lia.
Qed.

Lemma comparison_on_start fuel :
  preserves single_counter (Comparison.on_start fuel).
Proof.
  induction fuel as [|fuel IH]; simpl; [apply preserves_ret|].
  preserve_single_counter. exact IH.
Qed.

Lemma comparison_perform_all ts :
  preserves single_counter (Comparison.perform_all server rng NUM TARGET ts).
Proof.
  induction ts as [|t ts IH]; simpl; [apply preserves_ret|].
  apply preserves_bind; [|intros _; exact IH].
  destruct t; simpl.
  - apply comparison_on_start.
  - unfold Comparison.LocalStackUser_create_product. preserve_single_counter.
  - unfold Comparison.LocalStackUser_shopping_flow, shared_get_random_product.
    preserve_single_counter. apply comparison_localstack_checkout.
  - unfold Comparison.AWSUser_create_product, client_post.
    preserve_single_counter.
  - unfold Comparison.AWSUser_shopping_flow, shared_get_random_product,
      client_post.
    preserve_single_counter. apply comparison_aws_checkout.
Qed.
End ComparisonAccounting.

(** X5.  After every sequence of tasks of [locustfile_aws.py] on a fresh
    state, [checkout_count] is the number of checkout requests answered 200
    with a body holding a truthy [order_id], and [declined_count] the number
    answered 402: [AWSUser._checkout] counts as [locustfile.py] does, not as
    [locustfile_localstack.py]. *)
Theorem aws_counts_placed_orders :
  forall server rng NUM_INITIAL_PRODUCTS TARGET_CHECKOUTS
         MIN_ITEMS_PER_CART MAX_ITEMS_PER_CART ts,
    let w := (Aws.perform_all server rng NUM_INITIAL_PRODUCTS
                TARGET_CHECKOUTS MIN_ITEMS_PER_CART MAX_ITEMS_PER_CART
                ts new_world).2 in
    checkout_count (shared w) = count_exchanges (checkout_with order_placed) w /\
    declined_count (shared w) = count_exchanges (checkout_with (status_is 402)) w.
Proof.
  intros server rng NUM TARGET MIN MAX ts w. subst w.
  apply (aws_perform_all_accounting server rng NUM TARGET MIN MAX ts new_world).
  apply accounting_new_world.
Qed.

(** X6.  [locustfile_comparison.py] has one counter: after every sequence
    of tasks of its two user classes on a fresh state, [checkout_count] is
    the number of checkout requests answered 200 or 402, declined payments
    included, whatever the body holds. *)
Theorem comparison_counts_declines_as_checkouts :
  forall server rng NUM_PRODUCTS TARGET_CHECKOUTS ts,
    let w := (Comparison.perform_all server rng NUM_PRODUCTS TARGET_CHECKOUTS
                ts new_world).2 in
    checkout_count (shared w) = count_exchanges (checkout_with terminal) w /\
    declined_count (shared w) = 0.
Proof.
  intros server rng NUM TARGET ts w. subst w.
  apply (comparison_perform_all server rng NUM TARGET ts new_world).
  split; reflexivity.
Qed.

Lemma preserves_bind_read J {A B : Type} (f : SharedState -> A) (k : A -> M B) :
  (forall w, holds J w -> holds J (k (f (shared w)) w).2) ->
  preserves J (bind (read_shared f) k).
Proof.
  intros H w Hw. specialize (H w Hw).
  unfold bind, read_shared, call_shared. destruct w. exact H.
Qed.

Lemma complete_on_add threshold pid s l :
  complete_on threshold s l -> complete_on threshold (add_product pid s) l.
Proof.
  unfold complete_on, get_product_count. simpl. rewrite length_app. simpl.
  intros H Hs. specialize (H Hs). lia.
Qed.

Lemma complete_on_mark threshold w :
  threshold <= get_product_count (shared w) ->
  holds (complete_on threshold) (update_shared mark_setup_complete w).2.
Proof. intros H _. exact H. Qed.

Ltac preserve_complete_on :=
  repeat preserve_step;
  try (apply preserves_post; intros ? ? ? Hc; exact Hc);
  try (apply preserves_update; intros ? ? Hc; apply complete_on_add; exact Hc);
  try (apply preserves_call; intros ? ? Hc; exact Hc).

Section CompleteOnTarget.
Variable server : nat -> request -> reply.
Variable rng : nat -> nat.
Variables NUM TARGET MIN MAX : Z.

Lemma localstack_on_start_complete_on fuel :
  preserves (complete_on NUM) (Localstack.on_start server NUM fuel).
Proof.
  induction fuel as [|fuel IH]; simpl; [apply preserves_ret|].
  apply preserves_bind; [apply preserves_read|intros count].
  destruct (count <? NUM); [|apply preserves_ret].
  apply preserves_bind;
    [unfold Localstack._create_product; preserve_complete_on|intros _].
  apply preserves_bind_read. intros w Hw.
  destruct (get_product_count (shared w) >=? NUM) eqn:E;
    [apply complete_on_mark; lia | apply IH, Hw].
Qed.

Lemma localstack_add_items_complete_on n cart_id :
  preserves (complete_on NUM) (Localstack.add_items server rng n cart_id).
Proof.
  induction n as [|n IH]; simpl; [apply preserves_ret|].
  unfold Localstack._add_item, shared_get_random_product, randint.
  preserve_complete_on; exact IH.
Qed.

Lemma aws_add_items_complete_on n cart_id :
  preserves (complete_on NUM) (Aws.add_items server rng n cart_id).
Proof.
  induction n as [|n IH]; simpl; [apply preserves_ret|].
  unfold Aws._add_item, shared_get_random_product, randint, client_post.
  preserve_complete_on; exact IH.
Qed.

Lemma localstack_perform_all_complete_on ts :
  preserves (complete_on NUM)
    (Localstack.perform_all server rng NUM TARGET MIN MAX ts).
Proof.
  induction ts as [|t ts IH]; simpl; [apply preserves_ret|].
  apply preserves_bind; [|intros _; exact IH].
  destruct t; simpl.
  - preserve_complete_on.
  - apply localstack_on_start_complete_on.
  - unfold Localstack.shopping_flow, Localstack._create_cart, randint.
    preserve_complete_on;
      first [apply localstack_add_items_complete_on
            | unfold Localstack._checkout; preserve_complete_on].
Qed.

Lemma aws_on_start_complete_on fuel :
  preserves (complete_on NUM) (Aws.on_start server NUM fuel).
Proof.
  induction fuel as [|fuel IH]; simpl; [apply preserves_ret|].
  apply preserves_bind; [apply preserves_read|intros count].
  destruct (count <? NUM); [|apply preserves_ret].
  apply preserves_bind;
    [unfold Aws._create_product, Aws.classify_product_status, client_post;
     preserve_complete_on|intros created].
  destruct created; [|exact IH].
  apply preserves_bind_read. intros w Hw.
  destruct (get_product_count (shared w) >=? NUM) eqn:E;
    [apply complete_on_mark; lia | apply IH, Hw].
Qed.

Lemma aws_perform_all_complete_on ts :
  preserves (complete_on NUM)
    (Aws.perform_all server rng NUM TARGET MIN MAX ts).
Proof.
  induction ts as [|t ts IH]; simpl; [apply preserves_ret|].
  apply preserves_bind; [|intros _; exact IH].
  destruct t; simpl.
  - preserve_complete_on.
  - apply aws_on_start_complete_on.
  - unfold Aws.shopping_flow, Aws._create_cart, Aws._create_product,
      Aws.classify_product_status, randint, client_post.
    preserve_complete_on;
      first [apply aws_add_items_complete_on
            | unfold Aws._checkout, client_post; preserve_complete_on].
  - unfold Aws.create_product_task, Aws._create_product,
      Aws.classify_product_status, client_post.
    preserve_complete_on.
Qed.

Lemma comparison_on_start_complete_on fuel :
  preserves (complete_on 10) (Comparison.on_start fuel).
Proof.
  induction fuel as [|fuel IH]; simpl; [apply preserves_ret|].
  apply preserves_bind; [apply preserves_read|intros done].
  destruct done; [apply preserves_ret|].
  apply preserves_bind_read. intros w Hw.
  destruct (get_product_count (shared w) >=? 10) eqn:E;
    [apply complete_on_mark; lia | apply IH, Hw].
Qed.

Lemma comparison_perform_all_complete_on ts :
  preserves (complete_on 10)
    (Comparison.perform_all server rng NUM TARGET ts).
Proof.
  induction ts as [|t ts IH]; simpl; [apply preserves_ret|].
  apply preserves_bind; [|intros _; exact IH].
  destruct t; simpl.
  - apply comparison_on_start_complete_on.
  - unfold Comparison.LocalStackUser_create_product. preserve_complete_on.
  - unfold Comparison.LocalStackUser_shopping_flow,
      Comparison.LocalStackUser_checkout, shared_get_random_product.
    preserve_complete_on.
  - unfold Comparison.AWSUser_create_product, client_post.
    preserve_complete_on.
  - unfold Comparison.AWSUser_shopping_flow, Comparison.AWSUser_checkout,
      shared_get_random_product, client_post.
    preserve_complete_on.
Qed.

End CompleteOnTarget.

(** X7.  In [locustfile_localstack.py] and [locustfile_aws.py] the setup
    flag is set only on a pool of at least [NUM_INITIAL_PRODUCTS] products,
    and in [locustfile_comparison.py] only on a pool of at least 10,
    whatever [NUM_PRODUCTS] is: after every sequence of tasks on a fresh
    state, a set flag comes with that many products. *)
Theorem setup_completes_on_target_elsewhere :
  (forall server rng NUM_INITIAL_PRODUCTS TARGET_CHECKOUTS
          MIN_ITEMS_PER_CART MAX_ITEMS_PER_CART ts,
     let w := (Localstack.perform_all server rng NUM_INITIAL_PRODUCTS
                 TARGET_CHECKOUTS MIN_ITEMS_PER_CART MAX_ITEMS_PER_CART
                 ts new_world).2 in
     is_setup_complete (shared w) = true ->
     NUM_INITIAL_PRODUCTS <= get_product_count (shared w)) /\
  (forall server rng NUM_INITIAL_PRODUCTS TARGET_CHECKOUTS
          MIN_ITEMS_PER_CART MAX_ITEMS_PER_CART ts,
     let w := (Aws.perform_all server rng NUM_INITIAL_PRODUCTS
                 TARGET_CHECKOUTS MIN_ITEMS_PER_CART MAX_ITEMS_PER_CART
                 ts new_world).2 in
     is_setup_complete (shared w) = true ->
     NUM_INITIAL_PRODUCTS <= get_product_count (shared w)) /\
  (forall server rng NUM_PRODUCTS TARGET_CHECKOUTS ts,
     let w := (Comparison.perform_all server rng NUM_PRODUCTS TARGET_CHECKOUTS
                 ts new_world).2 in
     is_setup_complete (shared w) = true ->
     10 <= get_product_count (shared w)).
Proof.
  split; [|split].
  - intros server rng NUM TARGET MIN MAX ts.
    apply (localstack_perform_all_complete_on server rng NUM TARGET MIN MAX
             ts new_world). discriminate.
  - intros server rng NUM TARGET MIN MAX ts.
    apply (aws_perform_all_complete_on server rng NUM TARGET MIN MAX
             ts new_world). discriminate.
  - intros server rng NUM TARGET ts.
    apply (comparison_perform_all_complete_on server rng NUM TARGET
             ts new_world). discriminate.
Qed.

Lemma setup_completes_on_target_elsewhere_witness :
  let w := (Localstack.perform_all shop_without_order_id (fun _ => 0%nat)
              1 5 1 3 [Localstack.OnStart 1] new_world).2 in
  is_setup_complete (shared w) = true /\ 1 <= get_product_count (shared w).
Proof.
  split; [reflexivity|].
  apply (proj1 setup_completes_on_target_elsewhere shop_without_order_id
           (fun _ => 0%nat) 1 5 1 3 [Localstack.OnStart 1]).
  reflexivity.
Defined.

Lemma target_reached_product TARGET c d l0 s l rp :
  target_reached TARGET c d l0 s l ->
  target_reached TARGET c d l0 s (l ++ [(PostProduct, rp)]).
Proof.
  intros (Ht & Hc & Hd & l' & -> & Hl). repeat split; auto.
  exists (l' ++ [(PostProduct, rp)]). rewrite app_assoc. split; [reflexivity|].
  apply Forall_app. split; [exact Hl|]. repeat constructor.
Qed.

Lemma target_reached_stops TARGET c d l0 {B : Type} (k : Z -> M B) :
  (forall count, TARGET <= count -> preserves (target_reached TARGET c d l0) (k count)) ->
  preserves (target_reached TARGET c d l0) (bind (read_shared get_checkout_count) k).
Proof.
  intros Hk. apply preserves_bind_read. intros w Hw.
  apply Hk; [|exact Hw]. destruct Hw as (Ht & Hc & _).
  unfold get_checkout_count. lia.
Qed.

Ltac preserve_target :=
  repeat preserve_step;
  try (apply preserves_post; intros; apply target_reached_product; assumption);
  try (apply preserves_update; intros ? ? Hacc; exact Hacc);
  try (apply preserves_call; intros ? ? Hacc; exact Hacc).

Section TargetReached.
Variable server : nat -> request -> reply.
Variable rng : nat -> nat.
Variables NUM TARGET MIN MAX : Z.
Variables c d : Z.
Variable l0 : list (request * reply).

Lemma locust_perform_all_target ts :
  preserves (target_reached TARGET c d l0) (Locustfile.perform_all server rng NUM TARGET MIN MAX ts).
Proof.
  induction ts as [|t ts IH]; simpl; [apply preserves_ret|].
  apply preserves_bind; [|intros _; exact IH].
  destruct t; simpl; unfold Locustfile.ShopperUser_init.
  - unfold Locustfile.create_product, client_post. preserve_target.
  - preserve_target.
  - apply preserves_bind; [|intros; apply preserves_ret].
    induction fuel as [|fuel IHf]; simpl; preserve_target. exact IHf.
  - unfold Locustfile.complete_shopping_cycle.
    apply target_reached_stops. intros count Hcount.
    assert ((count >=? TARGET) = true) as -> by lia. apply preserves_ret.
Qed.

Lemma aws_create_product_target :
  preserves (target_reached TARGET c d l0) (Aws._create_product server).
Proof.
  unfold Aws._create_product, Aws.classify_product_status, client_post.
  preserve_target.
Qed.

Lemma aws_perform_all_target ts :
  preserves (target_reached TARGET c d l0) (Aws.perform_all server rng NUM TARGET MIN MAX ts).
Proof.
  induction ts as [|t ts IH]; simpl; [apply preserves_ret|].
  apply preserves_bind; [|intros _; exact IH].
  destruct t; simpl.
  - preserve_target.
  - induction fuel as [|fuel IHf]; simpl; preserve_target;
      try apply aws_create_product_target; try exact IHf.
  - unfold Aws.shopping_flow.
    apply target_reached_stops. intros count Hcount.
    assert ((count >=? TARGET) = true) as -> by lia. apply preserves_ret.
  - unfold Aws.create_product_task. preserve_target.
    apply aws_create_product_target.
Qed.

Lemma localstack_create_product_target :
  preserves (target_reached TARGET c d l0) (Localstack._create_product server).
Proof. unfold Localstack._create_product. preserve_target. Qed.

Lemma localstack_perform_all_target ts :
  preserves (target_reached TARGET c d l0) (Localstack.perform_all server rng NUM TARGET MIN MAX ts).
Proof.
  induction ts as [|t ts IH]; simpl; [apply preserves_ret|].
  apply preserves_bind; [|intros _; exact IH].
  destruct t; simpl.
  - preserve_target.
  - induction fuel as [|fuel IHf]; simpl; preserve_target;
      try apply localstack_create_product_target; try exact IHf.
  - unfold Localstack.shopping_flow.
    apply target_reached_stops. intros count Hcount.
    assert ((count >=? TARGET) = true) as -> by lia. apply preserves_ret.
Qed.

Lemma comparison_perform_all_target ts :
  preserves (target_reached TARGET c d l0) (Comparison.perform_all server rng NUM TARGET ts).
Proof.
  induction ts as [|t ts IH]; simpl; [apply preserves_ret|].
  apply preserves_bind; [|intros _; exact IH].
  destruct t; simpl.
  - induction fuel as [|fuel IHf]; simpl; preserve_target. exact IHf.
  - unfold Comparison.LocalStackUser_create_product. preserve_target.
  - unfold Comparison.LocalStackUser_shopping_flow.
    apply target_reached_stops. intros count Hcount.
    assert ((count >=? TARGET) = true) as -> by lia. apply preserves_ret.
  - unfold Comparison.AWSUser_create_product, client_post. preserve_target.
  - unfold Comparison.AWSUser_shopping_flow.
    apply target_reached_stops. intros count Hcount.
    assert ((count >=? TARGET) = true) as -> by lia. apply preserves_ret.
Qed.

End TargetReached.

Lemma target_reached_at TARGET w :
  TARGET <= checkout_count (shared w) ->
  holds (target_reached TARGET (checkout_count (shared w))
           (declined_count (shared w)) (exchanges w)) w.
Proof.
  intros H. repeat split; auto. exists []. rewrite app_nil_r. split; auto.
Qed.

(** X20.  [TARGET_CHECKOUTS] is a stop condition in all four load-test
    files: from a state whose checkout count has reached it, no sequence of
    tasks run one after the other changes the checkout or the declined
    counter, and the only requests sent are POST /product. *)
Theorem target_reached_stops_shopping :
  forall server rng NUM TARGET_CHECKOUTS MIN MAX w,
    TARGET_CHECKOUTS <= get_checkout_count (shared w) ->
    let stopped (w' : World) :=
      checkout_count (shared w') = checkout_count (shared w) /\
      declined_count (shared w') = declined_count (shared w) /\
      exists l, exchanges w' = exchanges w ++ l /\
                Forall (fun x => x.1 = PostProduct) l in
    (forall ts, stopped (Locustfile.perform_all server rng NUM TARGET_CHECKOUTS
                           MIN MAX ts w).2) /\
    (forall ts, stopped (Aws.perform_all server rng NUM TARGET_CHECKOUTS
                           MIN MAX ts w).2) /\
    (forall ts, stopped (Localstack.perform_all server rng NUM TARGET_CHECKOUTS
                           MIN MAX ts w).2) /\
    (forall ts, stopped (Comparison.perform_all server rng NUM TARGET_CHECKOUTS
                           ts w).2).
Proof.
  intros server rng NUM TARGET MIN MAX w Hw stopped. subst stopped.
  pose proof (target_reached_at TARGET w Hw) as H0.
  split; [|split; [|split]]; intros ts.
  - destruct (locust_perform_all_target server rng NUM TARGET MIN MAX _ _ _ ts w H0)
      as (_ & Hc & Hd & Hl). auto.
  - destruct (aws_perform_all_target server rng NUM TARGET MIN MAX _ _ _ ts w H0)
      as (_ & Hc & Hd & Hl). auto.
  - destruct (localstack_perform_all_target server rng NUM TARGET MIN MAX _ _ _ ts w H0)
      as (_ & Hc & Hd & Hl). auto.
  - destruct (comparison_perform_all_target server rng NUM TARGET _ _ _ ts w H0)
      as (_ & Hc & Hd & Hl). auto.
Qed.

Lemma target_reached_stops_shopping_witness :
  let w := (Locustfile.perform_all shop_without_order_id (fun _ => 0%nat)
              2 0 1 3
              [Locustfile.CreateProduct; Locustfile.ShoppingCycle 1;
               Locustfile.CreateProduct]
              new_world).2 in
  checkout_count (shared w) = 0 /\ declined_count (shared w) = 0 /\
  exists l, exchanges w = [] ++ l /\ Forall (fun x => x.1 = PostProduct) l.
Proof.
  apply (proj1 (target_reached_stops_shopping shop_without_order_id
                  (fun _ => 0%nat) 2 0 1 3 new_world ltac:(reflexivity))).
Defined.

(** X8.  [ShopperUser.on_start] of [locustfile.py] leaves its loop as soon
    as one product is in the pool, whatever [NUM_INITIAL_PRODUCTS] is: it
    then sets the setup flag itself and touches nothing else.  With the flag
    unset and no product it polls for as long as it is left to run, without
    changing anything. *)
Theorem shopper_on_start_needs_one_product :
  forall fuel w,
    (0 < get_product_count (shared w) ->
     let r := Locustfile.on_start (S fuel) w in
     r.1 = true /\
     is_setup_complete (shared r.2) = true /\
     product_ids (shared r.2) = product_ids (shared w) /\
     checkout_count (shared r.2) = checkout_count (shared w) /\
     declined_count (shared r.2) = declined_count (shared w) /\
     customer_id_counter (shared r.2) = customer_id_counter (shared w) /\
     exchanges r.2 = exchanges w /\ sink r.2 = sink w /\ draws r.2 = draws w) /\
    (is_setup_complete (shared w) = false ->
     get_product_count (shared w) = 0 ->
     Locustfile.on_start fuel w = (false, w)).
Proof.
  intros fuel w. split.
  - intros Hcount. destruct w as [s ex sk d]. simpl in Hcount.
    assert (Hpos : (get_product_count s >? 0) = true) by lia.
    unfold Locustfile.on_start, bind, read_shared, update_shared, call_shared,
      ret, is_setup_complete.
    cbn. destruct (setup_complete s) eqn:Hflag; cbn.
    + repeat split; auto.
    + rewrite Hpos. cbn. repeat split; auto.
  - intros Hflag Hcount. destruct w as [s ex sk d]. simpl in Hflag, Hcount.
    assert (Hpos : (get_product_count s >? 0) = false) by lia.
    induction fuel as [|fuel IH]; [reflexivity|].
    cbn [Locustfile.on_start].
    unfold bind, read_shared, call_shared, is_setup_complete in *.
    cbn [fst snd shared exchanges sink draws]. rewrite Hflag.
    cbn [fst snd shared exchanges sink draws]. rewrite Hpos. exact IH.
Qed.

Lemma shopper_on_start_needs_one_product_witness :
  let r := Locustfile.on_start 1
             {| shared := add_product 7 init; exchanges := []; sink := [];
                draws := 0 |} in
  r.1 = true /\ is_setup_complete (shared r.2) = true.
Proof.
  destruct (proj1 (shopper_on_start_needs_one_product 0
             {| shared := add_product 7 init; exchanges := []; sink := [];
                draws := 0 |}) ltac:(reflexivity)) as (H1 & H2 & _).
  split; assumption.
Defined.

(* ====================================================================== *)
(** * Properties of concurrent setup users *)
(* ====================================================================== *)

Section ProtocolBound.

Import Protocol.

Variable NUM : Z.

Lemma count_users_app sel us vs :
  count_users sel (us ++ vs) = count_users sel us + count_users sel vs.
Proof. unfold count_users. rewrite List.filter_app, length_app. lia. Qed.

Lemma count_users_cons sel u us :
  count_users sel (u :: us) = (if sel u then 1 else 0) + count_users sel us.
Proof. unfold count_users. simpl. destruct (sel u); simpl length; lia. Qed.

Lemma count_users_insert sel us i u u' :
  us !! i = Some u ->
  count_users sel (<[i:=u']> us) =
  count_users sel us - (if sel u then 1 else 0) + (if sel u' then 1 else 0).
Proof.
  intros Hu.
  rewrite insert_take_drop by (eapply lookup_lt_Some, Hu).
  rewrite <- (take_drop_middle us i u Hu) at 3.
  rewrite !count_users_app, !count_users_cons. lia.
Qed.

Lemma count_users_le us : count_users in_flight us <= count_users is_setup_user us.
Proof.
  induction us as [|u us IH]; [reflexivity|].
  rewrite !count_users_cons. destruct u as [[]|]; simpl; lia.
Qed.

Lemma count_users_nonneg sel us : 0 <= count_users sel us.
Proof. unfold count_users. lia. Qed.

Ltac split_cases :=
  repeat match goal with
         | |- context [if ?c then _ else _] => destruct c eqn:?
         | |- context [match ?x with _ => _ end] => destruct x eqn:?
         end.

Lemma step_setup_bound resp pc s :
  step_bound NUM (ProductSetupUser pc) s
    (ProductSetupUser (step_setup NUM resp pc s).1) (step_setup NUM resp pc s).2.
Proof.
  unfold step_bound, get_product_count.
  destruct pc; simpl; split_cases; simpl; rewrite ?length_app; simpl;
    repeat split; try lia; auto; try discriminate.
  all: unfold get_product_count in *; intros;
    first [lia | right; lia | left; lia | right; repeat split; lia].
Qed.

Lemma step_shopper_bound c pc s :
  step_bound NUM (ShopperUser pc) s
    (ShopperUser (step_shopper c pc s).1) (step_shopper c pc s).2.
Proof.
  unfold step_bound, get_product_count.
  destruct pc; simpl; split_cases; simpl;
    repeat split; try lia; auto; try discriminate.
  all: try (left; lia).
  all: destruct c; simpl; first [lia | left; lia].
Qed.

Lemma step_user_bound e u s :
  step_bound NUM u s (step_user NUM e u s).1 (step_user NUM e u s).2.
Proof.
  destruct u as [pc|pc]; simpl.
  - pose proof (step_setup_bound (answer e) pc s) as H.
    destruct (step_setup NUM (answer e) pc s). exact H.
  - pose proof (step_shopper_bound (next_call e) pc s) as H.
    destruct (step_shopper (next_call e) pc s). exact H.
Qed.

Lemma step_preserves_bounded sys e : bounded NUM sys -> bounded NUM (step NUM sys e).
Proof.
  intros [Hsum Hstop]. unfold step.
  destruct (users sys !! who e) as [u|] eqn:Hu; [|split; assumption].
  destruct (step_user_bound e u (state sys)) as (Hkind & Hmono & Hnew & Hs).
  assert (Hu_stop : is_stopped u = true -> NUM <= get_product_count (state sys)).
  { eapply Forall_lookup_1 in Hstop; [exact Hstop|exact Hu]. }
  destruct (step_user NUM e u (state sys)) as [u' s']. simpl in *.
  unfold bounded. simpl. split.
  - rewrite !(count_users_insert _ _ _ _ _ Hu), Hkind.
    pose proof (count_users_le (<[who e := u']> (users sys))) as Hle.
    rewrite !(count_users_insert _ _ _ _ _ Hu), Hkind in Hle.
    pose proof (count_users_nonneg in_flight (users sys)).
    destruct Hnew as [Hnew | (Hsetup & Hflight & Hlt)].
    + destruct (in_flight u), (in_flight u'), (is_setup_user u); lia.
    + rewrite Hsetup, Hflight in *. destruct (in_flight u'); lia.
  - apply Forall_insert.
    + eapply Forall_impl; [exact Hstop|]. intros v Hv Hvs. specialize (Hv Hvs). lia.
    + intros Hs'. destruct (Hs Hs') as [Hold | Hnow]; [|exact Hnow].
      specialize (Hu_stop Hold). lia.
Qed.

Lemma start_bounded n m : bounded NUM (start n m).
Proof.
  split.
  - unfold start. simpl. rewrite !count_users_app.
    assert (Hf : forall k u, in_flight u = false ->
                 count_users in_flight (replicate k u) = 0).
    { intros k u Hu. induction k as [|k IH]; [reflexivity|].
      simpl replicate. rewrite count_users_cons, Hu, IH. reflexivity. }
    rewrite !Hf by reflexivity. change (get_product_count init) with 0.
    pose proof (count_users_nonneg is_setup_user
                  (replicate n (ProductSetupUser PGuard))).
    pose proof (count_users_nonneg is_setup_user
                  (replicate m (ShopperUser SInit))). lia.
  - apply Forall_app. split; apply Forall_replicate; discriminate.
Qed.

Lemma setup_users_of_start n m :
  count_users is_setup_user (users (start n m)) = Z.of_nat n.
Proof.
  unfold start. simpl. rewrite count_users_app.
  assert (H1 : count_users is_setup_user (replicate n (ProductSetupUser PGuard))
               = Z.of_nat n).
  { induction n as [|n IH]; [reflexivity|].
    simpl replicate. rewrite count_users_cons, IH. simpl. lia. }
  assert (H2 : count_users is_setup_user (replicate m (ShopperUser SInit)) = 0).
  { induction m as [|m IH]; [reflexivity|].
    simpl replicate. rewrite count_users_cons, IH. reflexivity. }
  lia.
Qed.

Lemma step_setup_users sys e :
  count_users is_setup_user (users (step NUM sys e)) =
  count_users is_setup_user (users sys).
Proof.
  unfold step. destruct (users sys !! who e) as [u|] eqn:Hu; [|reflexivity].
  destruct (step_user_bound e u (state sys)) as (Hkind & _).
  destruct (step_user NUM e u (state sys)) as [u' s']. simpl in *.
  rewrite (count_users_insert _ _ _ _ _ Hu), Hkind. lia.
Qed.

Lemma execute_bounded es sys :
  bounded NUM sys ->
  bounded NUM (execute NUM es sys) /\
  count_users is_setup_user (users (execute NUM es sys)) =
  count_users is_setup_user (users sys).
Proof.
  intros Hsys. induction es as [|e es IH] using rev_ind; [split; [exact Hsys|reflexivity]|].
  unfold execute in *. rewrite foldl_app. simpl. destruct IH as [IH1 IH2].
  split; [apply step_preserves_bounded, IH1|].
  rewrite step_setup_users. exact IH2.
Qed.

End ProtocolBound.
(** X9.  The guard of [ProductSetupUser.create_product] is read before the
    request and the product is added after it, so concurrent setup users
    overshoot the target: in every state the users of [locustfile.py] reach
    from a fresh shared state, whatever the schedule and the responses, the
    product count is at most [NUM_INITIAL_PRODUCTS + setup_users - 1] (and 0
    without setup users), and a setup user has stopped only if the count has
    reached the target.  The bound is met: two setup users and a target of 1
    end with 2 products. *)
Theorem product_count_overshoots_by_less_than_setup_users :
  (forall NUM_INITIAL_PRODUCTS setup_users shoppers es,
     let sys := Protocol.execute NUM_INITIAL_PRODUCTS es
                  (Protocol.start setup_users shoppers) in
     get_product_count (Protocol.state sys)
       <= Z.max 0 (NUM_INITIAL_PRODUCTS + Z.of_nat setup_users - 1) /\
     (forall i,
        Protocol.users sys !! i
          = Some (Protocol.ProductSetupUser Protocol.PStopped) ->
        NUM_INITIAL_PRODUCTS <= get_product_count (Protocol.state sys))) /\
  get_product_count
    (Protocol.state
       (Protocol.execute 1 (Protocol.turn <$> [0; 1; 0; 1; 0; 1]%nat)
          (Protocol.start 2 0))) = 2.
Proof.
  split; [|reflexivity].
  intros NUM n m es sys.
  destruct (execute_bounded NUM es (Protocol.start n m) (start_bounded NUM n m))
    as [[Hsum Hstop] Hn].
  fold sys in Hsum, Hstop, Hn. rewrite setup_users_of_start in Hn.
  split.
  - rewrite Hn in Hsum.
    pose proof (count_users_nonneg Protocol.in_flight (Protocol.users sys)). lia.
  - intros i Hi. eapply Forall_lookup_1 in Hstop; [|exact Hi].
    apply Hstop. reflexivity.
Qed.


(* ====================================================================== *)
(** * Properties of the life cycle in [locustfile_comparison.py] *)
(* ====================================================================== *)

Section ComparisonProtocolFacts.

Import ComparisonProtocol.

Lemma step_preserves_idle server rng NUM TARGET sys e :
  idle sys -> idle (step server rng NUM TARGET sys e).
Proof.
  intros (Hs & He & Hk & Hu). unfold step.
  destruct (users sys !! who e) as [u|] eqn:Hlook; [|repeat split; assumption].
  pose proof (Forall_lookup_1 _ _ _ _ Hu Hlook) as [Hmark Htasks].
  assert (Hstep : let r := step_user server rng NUM TARGET e u (world sys) in
            shared r.2 = init /\ exchanges r.2 = [] /\ sink r.2 = [] /\
            waiting r.1).
  { unfold step_user, waiting.
    destruct (at_pc u) eqn:Hpc; try contradiction.
    - unfold randint, bind, draw, ret. simpl. repeat split; auto; discriminate.
    - unfold read_shared, call_shared. simpl. rewrite Hs. simpl.
      repeat split; auto; discriminate.
    - unfold read_shared, call_shared. simpl. rewrite Hs. simpl.
      repeat split; auto; discriminate.
    - simpl. repeat split; auto; discriminate. }
  destruct (step_user server rng NUM TARGET e u (world sys)) as [u' w'].
  simpl in Hstep. destruct Hstep as (Hs' & He' & Hk' & Hw').
  repeat split; simpl; auto.
  apply Forall_insert; assumption.
Qed.

Lemma start_idle local_users aws_users : idle (start local_users aws_users).
Proof.
  repeat split. simpl. apply Forall_app.
  split; apply Forall_replicate; split; discriminate.
Qed.

End ComparisonProtocolFacts.

(** X10.  Started in a fresh process, no user of [locustfile_comparison.py]
    ever leaves [on_start]: the loop waits for 10 products, and products are
    added by tasks only, which the engine runs after [on_start].  For every
    number of users of either class, every schedule, server and
    configuration, the shared state stays as created, with no request sent
    and no outcome reported.  A user that polls with 10 products in the
    pool sets the flag and reaches its tasks in three steps. *)
Theorem comparison_users_never_leave_on_start :
  (forall server rng NUM_PRODUCTS TARGET_CHECKOUTS local_users aws_users es,
     let sys := ComparisonProtocol.execute server rng NUM_PRODUCTS TARGET_CHECKOUTS es
                  (ComparisonProtocol.start local_users aws_users) in
     shared (ComparisonProtocol.world sys) = init /\ exchanges (ComparisonProtocol.world sys) = [] /\
     sink (ComparisonProtocol.world sys) = [] /\
     Forall (fun u => ComparisonProtocol.at_pc u <> ComparisonProtocol.CMark /\ ComparisonProtocol.at_pc u <> ComparisonProtocol.CTasks) (ComparisonProtocol.users sys)) /\
  (forall server rng NUM_PRODUCTS TARGET_CHECKOUTS w u e,
     ComparisonProtocol.at_pc u = ComparisonProtocol.CPollFlag -> ComparisonProtocol.who e = 0%nat ->
     is_setup_complete (shared w) = false ->
     10 <= get_product_count (shared w) ->
     let sys := ComparisonProtocol.execute server rng NUM_PRODUCTS TARGET_CHECKOUTS [e; e; e]
                  {| ComparisonProtocol.world := w; ComparisonProtocol.users := [u] |} in
     ComparisonProtocol.users sys = [ComparisonProtocol.goto u ComparisonProtocol.CTasks] /\
     is_setup_complete (shared (ComparisonProtocol.world sys)) = true /\
     exchanges (ComparisonProtocol.world sys) = exchanges w).
Proof.
  split.
  - intros server rng NUM TARGET n m es sys. subst sys.
    induction es as [|e es IH] using rev_ind; [apply start_idle|].
    unfold ComparisonProtocol.execute in *. rewrite foldl_app. simpl.
    apply step_preserves_idle. exact IH.
  - intros server rng NUM TARGET w u e Hpc Hwho Hflag Hcount sys. subst sys.
    assert (Hge : (get_product_count (shared w) >=? 10) = true) by lia.
    destruct w as [s ex sk d], e as [i p], u as [c cid q].
    simpl in Hflag, Hge, Hwho, Hpc. subst i q.
    unfold ComparisonProtocol.execute, ComparisonProtocol.step, ComparisonProtocol.step_user, read_shared, call_shared, update_shared,
      ComparisonProtocol.goto, is_setup_complete in *.
    cbn. rewrite Hflag. cbn. rewrite Hge. cbn. repeat split.
Qed.

Lemma comparison_users_never_leave_on_start_witness :
  let sys := ComparisonProtocol.execute shop_without_order_id (fun _ => 0%nat) 100 500
               [ComparisonProtocol.mkEvent 0 ComparisonProtocol.PickCreateProduct; ComparisonProtocol.mkEvent 0 ComparisonProtocol.PickCreateProduct;
                ComparisonProtocol.mkEvent 0 ComparisonProtocol.PickCreateProduct]
               {| ComparisonProtocol.world := {| shared := Nat.iter 10 (add_product 1) init;
                              exchanges := []; sink := []; draws := 0 |};
                  ComparisonProtocol.users := [ComparisonProtocol.mkUser ComparisonProtocol.AWSUser 7 ComparisonProtocol.CPollFlag] |} in
  ComparisonProtocol.users sys = [ComparisonProtocol.goto (ComparisonProtocol.mkUser ComparisonProtocol.AWSUser 7 ComparisonProtocol.CPollFlag) ComparisonProtocol.CTasks] /\
  is_setup_complete (shared (ComparisonProtocol.world sys)) = true /\
  exchanges (ComparisonProtocol.world sys) = [].
Proof.
  apply (proj2 comparison_users_never_leave_on_start shop_without_order_id
           (fun _ => 0%nat) 100 500
           {| shared := Nat.iter 10 (add_product 1) init;
              exchanges := []; sink := []; draws := 0 |}
           (ComparisonProtocol.mkUser ComparisonProtocol.AWSUser 7 ComparisonProtocol.CPollFlag) (ComparisonProtocol.mkEvent 0 ComparisonProtocol.PickCreateProduct));
    reflexivity.
Defined.

(* ====================================================================== *)
(** * Properties of the aggregated row and of the table *)
(* ====================================================================== *)

Lemma filter_none {A : Type} (f : A -> bool) (l : list A) :
  Forall (fun x => f x = false) l -> List.filter f l = [].
Proof.
  induction 1 as [|x l Hx _ IH]; [reflexivity|]. simpl. rewrite Hx. exact IH.
Qed.

Lemma filter_head_elem {A : Type} (f : A -> bool) (l : list A) x rest :
  List.filter f l = x :: rest -> x ∈ l.
Proof.
  intros H. apply list_elem_of_In.
  apply (proj1 (List.filter_In f x l)). rewrite H. left. reflexivity.
Qed.

Lemma last_elem {A : Type} (l : list A) x : last l = Some x -> x ∈ l.
Proof.
  apply last_Some_elem_of.
Qed.

Lemma get_aggregated_row_none df :
  get_aggregated_row df = None <-> records df = [].
Proof.
  unfold get_aggregated_row. fold (rows_of df).
  assert (Hlast : last (rows_of df) = None <-> records df = []).
  { unfold rows_of. rewrite last_None. split.
    - apply fmap_nil_inv.
    - intros ->. reflexivity. }
  case_bool_decide; [|exact Hlast].
  destruct (List.filter is_aggregated (rows_of df)) as [|r rest] eqn:Hf;
    [exact Hlast|].
  split; [discriminate|]. intros Hnil. unfold rows_of in Hf.
  rewrite Hnil in Hf. discriminate.
Qed.

(** X11.  [get_aggregated_row] returns the first row named "Aggregated"
    when the frame has a [Name] column and such a row, and the last row
    otherwise; it raises exactly on a frame without rows, and what it
    returns is a row of the frame. *)
Theorem get_aggregated_row_first_aggregated_or_last :
  forall df,
    (get_aggregated_row df = None <-> records df = []) /\
    (forall row, get_aggregated_row df = Some row -> row ∈ rows_of df) /\
    (forall before row after,
       "Name" ∈ columns df ->
       rows_of df = before ++ row :: after ->
       is_aggregated row = true ->
       Forall (fun r => is_aggregated r = false) before ->
       get_aggregated_row df = Some row) /\
    ("Name" ∉ columns df \/
     Forall (fun r => is_aggregated r = false) (rows_of df) ->
     get_aggregated_row df = last (rows_of df)).
Proof.
  intros df. split; [apply get_aggregated_row_none|].
  unfold get_aggregated_row. fold (rows_of df).
  split; [|split].
  - intros row.
    case_bool_decide; [|apply last_elem].
    destruct (List.filter is_aggregated (rows_of df)) as [|r rest] eqn:Hf;
      [apply last_elem|].
    intros [= <-]. eapply filter_head_elem, Hf.
  - intros before row after Hname Hrows Hrow Hbefore.
    rewrite bool_decide_true by exact Hname.
    rewrite Hrows, List.filter_app, (filter_none _ _ Hbefore). simpl.
    rewrite Hrow. reflexivity.
  - intros [Hname | Hnone].
    + rewrite bool_decide_false by exact Hname. reflexivity.
    + rewrite (filter_none _ _ Hnone). destruct (bool_decide _); reflexivity.
Qed.

Lemma get_aggregated_row_first_aggregated_or_last_witness :
  aggregated_of localstack_example ∈ rows_of localstack_example.
Proof.
  apply (proj1 (proj2 (get_aggregated_row_first_aggregated_or_last
                         localstack_example))).
  vm_compute. reflexivity.
Defined.

(** What [f"{x:+.1f}"] returns starts with a sign, also for nan and the
    infinities. *)
Lemma format_signed_1f_sign x :
  exists sign rest,
    format_signed_1f x = sign +:+ rest /\ (sign = "+" \/ sign = "-").
Proof.
  unfold format_signed_1f.
  destruct (Prim2SF x) as [[]|[]| |[] m e];
    first [ by (exists "+"; eexists; split; [reflexivity|left; reflexivity])
          | by (exists "-"; eexists; split; [reflexivity|right; reflexivity]) ].
Qed.

(** X12.  [calc_diff] returns "N/A" exactly when the LocalStack value is
    zero (of either sign); otherwise it returns a text that starts with a
    sign and ends with "%", so the two cases cannot be confused. *)
Theorem calc_diff_na_iff_zero_baseline :
  forall ls_val aws_val,
    (calc_diff ls_val aws_val = "N/A" <-> (ls_val =? 0)%float = true) /\
    ((ls_val =? 0)%float = false ->
     exists sign digits,
       calc_diff ls_val aws_val = sign +:+ digits +:+ "%" /\
       (sign = "+" \/ sign = "-")).
Proof.
  intros l a. unfold calc_diff.
  destruct (l =? 0)%float eqn:Hz.
  - split; [split; reflexivity|discriminate].
  - destruct (format_signed_1f_sign ((a - l) / l * 100)%float)
      as (sign & rest & -> & Hsign).
    split.
    + split; [|discriminate].
      destruct Hsign as [-> | ->]; cbn; discriminate.
    + intros _. exists sign, rest. split; [|exact Hsign].
      destruct Hsign as [-> | ->]; reflexivity.
Qed.

Lemma calc_diff_na_iff_zero_baseline_witness :
  exists sign digits,
    calc_diff 1 4 = sign +:+ digits +:+ "%" /\ (sign = "+" \/ sign = "-").
Proof.
  apply (proj2 (calc_diff_na_iff_zero_baseline 1 4)). reflexivity.
Defined.






Lemma safe_get_csv row key :
  csv_row row ->
  csv_cell (safe_get row key) = true \/ safe_get row key = VInt false 0.
Proof.
  intros Hrow. unfold safe_get.
  destruct (row !! key) as [v|] eqn:Hv; [left|right; reflexivity].
  exact (Hrow _ _ Hv).
Qed.

Lemma round2_some v v' : round2 v = Some v' -> is_number v = true /\ is_number v' = true.
Proof. destruct v; simpl; [discriminate| |]; intros [= <-]; split; reflexivity. Qed.

Lemma converts_number v : converts v = true -> is_number v = true.
Proof. destruct v; [discriminate|reflexivity|reflexivity]. Qed.

Lemma failure_rate_csv failures requests :
  (csv_cell failures = true \/ failures = VInt false 0) ->
  (csv_cell requests = true \/ requests = VInt false 0) ->
  is_number failures = true -> is_number requests = true ->
  exists numpy x, failure_rate failures requests = Some (VFloat numpy x).
Proof.
  intros Hf Hr Nf Nr. unfold failure_rate.
  assert (Hd : exists d, max_1 requests = Some d /\
                 (d = VInt false 1 \/ (csv_cell d = true /\ is_number d = true))).
  { destruct requests as [|np n|np x]; [discriminate| |]; simpl.
    - destruct (n <? 1) eqn:E; eexists; split; try reflexivity;
        [left; reflexivity|].
      right. destruct Hr as [Hr | [= -> ->]]; [split; [exact Hr|reflexivity]|].
      discriminate E.
    - destruct (x <? 1)%float; eexists; split; try reflexivity;
        [left; reflexivity|].
      right. destruct Hr as [Hr | Hr]; [split; [exact Hr|reflexivity]|discriminate]. }
  destruct Hd as (d & -> & Hd). cbn.
  assert (Ht : exists np q, truediv failures d = Some (np, q)).
  { destruct failures as [|nf f|nf y]; [discriminate| |];
      destruct Hd as [-> | [Hd Nd]].
    - destruct nf; simpl; eauto.
    - destruct d as [|nd n|nd x]; [discriminate| |]; simpl in Hd; subst nd;
        destruct nf; simpl; eauto.
    - destruct Hf as [Hf | Hf]; [simpl in Hf; subst nf|discriminate].
      simpl. eauto.
    - destruct d as [|nd n|nd x]; [discriminate| |]; simpl in Hd; subst nd;
        simpl; rewrite orb_true_r; eauto. }
  destruct Ht as (np & q & ->). cbn. eauto.
Qed.

Lemma failure_rate_some failures requests rate :
  failure_rate failures requests = Some rate -> is_number rate = true.
Proof.
  unfold failure_rate. intros H.
  destruct (max_1 requests); [|discriminate]. cbn in H.
  destruct (truediv failures v) as [[np q]|]; [|discriminate]. cbn in H.
  injection H as <-. reflexivity.
Qed.

Lemma summable_fields row :
  summable row = true <->
  converts (safe_get row "Request Count") = true /\
  converts (safe_get row "Failure Count") = true /\
  is_number (safe_get row "Average Response Time") = true /\
  is_number (safe_get row "Median Response Time") = true /\
  is_number (safe_get row "95%") = true /\
  is_number (safe_get row "99%") = true /\
  is_number (safe_get row "Requests/s") = true.
Proof.
  unfold summable. cbn [forallb]. rewrite !andb_true_iff. tauto.
Qed.

Lemma converts_some v : converts v = true <-> is_Some (int_ v).
Proof.
  unfold converts. destruct (int_ v); split; intros H; try reflexivity;
    try discriminate; eauto. destruct H; discriminate.
Qed.

Lemma summary_values_raises_unless_summable row :
  is_Some (summary_values row) -> summable row = true.
Proof.
  intros [values H]. apply summable_fields. unfold summary_values in H.
  destruct (int_ (safe_get row "Request Count")) eqn:H1; [|discriminate].
  destruct (int_ (safe_get row "Failure Count")) eqn:H2; [|discriminate].
  cbn in H. destruct (failure_rate _ _); [|discriminate]. cbn in H.
  destruct (round2 (safe_get row "Average Response Time")) eqn:H3; [|discriminate].
  destruct (round2 (safe_get row "Median Response Time")) eqn:H4; [|discriminate].
  destruct (round2 (safe_get row "95%")) eqn:H5; [|discriminate].
  destruct (round2 (safe_get row "99%")) eqn:H6; [|discriminate].
  destruct (round2 (safe_get row "Requests/s")) eqn:H7; [|discriminate].
  apply round2_some in H3, H4, H5, H6, H7.
  unfold converts. rewrite H1, H2. tauto.
Qed.

Lemma summary_values_summable row :
  csv_row row -> summable row = true ->
  exists values, summary_values row = Some values /\
                 Forall (fun v => is_number v = true) values.
Proof.
  intros Hrow Hs. apply summable_fields in Hs.
  destruct Hs as (Hr & Hf & Ha & Hm & H95 & H99 & Hrps).
  destruct (failure_rate_csv _ _ (safe_get_csv row "Failure Count" Hrow)
              (safe_get_csv row "Request Count" Hrow)
              (converts_number _ Hf) (converts_number _ Hr))
    as (np & x & Hrate).
  apply converts_some in Hr, Hf. destruct Hr as [r Hr], Hf as [f Hf].
  destruct (round2_number _ Ha) as (a & Ha' & ?).
  destruct (round2_number _ Hm) as (m & Hm' & ?).
  destruct (round2_number _ H95) as (p95 & H95' & ?).
  destruct (round2_number _ H99) as (p99 & H99' & ?).
  destruct (round2_number _ Hrps) as (rps & Hrps' & ?).
  eexists. unfold summary_values.
  rewrite Hr, Hf. cbn. rewrite Hrate. cbn.
  rewrite Ha', Hm', H95', H99', Hrps'. cbn.
  split; [reflexivity|]. repeat constructor; assumption.
Qed.

Lemma column_of_numbers values :
  Forall (fun v => is_number v = true) values -> is_Some (mapM to_float values).
Proof.
  intros H. apply mapM_is_Some. eapply Forall_impl; [exact H|].
  intros v Hv. destruct (to_float_number v Hv) as [x Hx].
  simpl. rewrite Hx. eauto.
Qed.

(** X14.  [create_summary] raises on a frame without rows.  On frames read
    from CSV files it returns exactly when the request and failure counts of
    both aggregated rows are integers or finite floats and the five other
    columns hold numbers; a count or metric that is a string, or a count
    that is nan or infinite, makes it raise. *)
Theorem create_summary_raises_exactly_when :
  (forall localstack_stats aws_stats,
     records localstack_stats = [] \/ records aws_stats = [] ->
     create_summary localstack_stats aws_stats = None) /\
  (forall localstack_stats aws_stats ls aws,
     get_aggregated_row localstack_stats = Some ls ->
     get_aggregated_row aws_stats = Some aws ->
     csv_row ls -> csv_row aws ->
     (is_Some (create_summary localstack_stats aws_stats) <->
      summable ls = true /\ summable aws = true)).
Proof.
  split.
  - intros a b H. unfold create_summary.
    destruct H as [H | H];
      apply get_aggregated_row_none in H;
      rewrite H; [reflexivity|].
    destruct (get_aggregated_row a); reflexivity.
  - intros a b ls aws Hls Haws Cls Caws. unfold create_summary.
    rewrite Hls, Haws. cbn. split.
    + intros [summary H].
      destruct (summary_values ls) as [lv|] eqn:Hlv; [|discriminate].
      destruct (summary_values aws) as [av|] eqn:Hav; [|discriminate].
      split; apply summary_values_raises_unless_summable; eauto.
    + intros [Sls Saws].
      destruct (summary_values_summable ls Cls Sls) as (lv & -> & Nl).
      destruct (summary_values_summable aws Caws Saws) as (av & -> & Na).
      cbn. destruct (column_of_numbers lv Nl) as [lc ->].
      destruct (column_of_numbers av Na) as [ac ->]. cbn. eauto.
Qed.

Lemma create_summary_raises_exactly_when_witness :
  is_Some (create_summary localstack_example aws_example) <->
  summable (aggregated_of localstack_example) = true /\
  summable (aggregated_of aws_example) = true.
Proof.
  apply (proj2 create_summary_raises_exactly_when
           localstack_example aws_example).
  - vm_compute. reflexivity.
  - vm_compute. reflexivity.
  - apply (bool_decide_unpack _). vm_compute. exact I.
  - apply (bool_decide_unpack _). vm_compute. exact I.
Defined.

(* ====================================================================== *)
(** * Properties of the search for result files *)
(* ====================================================================== *)

Import ResultFiles.

Lemma lookup_entry_nodup name (entries : listing) x :
  NoDup entries.*1 -> (name, x) ∈ entries -> lookup_entry name entries = Some x.
Proof.
  induction entries as [|[n y] rest IH]; simpl; intros Hnd Hin.
  - inversion Hin.
  - apply NoDup_cons in Hnd. destruct Hnd as [Hn Hnd].
    apply elem_of_cons in Hin. case_decide as E.
    + destruct Hin as [[= -> ->]|Hin]; [reflexivity|]. subst n.
      exfalso. apply Hn. apply list_elem_of_fmap. exists (name, x). auto.
    + destruct Hin as [[= -> ->]|Hin]; [contradiction|]. auto.
Qed.

(** What the loop of [find_latest_csv] returns: the first subdirectory of
    the listing that holds the file. *)
Lemma search_subdirs_spec pattern entries :
  match search_subdirs pattern entries with
  | Some p =>
      exists before subdir children after,
        entries = before ++ (subdir, Subdir children) :: after /\
        p = [subdir; pattern] /\
        pattern ∈ children /\
        none_holds pattern before
  | None => none_holds pattern entries
  end.
Proof.
  unfold none_holds.
  induction entries as [|[n x] rest IH]; simpl; [constructor|].
  destruct x as [|children].
  - destruct (search_subdirs pattern rest) as [p|].
    + destruct IH as (before & subdir & cs & after & -> & -> & Hc & Hb).
      exists ((n, File) :: before), subdir, cs, after.
      repeat split; auto. constructor; simpl; auto.
    + constructor; simpl; auto.
  - case_bool_decide as Hc.
    + exists [], n, children, rest. repeat split; auto.
    + destruct (search_subdirs pattern rest) as [p|].
      * destruct IH as (before & subdir & cs & after & -> & -> & Hc' & Hb).
        exists ((n, Subdir children) :: before), subdir, cs, after.
        repeat split; auto.
      * constructor; simpl; auto.
Qed.


(** The loop of [load_history] ends on the path the loop of
    [find_latest_csv] returns, or on a path that does not exist. *)
Lemma visit_subdirs_search entries history_file :
  match search_subdirs history_name entries with
  | Some p => visit_subdirs entries history_file = p
  | None =>
      visit_subdirs entries history_file = history_file \/
      exists subdir children,
        (subdir, Subdir children) ∈ entries /\
        (history_name ∉ children) /\
        visit_subdirs entries history_file = [subdir; history_name]
  end.
Proof.
  revert history_file.
  induction entries as [|[n x] rest IH]; intros history_file; simpl; [auto|].
  destruct x as [|children].
  - specialize (IH history_file).
    destruct (search_subdirs history_name rest); [exact IH|].
    destruct IH as [IH|(subdir & cs & Hin & Hc & IH)]; [auto|].
    right. exists subdir, cs. split; [apply list_elem_of_further, Hin|auto].
  - case_bool_decide as Hc; [reflexivity|].
    specialize (IH [n; history_name]).
    destruct (search_subdirs history_name rest); [exact IH|].
    right. destruct IH as [IH|(subdir & cs & Hin & Hc' & IH)].
    + exists n, children. split; [apply list_elem_of_here|auto].
    + exists subdir, cs. split; [apply list_elem_of_further, Hin|auto].
Qed.

Lemma path_exists_subdir (entries : listing) subdir children pattern :
  NoDup entries.*1 -> (subdir, Subdir children) ∈ entries ->
  path_exists entries [subdir; pattern] = bool_decide (pattern ∈ children).
Proof.
  intros Hnd Hin. simpl. rewrite (lookup_entry_nodup _ _ _ Hnd Hin).
  reflexivity.
Qed.


Lemma find_latest_csv_exists (entries : listing) pattern p :
  NoDup entries.*1 ->
  find_latest_csv (Some entries) pattern = Some (Some p) ->
  path_exists entries p = true.
Proof.
  intros Hnd. unfold find_latest_csv.
  destruct (path_exists entries [pattern]) eqn:Htop.
  - intros [= <-]. exact Htop.
  - pose proof (search_subdirs_spec pattern entries) as Hsearch.
    destruct (search_subdirs pattern entries) as [q|]; [|discriminate].
    intros [= <-].
    destruct Hsearch as (b' & s' & cs' & a' & He' & -> & Hc' & Hb').
    rewrite (path_exists_subdir entries s' cs'); auto.
    + apply bool_decide_eq_true_2. exact Hc'.
    + rewrite He'. apply elem_of_app. right. apply list_elem_of_here.
Qed.



(** X16.  [load_history] looks for its file where [find_latest_csv] would
    look for a file of that name: it reads the path [find_latest_csv]
    returns, returns [None] when that returns [None], and raises on a path
    that names no directory, as [find_latest_csv] does. *)
Theorem load_history_file_as_find_latest_csv :
  forall directory : option listing,
    match directory with
    | Some entries => NoDup entries.*1
    | None => True
    end ->
    load_history_file directory = find_latest_csv directory history_name.
Proof.
  intros [entries|] Hnd; [|reflexivity].
  pose proof (find_latest_csv_exists entries history_name) as Hexists.
  unfold load_history_file, find_latest_csv in *.
  destruct (path_exists entries [history_name]) eqn:Htop.
  { rewrite Htop. reflexivity. }
  pose proof (visit_subdirs_search entries [history_name]) as Hvisit.
  destruct (search_subdirs history_name entries) as [p|].
  - rewrite Hvisit. rewrite (Hexists p Hnd eq_refl). reflexivity.
  - destruct Hvisit as [->|(subdir & cs & Hin & Hc & ->)].
    + rewrite Htop. reflexivity.
    + rewrite (path_exists_subdir entries subdir cs) by auto.
      rewrite bool_decide_eq_false_2 by exact Hc. reflexivity.
Qed.

Lemma load_history_file_as_find_latest_csv_witness :
  load_history_file (Some sample_results)
  = find_latest_csv (Some sample_results) history_name.
Proof.
  apply (load_history_file_as_find_latest_csv (Some sample_results)).
  apply (bool_decide_unpack _). vm_compute. exact I.
Defined.

(* ====================================================================== *)
(** * Properties of the data generators *)
(* ====================================================================== *)

Import Generators.

Lemma only_draws_ret {A : Type} (a : A) : only_draws (ret a) 0.
Proof. intros w. simpl. repeat split; lia. Qed.

Lemma only_draws_bind {A B : Type} (m : M A) (k : A -> M B) a b :
  only_draws m a -> (forall x, only_draws (k x) b) ->
  only_draws (bind m k) (a + b).
Proof.
  intros Hm Hk w. unfold bind. specialize (Hm w).
  destruct (m w) as [x w1]. specialize (Hk x w1). simpl in *.
  destruct Hm as (Hs & He & Hk1 & Hd), Hk as (Hs' & He' & Hk' & Hd').
  repeat split; try congruence. lia.
Qed.

Lemma only_draws_draw rng : only_draws (draw rng) 1.
Proof. intros w. simpl. repeat split; lia. Qed.

Lemma only_draws_randint rng a b : a <= b -> only_draws (randint rng a b) 1.
Proof.
  intros H. unfold randint. destruct (b <? a) eqn:E; [lia|].
  apply (only_draws_bind _ _ 1 0); [apply only_draws_draw|].
  intros r. apply only_draws_ret.
Qed.

Lemma only_draws_repeatM {A : Type} n (m : M A) k :
  only_draws m k -> only_draws (repeatM n m) (n * k).
Proof.
  intros Hm. induction n as [|n IH]; simpl; [apply only_draws_ret|].
  apply only_draws_bind; [exact Hm|]. intros x.
  replace (n * k)%nat with (n * k + 0)%nat by lia.
  apply only_draws_bind; [exact IH|]. intros xs. apply only_draws_ret.
Qed.

(** Every element [repeatM n m] returns satisfies what every result of [m]
    satisfies, and there are [n] of them. *)
Lemma repeatM_Forall {A : Type} (P : A -> Prop) n (m : M A) :
  (forall w, P (m w).1) ->
  forall w, length (repeatM n m w).1 = n /\ Forall P (repeatM n m w).1.
Proof.
  intros Hm. induction n as [|n IH]; intros w; simpl; [split; auto|].
  unfold bind. specialize (Hm w). destruct (m w) as [x w1].
  specialize (IH w1). destruct (repeatM n m w1) as [xs w2]. simpl in *.
  destruct IH as [Hl Hf]. split; [lia|]. constructor; assumption.
Qed.

Lemma random_digit_spec rng w : (random_digit rng w).1 ∈ decimal_digits.
Proof.
  unfold random_digit, randint, bind, draw, ret. simpl.
  pose proof (Z.mod_pos_bound (Z.of_nat (rng (draws w))) 10 ltac:(lia)) as H.
  change (9 - 0 + 1) with 10.
  assert (Hd : exists d, Z.of_nat (rng (draws w)) `mod` 10 = Z.of_nat d /\
                         (d < 10)%nat).
  { exists (Z.to_nat (Z.of_nat (rng (draws w)) `mod` 10)). lia. }
  destruct Hd as (d & -> & Hd).
  do 10 (destruct d as [|d];
         [apply (bool_decide_unpack _); vm_compute; exact I|]).
  lia.
Qed.

Lemma digits_group_spec rng w :
  digit_group
    ((digits <- repeatM 4 (random_digit rng) ;; ret (join "" digits)) w).1.
Proof.
  unfold bind, ret.
  pose proof (repeatM_Forall (.∈ decimal_digits) 4 (random_digit rng)
                (random_digit_spec rng) w) as [Hl Hf].
  destruct (repeatM 4 (random_digit rng) w) as [ds w1]. simpl in *.
  destruct ds as [|a [|b [|c [|d [|? ?]]]]]; try discriminate.
  exists a, b, c, d. split; [reflexivity|exact Hf].
Qed.

Lemma string_length_app (s1 s2 : string) :
  String.length (s1 +:+ s2) = (String.length s1 + String.length s2)%nat.
Proof. induction s1 as [|c s1 IH]; simpl; [reflexivity|]. rewrite IH. reflexivity. Qed.

Lemma decimal_digit_length d : d ∈ decimal_digits -> String.length d = 1%nat.
Proof.
  unfold decimal_digits. intros H.
  repeat (apply elem_of_cons in H; destruct H as [->|H]; [reflexivity|]).
  inversion H.
Qed.

Lemma digit_group_length g : digit_group g -> String.length g = 4%nat.
Proof.
  intros (a & b & c & d & -> & H).
  repeat (apply Forall_cons in H; destruct H as [?%decimal_digit_length H]).
  rewrite !string_length_app. lia.
Qed.

Lemma sku_char_length c : c ∈ sku_alphabet -> String.length c = 1%nat.
Proof.
  unfold sku_alphabet. intros H.
  repeat (apply elem_of_cons in H; destruct H as [->|H]; [reflexivity|]).
  inversion H.
Qed.

Lemma join_empty_cons (c : string) (l : list string) :
  join "" (c :: l) = c +:+ join "" l.
Proof.
  unfold join. destruct l as [|c' l]; simpl; [|reflexivity].
  induction c as [|x c IH]; [reflexivity|].
  change (String x c = String x (c +:+ "")). f_equal. exact IH.
Qed.

Lemma join_empty_length (l : list string) :
  Forall (fun c => String.length c = 1%nat) l ->
  String.length (join "" l) = length l.
Proof.
  induction l as [|c l IH]; intros H; [reflexivity|].
  apply Forall_cons in H. destruct H as [Hc H].
  rewrite join_empty_cons, string_length_app, Hc, IH by exact H. reflexivity.
Qed.

Lemma pick_elem {A : Type} rng (population : list A) d w :
  population <> [] -> (pick rng population d w).1 ∈ population.
Proof.
  intros Hne. unfold pick, bind, draw, ret. simpl.
  destruct (random_choice_nonempty (rng (draws w)) population Hne) as [x Hx].
  rewrite Hx. simpl. eapply random_choice_elem, Hx.
Qed.

Lemma only_draws_pick {A : Type} rng (population : list A) d :
  only_draws (pick rng population d) 1.
Proof.
  unfold pick. apply (only_draws_bind _ _ 1 0); [apply only_draws_draw|].
  intros r. apply only_draws_ret.
Qed.

(** X17.  [generate_credit_card] returns, for every state of the random
    generator, four groups of four decimal digits separated by "-", 19
    characters in all; it takes 16 draws and touches nothing else. *)
Theorem generate_credit_card_format :
  forall rng w,
    let r := generate_credit_card rng w in
    (exists g1 g2 g3 g4,
       r.1 = g1 +:+ "-" +:+ g2 +:+ "-" +:+ g3 +:+ "-" +:+ g4 /\
       Forall digit_group [g1; g2; g3; g4]) /\
    String.length r.1 = 19%nat /\
    shared r.2 = shared w /\ exchanges r.2 = exchanges w /\
    sink r.2 = sink w /\ draws r.2 = (draws w + 16)%nat.
Proof.
  intros rng w r.
  assert (Hformat : exists g1 g2 g3 g4,
            r.1 = g1 +:+ "-" +:+ g2 +:+ "-" +:+ g3 +:+ "-" +:+ g4 /\
            Forall digit_group [g1; g2; g3; g4]).
  { subst r. unfold generate_credit_card. unfold bind at 1. unfold ret at 2.
    pose proof (repeatM_Forall digit_group 4 _ (digits_group_spec rng) w)
      as [Hl Hf].
    match goal with
    | |- context [let '(a, w') := ?m w in _] => destruct (m w) as [gs w1]
    end.
    simpl in *.
    destruct gs as [|g1 [|g2 [|g3 [|g4 [|? ?]]]]]; try discriminate.
    exists g1, g2, g3, g4. split; [reflexivity|exact Hf]. }
  split; [exact Hformat|]. split.
  - destruct Hformat as (g1 & g2 & g3 & g4 & -> & H).
    repeat (apply Forall_cons in H; destruct H as [?%digit_group_length H]).
    rewrite !string_length_app. simpl. lia.
  - subst r. unfold generate_credit_card.
    apply (only_draws_bind _ _ (4 * (4 * 1 + 0)) 0).
    + apply only_draws_repeatM. apply only_draws_bind.
      * apply only_draws_repeatM. unfold random_digit.
        apply (only_draws_bind _ _ 1 0); [apply only_draws_randint; lia|].
        intros d. apply only_draws_ret.
      * intros ds. apply only_draws_ret.
    + intros gs. apply only_draws_ret.
Qed.

(** X18.  [generate_product_data] returns a SKU of 10 characters, each an
    upper-case letter or a digit, one of the six manufacturers, and
    identifiers and a weight inside the ranges of its [randint] calls. *)
Theorem generate_product_data_ranges :
  forall rng w,
    let r := generate_product_data rng w in
    (exists chars,
       sku r.1 = join "" chars /\ length chars = 10%nat /\
       Forall (.∈ sku_alphabet) chars) /\
    String.length (sku r.1) = 10%nat /\
    manufacturer r.1 ∈ manufacturers /\
    1 <= category_id r.1 <= 50 /\
    10 <= weight r.1 <= 5000 /\
    1 <= some_other_id r.1 <= 10000.
Proof.
  intros rng w r. subst r. unfold generate_product_data, generate_sku.
  unfold bind, ret.
  pose proof (repeatM_Forall (.∈ sku_alphabet) 10 (pick rng sku_alphabet "")
                (fun w => pick_elem rng sku_alphabet "" w ltac:(discriminate)) w)
    as [Hl Hf].
  destruct (repeatM 10 (pick rng sku_alphabet "") w) as [chars w1].
  simpl in Hl, Hf.
  pose proof (pick_elem rng manufacturers "" w1 ltac:(discriminate)) as Hm.
  destruct (pick rng manufacturers "" w1) as [m w2]. simpl in Hm.
  unfold randint, bind, draw, ret.
  cbn [Z.ltb Z.compare Pos.compare Pos.compare_cont fst snd draws default
       sku manufacturer category_id weight some_other_id].
  split; [exists chars; auto|].
  split.
  { rewrite join_empty_length; [exact Hl|].
    eapply Forall_impl; [exact Hf|]. intros c. apply sku_char_length. }
  split; [exact Hm|].
  unfold id.
  change (50 - 1 + 1) with 50. change (5000 - 10 + 1) with 4991.
  change (10000 - 1 + 1) with 10000.
  pose proof (Z.mod_pos_bound (Z.of_nat (rng (draws w2))) 50 ltac:(lia)).
  pose proof (Z.mod_pos_bound (Z.of_nat (rng (S (draws w2)))) 4991 ltac:(lia)).
  pose proof (Z.mod_pos_bound (Z.of_nat (rng (S (S (draws w2))))) 10000 ltac:(lia)).
  lia.
Qed.
